(** * Backtesting engine, reference strategies and historical statistics

    A shallow embedding of [BacktestEngine] (backtest, isBetWinner,
    calculateHistoricalStats, prepareMarketSnapshot) and of the reference
    strategies (whale copy trading, spike reversal, market making) with their
    shared helpers (resolveMode, isMarketEligible, determineDecisionTime,
    clampPrice).

    Conventions of the embedding:
    - a JavaScript [number] is an IEEE 754 binary64 value: Rocq's primitive
      [float], whose [+ - * /], [sqrt] and comparisons are the correctly
      rounded operations JavaScript uses;
    - a [Date] is its time value in milliseconds since the epoch, an integer
      ([Z]); only valid dates are represented;
    - [T | null] is [option T]; arrays are lists; [push] appends at the end;
    - the wall clock read by [new Date()] is an explicit argument [now];
    - [console.log] calls are diagnostic output and are left out. *)

From Stdlib Require Import ZArith List String Ascii Bool Lia.
From Stdlib Require Import Floats Permutation Sorted.
Import ListNotations.

Set Warnings "-inexact-float".
Local Open Scope float_scope.

(** ** The JavaScript values and built-ins the code uses *)

Definition number : Set := float.
Definition Date : Set := Z.

Module JS.

(** Conversion of an integer to the nearest [number] (exact below 2^53,
    hence for every array length and every valid time value). *)
Definition number_of_Z (z : Z) : number :=
  SF2Prim (binary_normalize prec emax z 0 false).

Definition number_of_nat (n : nat) : number := number_of_Z (Z.of_nat n).

(** [date.getTime()] *)
Definition getTime (d : Date) : number := number_of_Z d.

(** [Math.max(a, b)] and [Math.min(a, b)]: NaN if either argument is NaN,
    and -0 is smaller than +0. *)
Definition Math_max (a b : number) : number :=
  if is_nan a || is_nan b then nan
  else if a <? b then b
  else if b <? a then a
  else if is_zero a && get_sign a then b else a.

Definition Math_min (a b : number) : number :=
  if is_nan a || is_nan b then nan
  else if a <? b then a
  else if b <? a then b
  else if is_zero a && get_sign a then a else b.

Definition Math_abs (x : number) : number := abs x.
Definition Math_sqrt (x : number) : number := sqrt x.

(** [Math.pow(x, 2)], taken as the correctly rounded square. *)
Definition Math_pow2 (x : number) : number := x * x.

(** [Math.floor(x)].  A finite [x] is [(-1)^s * m * 2^e]; a right shift of
    the signed mantissa rounds towards minus infinity. *)
Definition Math_floor (x : number) : number :=
  match Prim2SF x with
  | S754_finite s m e =>
      if (0 <=? e)%Z then x
      else number_of_Z (Z.shiftr (cond_Zopp s (Zpos m)) (- e))
  | _ => x
  end.

(** [ToIntegerOrInfinity], the conversion [slice] and [new Date(n)] apply to
    a numeric argument: NaN becomes 0, a finite value is truncated. *)
Inductive integer_or_infinity : Set :=
| NegInf
| Int (z : Z)
| PosInf.

Definition ToIntegerOrInfinity (x : number) : integer_or_infinity :=
  match Prim2SF x with
  | S754_nan => Int 0
  | S754_zero _ => Int 0
  | S754_infinity s => if s then NegInf else PosInf
  | S754_finite s m e =>
      if (0 <=? e)%Z then Int (cond_Zopp s (Zpos m * 2 ^ e))
      else Int (cond_Zopp s (Z.shiftr (Zpos m) (- e)))
  end.

(** [new Date(n)] for a time value inside the range of valid dates. *)
Definition new_Date (n : number) : Date :=
  match ToIntegerOrInfinity n with
  | Int z => z
  | _ => 0%Z
  end.

(** The relative index of [Array.prototype.slice]: a negative index counts
    from the end, and the result is clamped into [0, len]. *)
Definition relativeIndex (len : Z) (i : integer_or_infinity) : Z :=
  match i with
  | NegInf => 0
  | Int z => if (z <? 0)%Z then Z.max (len + z) 0 else Z.min z len
  | PosInf => len
  end.

(** [array.slice(start, end)]; [end] absent is [None]. *)
Definition slice {A : Type} (l : list A) (start : number) (end_ : option number)
  : list A :=
  let len := Z.of_nat (List.length l) in
  let k := relativeIndex len (ToIntegerOrInfinity start) in
  let final :=
    match end_ with
    | None => len
    | Some e => relativeIndex len (ToIntegerOrInfinity e)
    end in
  firstn (Z.to_nat (Z.max (final - k) 0)) (skipn (Z.to_nat k) l).

(** [array[array.length - 1]] on a non-empty array. *)
Definition last_item {A : Type} (l : list A) : option A :=
  nth_error l (List.length l - 1).

(** [String.prototype.toLowerCase] on ASCII text: the letters A-Z are mapped
    to a-z, every other character is kept.  JavaScript also lowers the cased
    letters outside ASCII; a label holding such a character is outside this
    embedding, and the properties that depend on the lowering are stated for
    ASCII labels. *)
Definition lower_ascii (c : ascii) : ascii :=
  let n := nat_of_ascii c in
  if (65 <=? n)%nat && (n <=? 90)%nat then ascii_of_nat (n + 32) else c.

Fixpoint toLowerCase (s : string) : string :=
  match s with
  | EmptyString => EmptyString
  | String c s' => String (lower_ascii c) (toLowerCase s')
  end.

(** A stable sort by insertion: [x] is placed before the first element it
    may precede.  Every stable sort returns this list when [before] comes
    from a consistent comparator. *)
Section StableSort.
Context {A : Type} (before : A -> A -> bool).

Fixpoint insert (x : A) (l : list A) : list A :=
  match l with
  | [] => [x]
  | y :: l' => if before x y then x :: y :: l' else y :: insert x l'
  end.

Fixpoint stable_sort (l : list A) : list A :=
  match l with
  | [] => []
  | x :: l' => insert x (stable_sort l')
  end.
End StableSort.

(** [array.sort(comparefn)]: [a] stays before [b] unless [comparefn(a, b)]
    is positive; a NaN result counts as 0. *)
Definition Array_sort {A : Type} (comparefn : A -> A -> number) (l : list A)
  : list A :=
  stable_sort (fun a b => negb (0 <? comparefn a b)) l.

End JS.

(** ** lodash: [orderBy] and [mean] *)

Module Lodash.

(** [compareAscending] on numbers: NaN sorts after every number. *)
Definition compareAscending_number (value other : number) : comparison :=
  if value =? other then Eq
  else if is_nan value then Gt
  else if is_nan other then Lt
  else if other <? value then Gt
  else if value <? other then Lt
  else Eq.

(** [compareAscending] on dates, compared through their time values. *)
Definition compareAscending_Date (value other : Date) : comparison :=
  Z.compare value other.

(** [compareAscending] on [Date | null]: [null] sorts after every date. *)
Definition compareAscending_nullable (value other : option Date) : comparison :=
  match value, other with
  | Some v, Some o => compareAscending_Date v o
  | Some _, None => Lt
  | None, Some _ => Gt
  | None, None => Eq
  end.

Inductive order : Set := asc | desc.

(** [orderBy(collection, [key], [order])]: a stable sort on the key; for
    [desc] the comparison is reversed and ties keep their input order. *)
Definition orderBy {A K : Type} (cmp : K -> K -> comparison) (key : A -> K)
  (o : order) (l : list A) : list A :=
  let c a b :=
    match o with
    | asc => cmp (key a) (key b)
    | desc => CompOpp (cmp (key a) (key b))
    end in
  JS.stable_sort
    (fun a b => match c a b with Gt => false | _ => true end) l.

(** [baseSum]: the running sum starts from the first element. *)
Definition sum (l : list number) : option number :=
  match l with
  | [] => None
  | x :: l' => Some (fold_left (fun acc y => acc + y) l' x)
  end.

(** [mean(array)]: NaN on the empty array. *)
Definition mean (l : list number) : number :=
  match sum l with
  | None => nan
  | Some s => s / JS.number_of_nat (List.length l)
  end.

End Lodash.

(** ** Data model *)

Inductive Side : Set := buy | sell.

Module PricePoint.
Record t : Set := mk {
  timestamp : Date;
  price : number;
  outcome : string
}.
End PricePoint.

Module Trade.
Record t : Set := mk {
  timestamp : Date;
  side : Side;
  amount : number;
  price : number;
  outcome : string;
  maker : option string;
  taker : option string
}.
End Trade.

Module Market.
Record t : Set := mk {
  marketId : string;
  question : string;
  outcomes : list string;
  resolutionDate : option Date;
  historicalPrices : list PricePoint.t;
  trades : list Trade.t;
  resolvedOutcome : option string;
  volume : number;
  liquidity : number;
  active : bool;
  endDate : option Date;
  image : option string;
  category : option string
}.
End Market.

Definition PolymarketMarket : Set := Market.t.

(** A template literal kept unrendered: its text and the numbers it prints
    with [toFixed(digits)]. *)
Inductive ReasonPart : Set :=
| Text (s : string)
| Fixed (x : number) (digits : nat).

Module Bet.
Record t : Set := mk {
  marketId : string;
  outcome : string;
  side : Side;
  amount : number;
  priceLimit : number;
  reason : list ReasonPart;
  timestamp : Date
}.
End Bet.

Inductive StrategyMode : Set := live | backtest_mode.

Module StrategyContext.
Record t : Set := mk {
  mode : option StrategyMode;
  asOf : option Date;
  trainingMarkets : option (list Market.t);
  evaluationMarkets : option (list Market.t)
}.
End StrategyContext.

Inductive StrategyType : Set :=
| copy_trading | spike_detection | market_making | ai_generated.

Module Strategy.
(** [generateBets] receives the wall clock reading as its first argument. *)
Record t : Type := mk {
  id : string;
  name : string;
  description : string;
  type : StrategyType;
  generateBets : Date -> list Market.t -> StrategyContext.t -> list Bet.t;
  parameters : list (string * number)
}.
End Strategy.

Inductive BetResult : Set := win | loss | pending.

Module BacktestBet.
Record t : Set := mk {
  marketId : string;
  outcome : string;
  side : Side;
  amount : number;
  priceLimit : number;
  reason : list ReasonPart;
  timestamp : Date;
  result : BetResult;
  payout : number;
  cost : number
}.
End BacktestBet.

Module EarningsPoint.
Record t : Set := mk {
  timestamp : Date;
  cumulativeEarnings : number;
  strategyId : string
}.
End EarningsPoint.

Module BacktestResult.
Record t : Set := mk {
  strategyId : string;
  strategyName : string;
  totalBets : nat;
  wins : nat;
  losses : nat;
  winRate : number;
  totalCost : number;
  totalWinnings : number;
  netProfit : number;
  roi : number;
  bets : list BacktestBet.t;
  earningsOverTime : list EarningsPoint.t
}.
End BacktestResult.

(** JavaScript truthiness of a [string | null]: [null] and the empty string
    are falsy. *)
Definition truthy (s : option string) : option string :=
  match s with
  | Some EmptyString => None
  | Some s' => Some s'
  | None => None
  end.

(** ** Reference strategies and their shared helpers *)

Module Strategies.

Module CopyTradingParams.
Record t : Set := mk {
  minWhaleVolume : number;
  copyDelay : number;
  betSize : number;
  maxBetsPerMarket : number;
  minMarketLiquidity : number
}.
End CopyTradingParams.

Module SpikeDetectionParams.
Record t : Set := mk {
  spikeThreshold : number;
  lookbackWindow : number;
  betSize : number
}.
End SpikeDetectionParams.

Module MarketMakingParams.
Record t : Set := mk {
  minSpread : number;
  maxSpread : number;
  betSizePerSide : number;
  minLiquidity : number
}.
End MarketMakingParams.

Definition COPY_TRADING_DEFAULTS : CopyTradingParams.t :=
  {| CopyTradingParams.minWhaleVolume := 1000;
     CopyTradingParams.copyDelay := 7200;
     CopyTradingParams.betSize := 100;
     CopyTradingParams.maxBetsPerMarket := 3;
     CopyTradingParams.minMarketLiquidity := 50000 |}.

Definition SPIKE_DETECTION_DEFAULTS : SpikeDetectionParams.t :=
  {| SpikeDetectionParams.spikeThreshold := 0.05;
     SpikeDetectionParams.lookbackWindow := 24;
     SpikeDetectionParams.betSize := 100 |}.

Definition MARKET_MAKING_DEFAULTS : MarketMakingParams.t :=
  {| MarketMakingParams.minSpread := 0.02;
     MarketMakingParams.maxSpread := 0.08;
     MarketMakingParams.betSizePerSide := 100;
     MarketMakingParams.minLiquidity := 30000 |}.

(** [context?.mode ?? 'live'] *)
Definition resolveMode (context : StrategyContext.t) : StrategyMode :=
  match StrategyContext.mode context with
  | Some mode => mode
  | None => live
  end.

Definition isMarketEligible (market : Market.t) (mode : StrategyMode) : bool :=
  match mode with
  | backtest_mode => true
  | live =>
      match truthy (Market.resolvedOutcome market) with
      | Some _ => false
      | None => Market.active market
      end
  end.

Definition determineDecisionTime (now : Date) (market : Market.t)
  (mode : StrategyMode) : Date :=
  match mode with
  | backtest_mode =>
      match
        (if (0 <? List.length (Market.historicalPrices market))%nat
         then JS.last_item (Market.historicalPrices market)
         else None)
      with
      | Some latestPoint => PricePoint.timestamp latestPoint
      | None =>
          match Market.endDate market with
          | Some endDate => endDate
          | None =>
              match Market.resolutionDate market with
              | Some resolutionDate => resolutionDate
              | None => now
              end
          end
      end
  | live => now
  end.

Definition clampPrice (price : number) : number :=
  JS.Math_max 0.01 (JS.Math_min 0.99 price).

(** [market.outcomes[0]].  The data model gives every market at least one
    outcome label; on an empty array JavaScript yields [undefined], which
    the [string] field of a bet cannot hold, and the empty string stands in
    for it here. *)
Definition primaryOutcome (market : Market.t) : string :=
  nth 0 (Market.outcomes market) EmptyString.

(** *** Strategy 1: whale copy trading *)

Definition copyTrading_market (params : CopyTradingParams.t) (now : Date)
  (mode : StrategyMode) (market : Market.t) : list Bet.t :=
  if negb (isMarketEligible market mode) then []
  else if Market.liquidity market <? CopyTradingParams.minMarketLiquidity params
  then []
  else
    let decisionTime := determineDecisionTime now market mode in
    let whaleTrades :=
      filter
        (fun trade =>
           if Trade.amount trade <? CopyTradingParams.minWhaleVolume params
           then false
           else JS.getTime (Trade.timestamp trade) <=? JS.getTime decisionTime)
        (Market.trades market) in
    let recentWhales :=
      filter
        (fun trade =>
           let timeDiff :=
             (JS.getTime decisionTime - JS.getTime (Trade.timestamp trade))
             / 1000 in
           (0 <=? timeDiff) && (timeDiff <=? CopyTradingParams.copyDelay params))
        whaleTrades in
    let topWhales :=
      JS.slice
        (Lodash.orderBy Lodash.compareAscending_number Trade.amount
           Lodash.desc recentWhales)
        0 (Some (CopyTradingParams.maxBetsPerMarket params)) in
    map
      (fun whaleTrade =>
         {| Bet.marketId := Market.marketId market;
            Bet.outcome := Trade.outcome whaleTrade;
            Bet.side := Trade.side whaleTrade;
            Bet.amount := CopyTradingParams.betSize params;
            Bet.priceLimit := clampPrice (Trade.price whaleTrade + 0.02);
            Bet.reason :=
              [Text "Whale $"; Fixed (Trade.amount whaleTrade) 0;
               Text " @ "; Fixed (Trade.price whaleTrade) 3];
            Bet.timestamp := decisionTime |})
      topWhales.

Definition copyTrading_generateBets (params : CopyTradingParams.t)
  (now : Date) (markets : list Market.t) (context : StrategyContext.t)
  : list Bet.t :=
  let mode := resolveMode context in
  flat_map (copyTrading_market params now mode) markets.

(** The strategy object with its [parameters], which the improvement loop
    rewrites between runs and [generateBets] reads on every call. *)
Definition copyTradingStrategy_with (params : CopyTradingParams.t)
  : Strategy.t :=
  {| Strategy.id := "copy_trading";
     Strategy.name := "Whale Copy Trading";
     Strategy.description :=
       "Copy trades from high-volume addresses (whales) within 1 hour";
     Strategy.type := copy_trading;
     Strategy.generateBets := copyTrading_generateBets params;
     Strategy.parameters :=
       [("minWhaleVolume"%string, CopyTradingParams.minWhaleVolume params);
        ("copyDelay"%string, CopyTradingParams.copyDelay params);
        ("betSize"%string, CopyTradingParams.betSize params);
        ("maxBetsPerMarket"%string, CopyTradingParams.maxBetsPerMarket params);
        ("minMarketLiquidity"%string,
          CopyTradingParams.minMarketLiquidity params)] |}.

Definition copyTradingStrategy : Strategy.t :=
  copyTradingStrategy_with COPY_TRADING_DEFAULTS.

(** *** Strategy 2: spike detection *)

Definition spikeDetection_market (now : Date) (mode : StrategyMode)
  (market : Market.t) : list Bet.t :=
  let spikeThreshold :=
    SpikeDetectionParams.spikeThreshold SPIKE_DETECTION_DEFAULTS in
  let lookbackWindow :=
    SpikeDetectionParams.lookbackWindow SPIKE_DETECTION_DEFAULTS in
  let betSize := SpikeDetectionParams.betSize SPIKE_DETECTION_DEFAULTS in
  if negb (isMarketEligible market mode) then []
  else if (List.length (Market.historicalPrices market) <? 10)%nat then []
  else
    let decisionTime := determineDecisionTime now market mode in
    let sortedPrices :=
      Lodash.orderBy Lodash.compareAscending_Date PricePoint.timestamp
        Lodash.asc (Market.historicalPrices market) in
    let cutoffTime :=
      JS.new_Date (JS.getTime decisionTime - lookbackWindow * 60 * 60 * 1000) in
    let recentPrices :=
      filter
        (fun p =>
           (cutoffTime <=? PricePoint.timestamp p)%Z
           && (JS.getTime (PricePoint.timestamp p) <=? JS.getTime decisionTime))
        sortedPrices in
    if (List.length recentPrices <? 5)%nat then []
    else
      match JS.last_item recentPrices with
      | None => []
      | Some latest =>
          let avgPrice := Lodash.mean (map PricePoint.price recentPrices) in
          let currentPrice := PricePoint.price latest in
          let priceChange := (currentPrice - avgPrice) / avgPrice in
          if spikeThreshold <? JS.Math_abs priceChange then
            let betSide := if 0 <? priceChange then sell else buy in
            let targetPrice :=
              match betSide with
              | sell => currentPrice - 0.03
              | buy => currentPrice + 0.03
              end in
            [{| Bet.marketId := Market.marketId market;
                Bet.outcome := primaryOutcome market;
                Bet.side := betSide;
                Bet.amount := betSize;
                Bet.priceLimit := clampPrice targetPrice;
                Bet.reason :=
                  [Text "Spike detected: "; Fixed (priceChange * 100) 1;
                   Text "% change. Betting on reversion to mean ";
                   Fixed avgPrice 3];
                Bet.timestamp := decisionTime |}]
          else []
      end.

Definition spikeDetection_generateBets (now : Date)
  (markets : list Market.t) (context : StrategyContext.t) : list Bet.t :=
  let mode := resolveMode context in
  flat_map (spikeDetection_market now mode) markets.

Definition spikeDetectionStrategy : Strategy.t :=
  {| Strategy.id := "spike_detection";
     Strategy.name := "Price Spike Reversal";
     Strategy.description :=
       "Detect price spikes >5% and bet on mean reversion";
     Strategy.type := spike_detection;
     Strategy.generateBets := spikeDetection_generateBets;
     Strategy.parameters :=
       [("spikeThreshold"%string,
          SpikeDetectionParams.spikeThreshold SPIKE_DETECTION_DEFAULTS);
        ("lookbackWindow"%string,
          SpikeDetectionParams.lookbackWindow SPIKE_DETECTION_DEFAULTS);
        ("betSize"%string,
          SpikeDetectionParams.betSize SPIKE_DETECTION_DEFAULTS)] |}.

(** *** Strategy 3: market making *)

Definition marketMaking_market (now : Date) (mode : StrategyMode)
  (market : Market.t) : list Bet.t :=
  let minSpread := MarketMakingParams.minSpread MARKET_MAKING_DEFAULTS in
  let maxSpread := MarketMakingParams.maxSpread MARKET_MAKING_DEFAULTS in
  let betSizePerSide :=
    MarketMakingParams.betSizePerSide MARKET_MAKING_DEFAULTS in
  let minLiquidity := MarketMakingParams.minLiquidity MARKET_MAKING_DEFAULTS in
  if negb (isMarketEligible market mode) then []
  else if Market.liquidity market <? minLiquidity then []
  else
    match JS.last_item (Market.historicalPrices market) with
    | None => []
    | Some latest =>
        let currentPrice := PricePoint.price latest in
        let decisionTime := determineDecisionTime now market mode in
        let recentPrices := JS.slice (Market.historicalPrices market) (-20) None in
        let volatility :=
          if (1 <? List.length recentPrices)%nat then
            JS.Math_sqrt
              (Lodash.mean
                 (map (fun p => JS.Math_pow2 (PricePoint.price p - currentPrice))
                    recentPrices))
          else 0.03 in
        let spread :=
          JS.Math_max minSpread (JS.Math_min maxSpread (volatility * 2)) in
        [{| Bet.marketId := Market.marketId market;
            Bet.outcome := primaryOutcome market;
            Bet.side := buy;
            Bet.amount := betSizePerSide;
            Bet.priceLimit := clampPrice (currentPrice - spread / 2);
            Bet.reason :=
              [Text "Market making: bid at ";
               Fixed (currentPrice - spread / 2) 3];
            Bet.timestamp := decisionTime |};
         {| Bet.marketId := Market.marketId market;
            Bet.outcome := primaryOutcome market;
            Bet.side := sell;
            Bet.amount := betSizePerSide;
            Bet.priceLimit := clampPrice (currentPrice + spread / 2);
            Bet.reason :=
              [Text "Market making: ask at ";
               Fixed (currentPrice + spread / 2) 3];
            Bet.timestamp := decisionTime |}]
    end.

Definition marketMaking_generateBets (now : Date)
  (markets : list Market.t) (context : StrategyContext.t) : list Bet.t :=
  let mode := resolveMode context in
  flat_map (marketMaking_market now mode) markets.

Definition marketMakingStrategy : Strategy.t :=
  {| Strategy.id := "market_making";
     Strategy.name := "Liquidity Provider Market Making";
     Strategy.description :=
       "Place balanced bids/asks with spreads for high-liquidity markets";
     Strategy.type := market_making;
     Strategy.generateBets := marketMaking_generateBets;
     Strategy.parameters :=
       [("minSpread"%string, MarketMakingParams.minSpread MARKET_MAKING_DEFAULTS);
        ("maxSpread"%string, MarketMakingParams.maxSpread MARKET_MAKING_DEFAULTS);
        ("betSizePerSide"%string,
          MarketMakingParams.betSizePerSide MARKET_MAKING_DEFAULTS);
        ("minLiquidity"%string,
          MarketMakingParams.minLiquidity MARKET_MAKING_DEFAULTS)] |}.

(** *** Strategy 4: the placeholder for generated strategies *)

Definition aiGeneratedStrategy : Strategy.t :=
  {| Strategy.id := "ai_generated";
     Strategy.name := "AI-Generated Strategy";
     Strategy.description :=
       "Dynamically generated by OpenAI based on market conditions";
     Strategy.type := ai_generated;
     Strategy.generateBets := fun _ _ _ => [];
     Strategy.parameters := [] |}.

Definition defaultStrategies : list Strategy.t := [copyTradingStrategy].

End Strategies.

(** ** The backtest engine *)

Module HistoricalStats.
Record volatile : Set := mkVolatile {
  marketId : string;
  question : string;
  variance : number
}.

Record t : Set := mk {
  totalMarkets : nat;
  resolvedMarkets : nat;
  avgVolume : number;
  avgLiquidity : number;
  volatileMarkets : list volatile;
  topOutcomes : list (string * nat)
}.
End HistoricalStats.

Module BacktestEngine.

Definition DEFAULT_TRAINING_RATIO : number := 0.8.

(** Determine if a bet won based on market resolution. *)
Definition isBetWinner (bet : Bet.t) (resolvedOutcome : string) : bool :=
  match Bet.side bet with
  | buy =>
      String.eqb (JS.toLowerCase (Bet.outcome bet))
        (JS.toLowerCase resolvedOutcome)
  | sell =>
      negb (String.eqb (JS.toLowerCase (Bet.outcome bet))
              (JS.toLowerCase resolvedOutcome))
  end.

(** Prepare a market snapshot so strategies see unresolved data. *)
Definition prepareMarketSnapshot (market : Market.t) : Market.t :=
  let historicalPrices :=
    Lodash.orderBy Lodash.compareAscending_Date PricePoint.timestamp
      Lodash.asc (Market.historicalPrices market) in
  let trades :=
    Lodash.orderBy Lodash.compareAscending_Date Trade.timestamp
      Lodash.asc (Market.trades market) in
  {| Market.marketId := Market.marketId market;
     Market.question := Market.question market;
     Market.outcomes := Market.outcomes market;
     Market.resolutionDate := Market.resolutionDate market;
     Market.historicalPrices := historicalPrices;
     Market.trades := trades;
     Market.resolvedOutcome := None;
     Market.volume := Market.volume market;
     Market.liquidity := Market.liquidity market;
     Market.active := true;
     Market.endDate := Market.endDate market;
     Market.image := Market.image market;
     Market.category := Market.category market |}.

(** The state of the loop over the proposed bets. *)
Record Simulation : Set := mkSimulation {
  backtestBets : list BacktestBet.t;
  cumulativeEarnings : number;
  earningsOverTime : list EarningsPoint.t
}.

(** [testMarkets.find((m) => m.marketId === marketId)] *)
Definition findMarket (testMarkets : list Market.t) (marketId : string)
  : option Market.t :=
  find (fun m => String.eqb (Market.marketId m) marketId) testMarkets.

(** The body of [proposedBets.forEach]. *)
Definition simulateBet (strategyId : string) (testMarkets : list Market.t)
  (st : Simulation) (bet : Bet.t) : Simulation :=
  match findMarket testMarkets (Bet.marketId bet) with
  | None => st
  | Some market =>
      match truthy (Market.resolvedOutcome market) with
      | None => st
      | Some resolvedOutcome =>
          let betWon := isBetWinner bet resolvedOutcome in
          let cost := Bet.amount bet * Bet.priceLimit bet in
          let payout := if betWon then Bet.amount bet else 0 in
          let cumulativeEarnings' := cumulativeEarnings st + (payout - cost) in
          {| backtestBets :=
               backtestBets st ++
               [{| BacktestBet.marketId := Bet.marketId bet;
                   BacktestBet.outcome := Bet.outcome bet;
                   BacktestBet.side := Bet.side bet;
                   BacktestBet.amount := Bet.amount bet;
                   BacktestBet.priceLimit := Bet.priceLimit bet;
                   BacktestBet.reason := Bet.reason bet;
                   BacktestBet.timestamp := Bet.timestamp bet;
                   BacktestBet.result := if betWon then win else loss;
                   BacktestBet.payout := payout;
                   BacktestBet.cost := cost |}];
             cumulativeEarnings := cumulativeEarnings';
             earningsOverTime :=
               earningsOverTime st ++
               [{| EarningsPoint.timestamp := Bet.timestamp bet;
                   EarningsPoint.cumulativeEarnings := cumulativeEarnings';
                   EarningsPoint.strategyId := strategyId |}] |}
      end
  end.

Definition simulate (strategyId : string) (testMarkets : list Market.t)
  (proposedBets : list Bet.t) : Simulation :=
  fold_left (simulateBet strategyId testMarkets) proposedBets
    {| backtestBets := []; cumulativeEarnings := 0; earningsOverTime := [] |}.

Definition isWin (b : BacktestBet.t) : bool :=
  match BacktestBet.result b with win => true | _ => false end.

Definition isLoss (b : BacktestBet.t) : bool :=
  match BacktestBet.result b with loss => true | _ => false end.

(** Calculate metrics. *)
Definition metrics (strategy : Strategy.t) (sim : Simulation)
  : BacktestResult.t :=
  let backtestBets := backtestBets sim in
  let wins := List.length (filter isWin backtestBets) in
  let losses := List.length (filter isLoss backtestBets) in
  let totalCost :=
    fold_left (fun sum b => sum + BacktestBet.cost b) backtestBets 0 in
  let totalWinnings :=
    fold_left (fun sum b => sum + BacktestBet.payout b) backtestBets 0 in
  let netProfit := totalWinnings - totalCost in
  let roi := if 0 <? totalCost then (netProfit / totalCost) * 100 else 0 in
  {| BacktestResult.strategyId := Strategy.id strategy;
     BacktestResult.strategyName := Strategy.name strategy;
     BacktestResult.totalBets := List.length backtestBets;
     BacktestResult.wins := wins;
     BacktestResult.losses := losses;
     BacktestResult.winRate :=
       if (0 <? List.length backtestBets)%nat
       then (JS.number_of_nat wins
             / JS.number_of_nat (List.length backtestBets)) * 100
       else 0;
     BacktestResult.totalCost := totalCost;
     BacktestResult.totalWinnings := totalWinnings;
     BacktestResult.netProfit := netProfit;
     BacktestResult.roi := roi;
     BacktestResult.bets := backtestBets;
     BacktestResult.earningsOverTime := earningsOverTime sim |}.

(** The pieces of [backtest], in the order the method computes them. *)
Definition isResolved (m : Market.t) : bool :=
  match Market.resolvedOutcome m with Some _ => true | None => false end.

Definition resolvedMarkets (markets : list Market.t) : list Market.t :=
  filter isResolved markets.

Definition sortedMarkets (markets : list Market.t) : list Market.t :=
  Lodash.orderBy Lodash.compareAscending_nullable Market.endDate Lodash.asc
    (resolvedMarkets markets).

Definition splitIndex (markets : list Market.t) (trainingRatio : number)
  : number :=
  JS.Math_floor
    (JS.number_of_nat (List.length (sortedMarkets markets)) * trainingRatio).

Definition testMarkets (markets : list Market.t) (trainingRatio : number)
  : list Market.t :=
  JS.slice (sortedMarkets markets) (splitIndex markets trainingRatio) None.

Definition trainingMarkets (markets : list Market.t) (trainingRatio : number)
  : list Market.t :=
  JS.slice (sortedMarkets markets) 0 (Some (splitIndex markets trainingRatio)).

Definition preparedTestMarkets (markets : list Market.t)
  (trainingRatio : number) : list Market.t :=
  map prepareMarketSnapshot (testMarkets markets trainingRatio).

Definition backtestContext (markets : list Market.t) (trainingRatio : number)
  : StrategyContext.t :=
  {| StrategyContext.mode := Some backtest_mode;
     StrategyContext.asOf := None;
     StrategyContext.trainingMarkets :=
       Some (trainingMarkets markets trainingRatio);
     StrategyContext.evaluationMarkets :=
       Some (testMarkets markets trainingRatio) |}.

Definition proposedBets (now : Date) (strategy : Strategy.t)
  (markets : list Market.t) (trainingRatio : number) : list Bet.t :=
  Strategy.generateBets strategy now
    (preparedTestMarkets markets trainingRatio)
    (backtestContext markets trainingRatio).

(** [backtest(strategy, markets, trainingRatio = 0.8)]; an omitted third
    argument is [None]. *)
Definition ratioOrDefault (trainingRatio : option number) : number :=
  match trainingRatio with
  | Some r => r
  | None => DEFAULT_TRAINING_RATIO
  end.

Definition backtest (now : Date) (strategy : Strategy.t)
  (markets : list Market.t) (trainingRatio : option number)
  : BacktestResult.t :=
  let trainingRatio := ratioOrDefault trainingRatio in
  metrics strategy
    (simulate (Strategy.id strategy) (testMarkets markets trainingRatio)
       (proposedBets now strategy markets trainingRatio)).

(** *** Historical statistics *)

Definition varianceOf (m : Market.t) : number :=
  let prices := map PricePoint.price (Market.historicalPrices m) in
  fold_left (fun sum p => sum + JS.Math_pow2 (p - 0.5)) prices 0
  / JS.number_of_nat (List.length prices).

Definition volatileMarkets (markets : list Market.t)
  : list HistoricalStats.volatile :=
  JS.slice
    (JS.Array_sort
       (fun a b => HistoricalStats.variance b - HistoricalStats.variance a)
       (map
          (fun m =>
             {| HistoricalStats.marketId := Market.marketId m;
                HistoricalStats.question := Market.question m;
                HistoricalStats.variance := varianceOf m |})
          (filter
             (fun m => (10 <? List.length (Market.historicalPrices m))%nat)
             markets)))
    0 (Some 5).

(** [acc[key] = (acc[key] || 0) + 1] on an object used as a table. *)
Fixpoint countOutcome (key : string) (acc : list (string * nat))
  : list (string * nat) :=
  match acc with
  | [] => [(key, 1%nat)]
  | (k, n) :: acc' =>
      if String.eqb k key then (k, S n) :: acc'
      else (k, n) :: countOutcome key acc'
  end.

Definition outcomeFreq (resolved : list Market.t) : list (string * nat) :=
  fold_left
    (fun acc m =>
       match Market.resolvedOutcome m with
       | Some o => countOutcome o acc
       | None => acc
       end)
    resolved [].

Definition calculateHistoricalStats (markets : list Market.t)
  : HistoricalStats.t :=
  let resolved := resolvedMarkets markets in
  {| HistoricalStats.totalMarkets := List.length markets;
     HistoricalStats.resolvedMarkets := List.length resolved;
     HistoricalStats.avgVolume :=
       if (0 <? List.length markets)%nat
       then fold_left (fun sum m => sum + Market.volume m) markets 0
            / JS.number_of_nat (List.length markets)
       else 0;
     HistoricalStats.avgLiquidity :=
       if (0 <? List.length markets)%nat
       then fold_left (fun sum m => sum + Market.liquidity m) markets 0
            / JS.number_of_nat (List.length markets)
       else 0;
     HistoricalStats.volatileMarkets := volatileMarkets markets;
     HistoricalStats.topOutcomes := outcomeFreq resolved |}.

End BacktestEngine.

(** ** Notions the specification uses *)

Module Spec.

(** Case-insensitive comparison of two labels, character by character: two
    characters agree when they are equal or are the two cases of one
    letter (their codes differ by 32 inside A-Z / a-z). *)
Definition isLetter (c : ascii) : bool :=
  let n := nat_of_ascii c in
  ((65 <=? n) && (n <=? 90) || (97 <=? n) && (n <=? 122))%nat.

Definition sameLetter (a b : ascii) : bool :=
  Ascii.eqb a b
  || (isLetter a && isLetter b
      && ((nat_of_ascii a =? nat_of_ascii b + 32)
          || (nat_of_ascii b =? nat_of_ascii a + 32))%nat).

Fixpoint equalIgnoringCase (s t : string) : bool :=
  match s, t with
  | EmptyString, EmptyString => true
  | String a s', String b t' => sameLetter a b && equalIgnoringCase s' t'
  | _, _ => false
  end.

(** A label of ASCII characters only (codes below 128).  On such text
    [String.prototype.toLowerCase] maps A-Z to a-z and keeps every other
    character, which is what [JS.toLowerCase] computes. *)
Definition isAscii (s : string) : bool :=
  forallb (fun c => (nat_of_ascii c <? 128)%nat) (list_ascii_of_string s).

(** A price inside the closed interval [0.01, 0.99]. *)
Definition inPriceRange (p : number) : Prop :=
  (0.01 <=? p) = true /\ (p <=? 0.99) = true.

(** The "last element" of a sequence, as the decision-time rule words it. *)
Definition lastElement {A : Type} (l : list A) : option A :=
  match rev l with
  | [] => None
  | x :: _ => Some x
  end.

(** The decision-time rule of the specification. *)
Definition decisionTime (now : Date) (market : Market.t)
  (mode : StrategyMode) : Date :=
  match mode with
  | live => now
  | backtest_mode =>
      match lastElement (Market.historicalPrices market),
            Market.endDate market, Market.resolutionDate market with
      | Some p, _, _ => PricePoint.timestamp p
      | None, Some d, _ => d
      | None, None, Some d => d
      | None, None, None => now
      end
  end.

(** Ascending order of timestamps and of nullable end dates (null last). *)
Definition dateLe (a b : Date) : Prop := (a <= b)%Z.


(** A market that dates its own decision: it has a price history, an end
    date or a resolution date. *)
Definition hasOwnDecisionTime (m : Market.t) : bool :=
  match Market.historicalPrices m, Market.endDate m, Market.resolutionDate m with
  | [], None, None => false
  | _, _, _ => true
  end.

(** [Number.isFinite]: neither NaN nor an infinity. *)
Definition isFinite (x : number) : bool :=
  negb (is_nan x) && negb (is_infinity x).

(** Every price of the market data is a finite number. *)
Definition finitePrices (markets : list Market.t) : bool :=
  forallb
    (fun m =>
       forallb (fun t => isFinite (Trade.price t)) (Market.trades m)
       && forallb (fun p => isFinite (PricePoint.price p))
            (Market.historicalPrices m))
    markets.

End Spec.

(** ** Array indexing by a number *)

Module JSArray.

(** [array[index]] for a numeric index: the element when the index is a
    non-negative integer below the length, [undefined] ([None]) otherwise
    (a fraction, a negative number, NaN or an infinity names no element). *)
Definition item {A : Type} (l : list A) (index : number) : option A :=
  match Prim2SF index with
  | S754_zero _ => nth_error l 0
  | S754_finite false m e =>
      if (0 <=? e)%Z then nth_error l (Z.to_nat (Zpos m * 2 ^ e))
      else if (Z.land (Zpos m) (Z.ones (- e)) =? 0)%Z
           then nth_error l (Z.to_nat (Z.shiftr (Zpos m) (- e)))
           else None
  | _ => None
  end.

End JSArray.

(** ** The data transformer of the subgraph layer *)

Module DataTransformer.

(** Sample trades evenly to get a specific number of points.  The sample
    count is a non-negative integer, as every caller passes; an index that
    names no element yields [undefined]. *)
Definition sampleTrades {A : Type} (trades : list A) (numSamples : nat)
  : list (option A) :=
  if (List.length trades <=? numSamples)%nat then map Some trades
  else
    let step :=
      JS.number_of_nat (List.length trades) / JS.number_of_nat numSamples in
    map
      (fun i => JSArray.item trades (JS.Math_floor (JS.number_of_nat i * step)))
      (seq 0 numSamples).

(** Flatten price points from multiple outcomes into a single array. *)
Definition flattenPricePoints (pricePointsArray : list (list PricePoint.t))
  : list PricePoint.t :=
  JS.Array_sort
    (fun a b =>
       JS.getTime (PricePoint.timestamp a) - JS.getTime (PricePoint.timestamp b))
    (List.concat pricePointsArray).

(** Flatten trades from multiple outcomes into a single array. *)
Definition flattenTrades (tradesArray : list (list Trade.t)) : list Trade.t :=
  JS.Array_sort
    (fun a b => JS.getTime (Trade.timestamp a) - JS.getTime (Trade.timestamp b))
    (List.concat tradesArray).

(** Calculate volume from trades. *)
Definition calculateVolumeFromTrades (trades : list Trade.t) : number :=
  fold_left (fun sum trade => sum + Trade.amount trade * Trade.price trade)
    trades 0.

(** Calculate liquidity estimate from recent trades. *)
Definition estimateLiquidityFromTrades (trades : list Trade.t) : number :=
  if (List.length trades =? 0)%nat then 0
  else
    let recentTrades := JS.slice trades (-10) None in
    fold_left (fun sum trade => sum + Trade.amount trade * Trade.price trade)
      recentTrades 0.

(** Get current price from most recent trade. *)
Definition getCurrentPriceFromTrades (trades : list Trade.t) (outcome : string)
  : number :=
  let outcomeTrades :=
    filter (fun t => String.eqb (Trade.outcome t) outcome) trades in
  if (List.length outcomeTrades =? 0)%nat then 0.5
  else
    match JS.last_item outcomeTrades with
    | Some lastTrade => Trade.price lastTrade
    | None => 0.5
    end.

End DataTransformer.

(** ** The subgraph client: pagination *)

Module SubgraphClient.

Section Paginate.
Context {T : Type}.

(** The indexer, asked for [limit] items after skipping [skip]. *)
Variable queryFn : nat -> nat -> list T.

Definition pageSize : nat := 1000.

(** The [while] loop of [paginateQuery], run for at most [fuel] turns:
    [Some results] when the loop exits within them, [None] when they are used
    up while the loop is still going. *)
Fixpoint paginateLoop (fuel maxResults : nat) (results : list T) (skip : nat)
  : option (list T) :=
  match fuel with
  | O => None
  | S fuel' =>
      if (List.length results <? maxResults)%nat then
        let page := queryFn pageSize skip in
        if (List.length page =? 0)%nat then Some results
        else
          let results' := results ++ page in
          if (List.length page <? pageSize)%nat then Some results'
          else paginateLoop fuel' maxResults results' (skip + pageSize)
      else Some results
  end.

(** Paginate through all results; [None] would be a loop still going after
    [maxResults + 1] turns. *)
Definition paginateQuery (maxResults : nat) : option (list T) :=
  option_map (firstn maxResults)
    (paginateLoop (S maxResults) maxResults [] 0).

End Paginate.

End SubgraphClient.

(** ** The application store *)

Module StrategyBenchmark.
Record t : Set := mk {
  strategyId : string;
  strategyName : string;
  epoch : nat;
  winRate : number;
  roi : number;
  netProfit : number;
  totalBets : nat;
  improvementPercent : number
}.
End StrategyBenchmark.

Module SimulationState.
Record t : Set := mk {
  isRunning : bool;
  currentEpoch : number;
  totalEpochs : number;
  progress : number;
  logs : list string
}.

(** [Partial<SimulationState>]: an absent field is [None]. *)
Record partial : Set := mkPartial {
  isRunning' : option bool;
  currentEpoch' : option number;
  totalEpochs' : option number;
  progress' : option number;
  logs' : option (list string)
}.
End SimulationState.

Module Store.

Record AppState : Type := mkAppState {
  markets : list Market.t;
  strategies : list Strategy.t;
  backtestResults : list BacktestResult.t;
  benchmarks : list StrategyBenchmark.t;
  historicalStats : option HistoricalStats.t;
  isLoading : bool;
  error : option string;
  simulation : SimulationState.t
}.

Definition initialState : AppState :=
  {| markets := [];
     strategies := Strategies.defaultStrategies;
     backtestResults := [];
     benchmarks := [];
     historicalStats := None;
     isLoading := false;
     error := None;
     simulation :=
       {| SimulationState.isRunning := false;
          SimulationState.currentEpoch := 0;
          SimulationState.totalEpochs := 10;
          SimulationState.progress := 0;
          SimulationState.logs := [] |} |}.

Definition setMarkets (ms : list Market.t) (state : AppState) : AppState :=
  {| markets := ms; strategies := strategies state;
     backtestResults := backtestResults state; benchmarks := benchmarks state;
     historicalStats := historicalStats state; isLoading := isLoading state;
     error := error state; simulation := simulation state |}.

Definition setStrategies (ss : list Strategy.t) (state : AppState) : AppState :=
  {| markets := markets state; strategies := ss;
     backtestResults := backtestResults state; benchmarks := benchmarks state;
     historicalStats := historicalStats state; isLoading := isLoading state;
     error := error state; simulation := simulation state |}.

Definition addStrategy (strategy : Strategy.t) (state : AppState) : AppState :=
  setStrategies (strategies state ++ [strategy]) state.

Definition setBacktestResults (rs : list BacktestResult.t) (state : AppState)
  : AppState :=
  {| markets := markets state; strategies := strategies state;
     backtestResults := rs; benchmarks := benchmarks state;
     historicalStats := historicalStats state; isLoading := isLoading state;
     error := error state; simulation := simulation state |}.

Definition addBacktestResult (result : BacktestResult.t) (state : AppState)
  : AppState :=
  setBacktestResults
    (filter
       (fun r =>
          negb (String.eqb (BacktestResult.strategyId r)
                  (BacktestResult.strategyId result)))
       (backtestResults state)
     ++ [result])
    state.

Definition setBenchmarks (bs : list StrategyBenchmark.t) (state : AppState)
  : AppState :=
  {| markets := markets state; strategies := strategies state;
     backtestResults := backtestResults state; benchmarks := bs;
     historicalStats := historicalStats state; isLoading := isLoading state;
     error := error state; simulation := simulation state |}.

Definition setHistoricalStats (stats : option HistoricalStats.t)
  (state : AppState) : AppState :=
  {| markets := markets state; strategies := strategies state;
     backtestResults := backtestResults state; benchmarks := benchmarks state;
     historicalStats := stats; isLoading := isLoading state;
     error := error state; simulation := simulation state |}.

Definition setLoading (loading : bool) (state : AppState) : AppState :=
  {| markets := markets state; strategies := strategies state;
     backtestResults := backtestResults state; benchmarks := benchmarks state;
     historicalStats := historicalStats state; isLoading := loading;
     error := error state; simulation := simulation state |}.

Definition setError (e : option string) (state : AppState) : AppState :=
  {| markets := markets state; strategies := strategies state;
     backtestResults := backtestResults state; benchmarks := benchmarks state;
     historicalStats := historicalStats state; isLoading := isLoading state;
     error := e; simulation := simulation state |}.

(** A field of the update when it is present, the old field otherwise. *)
Definition pick {A : Type} (o : option A) (d : A) : A :=
  match o with Some x => x | None => d end.

(** [{ ...state.simulation, ...simulation }] *)
Definition mergeSimulation (old : SimulationState.t)
  (new : SimulationState.partial) : SimulationState.t :=
  {| SimulationState.isRunning :=
       pick (SimulationState.isRunning' new) (SimulationState.isRunning old);
     SimulationState.currentEpoch :=
       pick (SimulationState.currentEpoch' new)
         (SimulationState.currentEpoch old);
     SimulationState.totalEpochs :=
       pick (SimulationState.totalEpochs' new) (SimulationState.totalEpochs old);
     SimulationState.progress :=
       pick (SimulationState.progress' new) (SimulationState.progress old);
     SimulationState.logs :=
       pick (SimulationState.logs' new) (SimulationState.logs old) |}.

Definition setSimulation (new : SimulationState.partial) (state : AppState)
  : AppState :=
  {| markets := markets state; strategies := strategies state;
     backtestResults := backtestResults state; benchmarks := benchmarks state;
     historicalStats := historicalStats state; isLoading := isLoading state;
     error := error state;
     simulation := mergeSimulation (simulation state) new |}.

Definition reset (state : AppState) : AppState :=
  {| markets := []; strategies := strategies state;
     backtestResults := []; benchmarks := [];
     historicalStats := None; isLoading := false;
     error := None; simulation := simulation state |}.

End Store.

(** ** The implementation guide's first version of the strategies and of the
    engine *)

Module Guide.

(** [whaleTrade.maker?.substring(0, 8)] inside a template literal. *)
Definition makerPrefix (maker : option string) : string :=
  match maker with
  | Some m => String.substring 0 8 m
  | None => "undefined"
  end.

(** [market.resolvedOutcome || !market.active] *)
Definition skipped (market : Market.t) : bool :=
  match truthy (Market.resolvedOutcome market) with
  | Some _ => true
  | None => negb (Market.active market)
  end.

Definition copyTrading_market (now : Date) (market : Market.t) : list Bet.t :=
  if skipped market then []
  else
    let whaleTrades :=
      filter (fun trade => 1000 <=? Trade.amount trade) (Market.trades market) in
    let recentWhales :=
      filter
        (fun trade =>
           let timeDiff :=
             (JS.getTime now - JS.getTime (Trade.timestamp trade)) / 1000 in
           timeDiff <=? 3600)
        whaleTrades in
    map
      (fun whaleTrade =>
         {| Bet.marketId := Market.marketId market;
            Bet.outcome := Trade.outcome whaleTrade;
            Bet.side := Trade.side whaleTrade;
            Bet.amount := 5;
            Bet.priceLimit := Trade.price whaleTrade + 0.02;
            Bet.reason :=
              [Text "Copying whale ";
               Text (makerPrefix (Trade.maker whaleTrade));
               Text "... who traded $"; Fixed (Trade.amount whaleTrade) 0];
            Bet.timestamp := now |})
      recentWhales.

Definition copyTradingStrategy : Strategy.t :=
  {| Strategy.id := "copy_trading";
     Strategy.name := "Whale Copy Trading";
     Strategy.description :=
       "Copy trades from high-volume addresses (whales) within 1 hour";
     Strategy.type := copy_trading;
     Strategy.generateBets :=
       fun now markets _ =>
         JS.slice (flat_map (copyTrading_market now) markets) 0 (Some 10);
     Strategy.parameters :=
       [("minWhaleVolume"%string, 1000); ("copyDelay"%string, 3600);
        ("betSize"%string, 5)] |}.

Definition spikeDetection_market (now : Date) (market : Market.t)
  : list Bet.t :=
  if skipped market then []
  else if (List.length (Market.historicalPrices market) <? 10)%nat then []
  else
    let sortedPrices :=
      Lodash.orderBy Lodash.compareAscending_Date PricePoint.timestamp
        Lodash.asc (Market.historicalPrices market) in
    let cutoffTime := JS.new_Date (JS.getTime now - 24 * 60 * 60 * 1000) in
    let recentPrices :=
      filter (fun p => (cutoffTime <=? PricePoint.timestamp p)%Z) sortedPrices in
    if (List.length recentPrices <? 5)%nat then []
    else
      match JS.last_item recentPrices with
      | None => []
      | Some latest =>
          let avgPrice := Lodash.mean (map PricePoint.price recentPrices) in
          let currentPrice := PricePoint.price latest in
          let priceChange := (currentPrice - avgPrice) / avgPrice in
          if 0.05 <? JS.Math_abs priceChange then
            let betSide := if 0 <? priceChange then sell else buy in
            let targetPrice :=
              match betSide with
              | sell => currentPrice - 0.03
              | buy => currentPrice + 0.03
              end in
            [{| Bet.marketId := Market.marketId market;
                Bet.outcome := Strategies.primaryOutcome market;
                Bet.side := betSide;
                Bet.amount := 7;
                Bet.priceLimit := JS.Math_max 0.01 (JS.Math_min 0.99 targetPrice);
                Bet.reason :=
                  [Text "Spike detected: "; Fixed (priceChange * 100) 1;
                   Text "% change. Betting on reversion to mean ";
                   Fixed avgPrice 3];
                Bet.timestamp := now |}]
          else []
      end.

Definition spikeDetectionStrategy : Strategy.t :=
  {| Strategy.id := "spike_detection";
     Strategy.name := "Price Spike Reversal";
     Strategy.description :=
       "Detect price spikes >5% and bet on mean reversion";
     Strategy.type := spike_detection;
     Strategy.generateBets :=
       fun now markets _ => flat_map (spikeDetection_market now) markets;
     Strategy.parameters :=
       [("spikeThreshold"%string, 0.05); ("lookbackWindow"%string, 24);
        ("betSize"%string, 7)] |}.

Definition marketMaking_market (now : Date) (market : Market.t) : list Bet.t :=
  if skipped market then []
  else if Market.liquidity market <? 5000 then []
  else
    match JS.last_item (Market.historicalPrices market) with
    | None => []
    | Some latest =>
        let currentPrice := PricePoint.price latest in
        let recentPrices := JS.slice (Market.historicalPrices market) (-20) None in
        let volatility :=
          if (1 <? List.length recentPrices)%nat then
            JS.Math_sqrt
              (Lodash.mean
                 (map (fun p => JS.Math_pow2 (PricePoint.price p - currentPrice))
                    recentPrices))
          else 0.03 in
        let spread := JS.Math_max 0.02 (JS.Math_min 0.08 (volatility * 2)) in
        [{| Bet.marketId := Market.marketId market;
            Bet.outcome := Strategies.primaryOutcome market;
            Bet.side := buy;
            Bet.amount := 4;
            Bet.priceLimit := JS.Math_max 0.01 (currentPrice - spread / 2);
            Bet.reason :=
              [Text "Market making: bid at ";
               Fixed (currentPrice - spread / 2) 3];
            Bet.timestamp := now |};
         {| Bet.marketId := Market.marketId market;
            Bet.outcome := Strategies.primaryOutcome market;
            Bet.side := sell;
            Bet.amount := 4;
            Bet.priceLimit := JS.Math_min 0.99 (currentPrice + spread / 2);
            Bet.reason :=
              [Text "Market making: ask at ";
               Fixed (currentPrice + spread / 2) 3];
            Bet.timestamp := now |}]
    end.

Definition marketMakingStrategy : Strategy.t :=
  {| Strategy.id := "market_making";
     Strategy.name := "Liquidity Provider Market Making";
     Strategy.description :=
       "Place balanced bids/asks with spreads for high-liquidity markets";
     Strategy.type := market_making;
     Strategy.generateBets :=
       fun now markets _ => flat_map (marketMaking_market now) markets;
     Strategy.parameters :=
       [("minSpread"%string, 0.02); ("maxSpread"%string, 0.08);
        ("betSizePerSide"%string, 4); ("minLiquidity"%string, 5000)] |}.

Definition defaultStrategies : list Strategy.t :=
  [copyTradingStrategy; spikeDetectionStrategy; marketMakingStrategy;
   Strategies.aiGeneratedStrategy].

(** The guide's [backtest]: the strategy is called on the test markets
    themselves, with an empty context [{}]; the loop over the proposed bets
    and the metrics are those of the engine. *)
Definition emptyContext : StrategyContext.t :=
  {| StrategyContext.mode := None;
     StrategyContext.asOf := None;
     StrategyContext.trainingMarkets := None;
     StrategyContext.evaluationMarkets := None |}.

Definition backtest (now : Date) (strategy : Strategy.t)
  (markets : list Market.t) (trainingRatio : option number)
  : BacktestResult.t :=
  let trainingRatio := BacktestEngine.ratioOrDefault trainingRatio in
  let testMarkets := BacktestEngine.testMarkets markets trainingRatio in
  let proposedBets := Strategy.generateBets strategy now testMarkets emptyContext in
  BacktestEngine.metrics strategy
    (BacktestEngine.simulate (Strategy.id strategy) testMarkets proposedBets).

(** The guide's averages divide without looking at the count. *)
Definition avgVolume (markets : list Market.t) : number :=
  fold_left (fun sum m => sum + Market.volume m) markets 0
  / JS.number_of_nat (List.length markets).

Definition avgLiquidity (markets : list Market.t) : number :=
  fold_left (fun sum m => sum + Market.liquidity m) markets 0
  / JS.number_of_nat (List.length markets).

End Guide.

(** ** Definitions used by the proofs *)

Module Support.

(** Every character, for checks by enumeration. *)
Definition all_ascii : list ascii := map ascii_of_nat (seq 0 256).

Definition lower_agrees (a b : ascii) : bool :=
  Bool.eqb (Ascii.eqb (JS.lower_ascii a) (JS.lower_ascii b)) (Spec.sameLetter a b).

(** The scored form of one proposed bet, when the engine can score it. *)
Definition scoreBet (testMarkets : list Market.t) (bet : Bet.t)
  : option BacktestBet.t :=
  match BacktestEngine.findMarket testMarkets (Bet.marketId bet) with
  | None => None
  | Some market =>
      match truthy (Market.resolvedOutcome market) with
      | None => None
      | Some resolvedOutcome =>
          let betWon := BacktestEngine.isBetWinner bet resolvedOutcome in
          Some
            {| BacktestBet.marketId := Bet.marketId bet;
               BacktestBet.outcome := Bet.outcome bet;
               BacktestBet.side := Bet.side bet;
               BacktestBet.amount := Bet.amount bet;
               BacktestBet.priceLimit := Bet.priceLimit bet;
               BacktestBet.reason := Bet.reason bet;
               BacktestBet.timestamp := Bet.timestamp bet;
               BacktestBet.result := if betWon then win else loss;
               BacktestBet.payout := if betWon then Bet.amount bet else 0;
               BacktestBet.cost := Bet.amount bet * Bet.priceLimit bet |}
      end
  end.

(** The bet a scored bet was made from. *)
Definition betOf (b : BacktestBet.t) : Bet.t :=
  {| Bet.marketId := BacktestBet.marketId b;
     Bet.outcome := BacktestBet.outcome b;
     Bet.side := BacktestBet.side b;
     Bet.amount := BacktestBet.amount b;
     Bet.priceLimit := BacktestBet.priceLimit b;
     Bet.reason := BacktestBet.reason b;
     Bet.timestamp := BacktestBet.timestamp b |}.

(** The running total the loop keeps, bet by bet. *)
Definition runningEarnings (start : number) (bets : list BacktestBet.t) : number :=
  fold_left
    (fun acc b => acc + (BacktestBet.payout b - BacktestBet.cost b)) bets start.

End Support.

(** ** Sample data *)

Module Examples.

Definition pricePoint (t : Date) (p : number) : PricePoint.t :=
  {| PricePoint.timestamp := t; PricePoint.price := p;
     PricePoint.outcome := "Yes" |}.

Definition trade (t : Date) (s : Side) (amount price : number) : Trade.t :=
  {| Trade.timestamp := t; Trade.side := s; Trade.amount := amount;
     Trade.price := price; Trade.outcome := "Yes";
     Trade.maker := None; Trade.taker := None |}.

(** A binary Yes/No market. *)
Definition market (id : string) (resolved : option string)
  (endDate : option Date) (prices : list PricePoint.t) (trades : list Trade.t)
  (liquidity : number) : Market.t :=
  {| Market.marketId := id;
     Market.question := "Will it happen?";
     Market.outcomes := ["Yes"%string; "No"%string];
     Market.resolutionDate := None;
     Market.historicalPrices := prices;
     Market.trades := trades;
     Market.resolvedOutcome := resolved;
     Market.volume := 1000;
     Market.liquidity := liquidity;
     Market.active := false;
     Market.endDate := endDate;
     Market.image := None;
     Market.category := None |}.

Definition bet (id outcome : string) (s : Side) (amount priceLimit : number)
  : Bet.t :=
  {| Bet.marketId := id; Bet.outcome := outcome; Bet.side := s;
     Bet.amount := amount; Bet.priceLimit := priceLimit;
     Bet.reason := [Text "fixed"]; Bet.timestamp := 0%Z |}.

(** A generated strategy that proposes a fixed list of bets. *)
Definition fixedStrategy (bets : list Bet.t) : Strategy.t :=
  {| Strategy.id := "fixed";
     Strategy.name := "Fixed bets";
     Strategy.description := "Proposes the same bets on every call";
     Strategy.type := ai_generated;
     Strategy.generateBets := fun _ _ _ => bets;
     Strategy.parameters := [] |}.

(** One resolved market with a single price point. *)
Definition onePriceMarket (p : number) (resolved : string) : Market.t :=
  market "m" (Some resolved) None [pricePoint 10%Z p] [] 100000.

(** A resolved market without price history, end date or resolution date,
    holding one whale trade made at time 1000000. *)
Definition undatedMarket : Market.t :=
  market "u" (Some "Yes"%string) None [] [trade 1000000%Z buy 5000 0.6] 100000.

(** The minimal whale-copy scenario: the same trade in a market that ends
    one hour after it. *)
Definition whaleMarket : Market.t :=
  market "w" (Some "Yes"%string) (Some 4600000%Z) []
    [trade 1000000%Z buy 5000 0.6] 100000.

End Examples.

(** ** Floating-point notions used by the proofs *)

(** The IEEE value behind a [number] is a NaN. *)
Definition SFis_nan (x : spec_float) : bool :=
  match x with S754_nan => true | _ => false end.

(** The sign of a rounded result. *)
Definition SFsigned (s : bool) (x : spec_float) : Prop :=
  match x with
  | S754_zero s' | S754_infinity s' | S754_finite s' _ _ => s' = s
  | S754_nan => False
  end.

(** A rounded result that is not zero: finite or infinite, of sign [s]. *)
Definition SFpositive (s : bool) (x : spec_float) : Prop :=
  match x with
  | S754_infinity s' | S754_finite s' _ _ => s' = s
  | _ => False
  end.

Definition SFis_finite (x : spec_float) : bool :=
  match x with S754_zero _ | S754_finite _ _ _ => true | _ => false end.

(** Non-negative results: +0, a positive finite number or +infinity. *)
Definition nonneg (x : number) : Prop := SFsigned false (Prim2SF x).

(** A count kept in an object used as a table; an absent key counts 0. *)
Definition tableGet (key : string) (table : list (string * nat)) : nat :=
  match find (fun kv => String.eqb (fst kv) key) table with
  | Some kv => snd kv
  | None => 0
  end.

(** ** Sample data for the further properties *)

Module Samples.

(** A context that names the backtest mode and nothing else. *)
Definition backtestContext : StrategyContext.t :=
  {| StrategyContext.mode := Some backtest_mode;
     StrategyContext.asOf := None;
     StrategyContext.trainingMarkets := None;
     StrategyContext.evaluationMarkets := None |}.

Definition liveContext : StrategyContext.t :=
  {| StrategyContext.mode := Some live;
     StrategyContext.asOf := None;
     StrategyContext.trainingMarkets := None;
     StrategyContext.evaluationMarkets := None |}.

(** An open market: active, unresolved, with one whale trade at time
    1000000 and a market end one hour later. *)
Definition openMarket : Market.t :=
  {| Market.marketId := "open";
     Market.question := "Will it happen?";
     Market.outcomes := ["Yes"%string; "No"%string];
     Market.resolutionDate := None;
     Market.historicalPrices := [Examples.pricePoint 900000%Z 0.5];
     Market.trades := [Examples.trade 1000000%Z buy 5000 0.6];
     Market.resolvedOutcome := None;
     Market.volume := 1000;
     Market.liquidity := 100000;
     Market.active := true;
     Market.endDate := Some 4600000%Z;
     Market.image := None;
     Market.category := None |}.


(** Names every JavaScript object inherits from [Object.prototype]: read on
    an object literal used as a table they give a function or an object, not
    [undefined]. *)
Definition inheritedKeys : list string :=
  ["constructor"; "__proto__"; "hasOwnProperty"; "isPrototypeOf";
   "propertyIsEnumerable"; "toLocaleString"; "toString"; "valueOf";
   "__defineGetter__"; "__defineSetter__"; "__lookupGetter__";
   "__lookupSetter__"]%string.

End Samples.

(** * Properties *)

(** ** Characters and strings *)

Lemma all_ascii_complete (a : ascii) : In a Support.all_ascii.
Proof.
  unfold Support.all_ascii.
  rewrite <- (ascii_nat_embedding a).
  apply in_map, in_seq.
  pose proof (nat_ascii_bounded a). lia.
Qed.

Lemma lower_agrees_all :
  forallb (fun a => forallb (Support.lower_agrees a) Support.all_ascii)
    Support.all_ascii = true.
Proof. vm_compute. reflexivity. Qed.

Lemma lower_sameLetter (a b : ascii) :
  Ascii.eqb (JS.lower_ascii a) (JS.lower_ascii b) = Spec.sameLetter a b.
Proof.
  pose proof lower_agrees_all as H.
  rewrite forallb_forall in H.
  specialize (H a (all_ascii_complete a)).
  rewrite forallb_forall in H.
  specialize (H b (all_ascii_complete b)).
  unfold Support.lower_agrees in H.
  apply Bool.eqb_prop in H. exact H.
Qed.

Lemma toLowerCase_equalIgnoringCase (s t : string) :
  String.eqb (JS.toLowerCase s) (JS.toLowerCase t) = Spec.equalIgnoringCase s t.
Proof.
  revert t. induction s as [|a s IH]; intros [|b t]; simpl; try reflexivity.
  rewrite lower_sameLetter, IH. reflexivity.
Qed.

(** ** The loop over the proposed bets *)

Lemma simulateBet_scoreBet sid tm st bet :
  BacktestEngine.simulateBet sid tm st bet =
  match Support.scoreBet tm bet with
  | None => st
  | Some b =>
      let total :=
        BacktestEngine.cumulativeEarnings st
        + (BacktestBet.payout b - BacktestBet.cost b) in
      {| BacktestEngine.backtestBets := BacktestEngine.backtestBets st ++ [b];
         BacktestEngine.cumulativeEarnings := total;
         BacktestEngine.earningsOverTime :=
           BacktestEngine.earningsOverTime st ++
           [{| EarningsPoint.timestamp := BacktestBet.timestamp b;
               EarningsPoint.cumulativeEarnings := total;
               EarningsPoint.strategyId := sid |}] |}
  end.
Proof.
  unfold BacktestEngine.simulateBet, Support.scoreBet.
  destruct (BacktestEngine.findMarket tm (Bet.marketId bet)) as [m|]; [|reflexivity].
  destruct (truthy (Market.resolvedOutcome m)); reflexivity.
Qed.

Lemma fold_simulateBet_bets sid tm bets : forall st,
  BacktestEngine.backtestBets (fold_left (BacktestEngine.simulateBet sid tm) bets st)
  = BacktestEngine.backtestBets st
    ++ flat_map (fun bet => match Support.scoreBet tm bet with
                            | Some b => [b] | None => [] end) bets.
Proof.
  induction bets as [|bet bets IH]; intros st; simpl.
  - now rewrite app_nil_r.
  - rewrite IH, simulateBet_scoreBet.
    destruct (Support.scoreBet tm bet); simpl.
    + now rewrite <- app_assoc.
    + reflexivity.
Qed.

Lemma fold_simulateBet_length sid tm bets : forall st,
  List.length (BacktestEngine.earningsOverTime st)
  = List.length (BacktestEngine.backtestBets st) ->
  let st' := fold_left (BacktestEngine.simulateBet sid tm) bets st in
  List.length (BacktestEngine.earningsOverTime st')
  = List.length (BacktestEngine.backtestBets st').
Proof.
  induction bets as [|bet bets IH]; intros st H; simpl; [exact H|].
  apply IH. rewrite simulateBet_scoreBet.
  destruct (Support.scoreBet tm bet); simpl; [|exact H].
  rewrite !length_app. simpl. lia.
Qed.

Lemma fold_simulateBet_running sid tm bets : forall st,
  BacktestEngine.cumulativeEarnings st
  = Support.runningEarnings 0 (BacktestEngine.backtestBets st) ->
  let st' := fold_left (BacktestEngine.simulateBet sid tm) bets st in
  BacktestEngine.cumulativeEarnings st'
  = Support.runningEarnings 0 (BacktestEngine.backtestBets st').
Proof.
  induction bets as [|bet bets IH]; intros st H; simpl; [exact H|].
  apply IH. rewrite simulateBet_scoreBet.
  destruct (Support.scoreBet tm bet); simpl; [|exact H].
  unfold Support.runningEarnings. rewrite fold_left_app. simpl.
  unfold Support.runningEarnings in H. now rewrite <- H.
Qed.

Lemma fold_simulateBet_last sid tm bets : forall st,
  (forall p, Spec.lastElement (BacktestEngine.earningsOverTime st) = Some p ->
             EarningsPoint.cumulativeEarnings p
             = BacktestEngine.cumulativeEarnings st) ->
  let st' := fold_left (BacktestEngine.simulateBet sid tm) bets st in
  forall p, Spec.lastElement (BacktestEngine.earningsOverTime st') = Some p ->
            EarningsPoint.cumulativeEarnings p
            = BacktestEngine.cumulativeEarnings st'.
Proof.
  induction bets as [|bet bets IH]; intros st H; simpl; [exact H|].
  apply IH. rewrite simulateBet_scoreBet.
  destruct (Support.scoreBet tm bet); simpl; [|exact H].
  intros p. unfold Spec.lastElement. rewrite rev_app_distr. simpl.
  intros [= <-]. reflexivity.
Qed.

Lemma simulate_bets sid tm bets :
  BacktestEngine.backtestBets (BacktestEngine.simulate sid tm bets)
  = flat_map (fun bet => match Support.scoreBet tm bet with
                         | Some b => [b] | None => [] end) bets.
Proof. unfold BacktestEngine.simulate. now rewrite fold_simulateBet_bets. Qed.

Lemma simulate_scored sid tm bets b :
  In b (BacktestEngine.backtestBets (BacktestEngine.simulate sid tm bets)) ->
  exists bet, In bet bets /\ Support.scoreBet tm bet = Some b.
Proof.
  rewrite simulate_bets, in_flat_map. intros (bet & Hin & Hb).
  exists bet. split; [exact Hin|].
  destruct (Support.scoreBet tm bet); simpl in Hb; [|contradiction].
  destruct Hb as [<-|[]]. reflexivity.
Qed.

Lemma backtest_bets now strategy markets trainingRatio :
  BacktestResult.bets (BacktestEngine.backtest now strategy markets trainingRatio)
  = BacktestEngine.backtestBets
      (BacktestEngine.simulate (Strategy.id strategy)
         (BacktestEngine.testMarkets markets
            (BacktestEngine.ratioOrDefault trainingRatio))
         (BacktestEngine.proposedBets now strategy markets
            (BacktestEngine.ratioOrDefault trainingRatio))).
Proof. reflexivity. Qed.

Lemma truthy_Some s r : truthy s = Some r -> s = Some r.
Proof. destruct s as [[|c s]|]; simpl; congruence. Qed.

Lemma scoreBet_inv tm bet b :
  Support.scoreBet tm bet = Some b ->
  exists market resolvedOutcome,
    BacktestEngine.findMarket tm (Bet.marketId bet) = Some market
    /\ Market.resolvedOutcome market = Some resolvedOutcome
    /\ Support.betOf b = bet
    /\ BacktestBet.result b
       = (if BacktestEngine.isBetWinner bet resolvedOutcome then win else loss)
    /\ BacktestBet.payout b
       = (if BacktestEngine.isBetWinner bet resolvedOutcome
          then Bet.amount bet else 0)
    /\ BacktestBet.cost b = Bet.amount bet * Bet.priceLimit bet.
Proof.
  unfold Support.scoreBet.
  destruct (BacktestEngine.findMarket tm (Bet.marketId bet)) as [m|]; [|discriminate].
  destruct (truthy (Market.resolvedOutcome m)) as [ro|] eqn:Hro; [|discriminate].
  intros [= <-]. exists m, ro. apply truthy_Some in Hro.
  destruct bet; repeat split; auto.
Qed.

(** ** C1: the settlement rule *)

(** C1.  Every bet the backtest engine scores is matched to a test market
    with a non-null resolved outcome; when the bet's outcome and the resolved
    outcome are ASCII labels, a buy is a win exactly when the bet's outcome
    equals that resolved outcome ignoring case, a sell exactly when it does
    not.  In particular a buy on "Yes" wins against "Yes" and loses against
    "No", and a sell on "Yes" wins against "No". *)
Theorem C1_settlement_rule :
  (forall now strategy markets trainingRatio b,
      In b (BacktestResult.bets
              (BacktestEngine.backtest now strategy markets trainingRatio)) ->
      exists market resolvedOutcome,
        BacktestEngine.findMarket
          (BacktestEngine.testMarkets markets
             (BacktestEngine.ratioOrDefault trainingRatio))
          (BacktestBet.marketId b) = Some market
        /\ Market.resolvedOutcome market = Some resolvedOutcome
        /\ (Spec.isAscii (BacktestBet.outcome b) = true ->
            Spec.isAscii resolvedOutcome = true ->
            (BacktestBet.side b = buy ->
             (BacktestBet.result b = win <->
              Spec.equalIgnoringCase (BacktestBet.outcome b) resolvedOutcome
              = true))
            /\ (BacktestBet.side b = sell ->
                (BacktestBet.result b = win <->
                 Spec.equalIgnoringCase (BacktestBet.outcome b) resolvedOutcome
                 = false))))
  /\ (forall bet resolvedOutcome,
         Spec.isAscii (Bet.outcome bet) = true ->
         Spec.isAscii resolvedOutcome = true ->
         BacktestEngine.isBetWinner bet resolvedOutcome
         = match Bet.side bet with
           | buy => Spec.equalIgnoringCase (Bet.outcome bet) resolvedOutcome
           | sell => negb (Spec.equalIgnoringCase (Bet.outcome bet) resolvedOutcome)
           end)
  /\ (forall bet,
         Bet.outcome bet = "Yes"%string ->
         (Bet.side bet = buy ->
          BacktestEngine.isBetWinner bet "Yes" = true
          /\ BacktestEngine.isBetWinner bet "No" = false)
         /\ (Bet.side bet = sell -> BacktestEngine.isBetWinner bet "No" = true)).
Proof.
  assert (Hrule : forall bet resolvedOutcome,
             BacktestEngine.isBetWinner bet resolvedOutcome
             = match Bet.side bet with
               | buy => Spec.equalIgnoringCase (Bet.outcome bet) resolvedOutcome
               | sell => negb (Spec.equalIgnoringCase (Bet.outcome bet) resolvedOutcome)
               end).
  { intros bet ro. unfold BacktestEngine.isBetWinner.
    rewrite toLowerCase_equalIgnoringCase. destruct (Bet.side bet); reflexivity. }
  split; [|split].
  - intros now strategy markets trainingRatio b Hin.
    rewrite backtest_bets in Hin.
    apply simulate_scored in Hin as (bet & _ & Hscore).
    apply scoreBet_inv in Hscore
      as (market & ro & Hfind & Hro & Hbet & Hres & _ & _).
    exists market, ro.
    assert (Hid : BacktestBet.marketId b = Bet.marketId bet) by now rewrite <- Hbet.
    assert (Hout : BacktestBet.outcome b = Bet.outcome bet) by now rewrite <- Hbet.
    assert (Hside : BacktestBet.side b = Bet.side bet) by now rewrite <- Hbet.
    rewrite Hid, Hout, Hside, Hres, Hrule.
    split; [exact Hfind|]. split; [exact Hro|]. intros _ _.
    split; intros ->;
      destruct (Spec.equalIgnoringCase (Bet.outcome bet) ro); simpl;
      split; intros; congruence.
  - intros bet ro _ _. apply Hrule.
  - intros bet Hout. rewrite !Hrule, Hout.
    split; [intros ->|intros ->]; vm_compute; auto.
Qed.

(** Labels that differ in case only: a buy on "YES" wins against "yes" and a
    sell on it loses; against "No" it is the other way round. *)
Lemma C1_settlement_rule_witness :
  BacktestEngine.isBetWinner (Examples.bet "m" "YES" buy 10 0.5) "yes" = true
  /\ BacktestEngine.isBetWinner (Examples.bet "m" "YES" sell 10 0.5) "yes"
     = false
  /\ BacktestEngine.isBetWinner (Examples.bet "m" "YES" buy 10 0.5) "No"
     = false
  /\ BacktestEngine.isBetWinner (Examples.bet "m" "YES" sell 10 0.5) "No"
     = true.
Proof.
  destruct C1_settlement_rule as (_ & Hrule & _).
  repeat split; rewrite Hrule; reflexivity.
Defined.

(** ** C6: bets that cannot be scored *)

Lemma scoreBet_unscorable tm bet :
  BacktestEngine.findMarket tm (Bet.marketId bet) = None
  \/ (exists market,
         BacktestEngine.findMarket tm (Bet.marketId bet) = Some market
         /\ truthy (Market.resolvedOutcome market) = None) ->
  Support.scoreBet tm bet = None.
Proof.
  unfold Support.scoreBet. intros [->|(m & -> & ->)]; reflexivity.
Qed.

Lemma simulate_skip sid tm pre bet post :
  Support.scoreBet tm bet = None ->
  BacktestEngine.simulate sid tm (pre ++ bet :: post)
  = BacktestEngine.simulate sid tm (pre ++ post).
Proof.
  intros H. unfold BacktestEngine.simulate.
  rewrite !fold_left_app. simpl.
  now rewrite simulateBet_scoreBet, H.
Qed.

Lemma scoreBet_marketId tm bet b :
  Support.scoreBet tm bet = Some b -> BacktestBet.marketId b = Bet.marketId bet.
Proof.
  intros H. apply scoreBet_inv in H as (_ & _ & _ & _ & <- & _). reflexivity.
Qed.

Lemma scoreBet_same_market tm bet bet' :
  Bet.marketId bet = Bet.marketId bet' ->
  Support.scoreBet tm bet = None -> Support.scoreBet tm bet' = None.
Proof.
  unfold Support.scoreBet. intros <-.
  destruct (BacktestEngine.findMarket tm (Bet.marketId bet)) as [m|]; [|reflexivity].
  destruct (truthy (Market.resolvedOutcome m)); [discriminate|reflexivity].
Qed.

(** C6.  A proposed bet whose [marketId] matches no test market, or matches
    one whose resolved outcome is null (or empty), is dropped: the run
    returns the very result it returns for the other proposed bets alone, and
    no retained bet carries that market id. *)
Theorem C6_unscorable_bet_discarded
  (now : Date) (strategy : Strategy.t) (markets : list Market.t)
  (trainingRatio : option number) (pre post : list Bet.t) (bet : Bet.t) :
  let ratio := BacktestEngine.ratioOrDefault trainingRatio in
  let tm := BacktestEngine.testMarkets markets ratio in
  BacktestEngine.proposedBets now strategy markets ratio = pre ++ bet :: post ->
  (BacktestEngine.findMarket tm (Bet.marketId bet) = None
   \/ exists market,
       BacktestEngine.findMarket tm (Bet.marketId bet) = Some market
       /\ truthy (Market.resolvedOutcome market) = None) ->
  BacktestEngine.backtest now strategy markets trainingRatio
  = BacktestEngine.metrics strategy
      (BacktestEngine.simulate (Strategy.id strategy) tm (pre ++ post))
  /\ forall b,
      In b (BacktestResult.bets
              (BacktestEngine.backtest now strategy markets trainingRatio)) ->
      BacktestBet.marketId b <> Bet.marketId bet.
Proof.
  intros ratio tm Hbets Hun.
  apply scoreBet_unscorable in Hun.
  assert (Heq : BacktestEngine.backtest now strategy markets trainingRatio
                = BacktestEngine.metrics strategy
                    (BacktestEngine.simulate (Strategy.id strategy) tm
                       (pre ++ post))).
  { unfold BacktestEngine.backtest. fold ratio. fold tm.
    rewrite Hbets. now rewrite simulate_skip. }
  split; [exact Heq|].
  intros b Hin Hid. rewrite backtest_bets in Hin. fold ratio tm in Hin.
  apply simulate_scored in Hin as (bet' & _ & Hscore).
  pose proof (scoreBet_marketId _ _ _ Hscore) as Hid'.
  rewrite (scoreBet_same_market tm bet bet') in Hscore;
    [discriminate|congruence|exact Hun].
Qed.

(** A run whose strategy proposes one bet on the market under test and one on
    a market id that is not in the pool. *)
Lemma C6_unscorable_bet_discarded_witness :
  let strategy :=
    Examples.fixedStrategy
      [Examples.bet "m" "Yes" buy 10 0.5; Examples.bet "stray" "Yes" buy 10 0.5] in
  let markets := [Examples.onePriceMarket 0.5 "Yes"] in
  BacktestResult.totalBets (BacktestEngine.backtest 0%Z strategy markets None) = 1%nat
  /\ forall b,
      In b (BacktestResult.bets (BacktestEngine.backtest 0%Z strategy markets None)) ->
      BacktestBet.marketId b <> "stray"%string.
Proof.
  intros strategy markets.
  destruct (C6_unscorable_bet_discarded 0%Z strategy markets None
              [Examples.bet "m" "Yes" buy 10 0.5] [] (Examples.bet "stray" "Yes" buy 10 0.5))
    as [Heq Hno].
  - reflexivity.
  - left. vm_compute. reflexivity.
  - split; [|exact Hno].
    rewrite Heq. vm_compute. reflexivity.
Defined.

(** ** C10: shape of a backtest result *)

Lemma simulate_win_or_loss sid tm bets b :
  In b (BacktestEngine.backtestBets (BacktestEngine.simulate sid tm bets)) ->
  BacktestBet.result b = win \/ BacktestBet.result b = loss.
Proof.
  intros H. apply simulate_scored in H as (bet & _ & H).
  apply scoreBet_inv in H as (m & ro & _ & _ & _ & -> & _).
  destruct (BacktestEngine.isBetWinner bet ro); auto.
Qed.

Lemma wins_plus_losses (l : list BacktestBet.t) :
  (forall b, In b l -> BacktestBet.result b = win \/ BacktestBet.result b = loss) ->
  (List.length (filter BacktestEngine.isWin l)
   + List.length (filter BacktestEngine.isLoss l) = List.length l)%nat.
Proof.
  induction l as [|b l IH]; intros H; simpl; [reflexivity|].
  assert (IH' := IH (fun b' Hb' => H b' (or_intror Hb'))).
  unfold BacktestEngine.isWin, BacktestEngine.isLoss in *.
  destruct (H b (or_introl eq_refl)) as [-> | ->]; simpl; lia.
Qed.

Lemma simulate_last sid tm bets p :
  Spec.lastElement
    (BacktestEngine.earningsOverTime (BacktestEngine.simulate sid tm bets)) = Some p ->
  EarningsPoint.cumulativeEarnings p
  = Support.runningEarnings 0
      (BacktestEngine.backtestBets (BacktestEngine.simulate sid tm bets)).
Proof.
  intros H. unfold BacktestEngine.simulate in *.
  set (st0 := {| BacktestEngine.backtestBets := [];
                 BacktestEngine.cumulativeEarnings := 0;
                 BacktestEngine.earningsOverTime := [] |}) in *.
  rewrite (fold_simulateBet_last sid tm bets st0) with (p := p).
  - apply fold_simulateBet_running. reflexivity.
  - simpl. discriminate.
  - exact H.
Qed.

(** *** Rounding keeps a result that is not zero

    The rounding of [+ - * /] never turns a non-zero value into zero when its
    exponent is not below the smallest one, so a difference of two numbers is
    zero only when they are equal. *)

Lemma digits2_pos_bounds (p : positive) :
  (2 ^ (Zpos (digits2_pos p) - 1) <= Zpos p < 2 ^ Zpos (digits2_pos p))%Z.
Proof.
  induction p as [p IH|p IH|]; cbn [digits2_pos];
    try (rewrite Pos2Z.inj_succ;
         replace (Z.succ (Z.pos (digits2_pos p)) - 1)%Z
           with (Z.succ (Z.pos (digits2_pos p) - 1))%Z by lia;
         rewrite !Z.pow_succ_r by lia; lia).
  simpl. lia.
Qed.

Lemma shr_1_lower (mrs : shr_record) (k : Z) :
  (0 <= k)%Z -> (2 ^ (k + 1) <= shr_m mrs)%Z -> (2 ^ k <= shr_m (shr_1 mrs))%Z.
Proof.
  intros Hk. rewrite Z.pow_add_r by lia. change (2 ^ 1)%Z with 2%Z.
  pose proof (Z.pow_pos_nonneg 2 k ltac:(lia) Hk).
  destruct mrs as [m r s]. destruct m as [|p|p]; simpl; try lia;
    destruct p; simpl; lia.
Qed.

Lemma iter_shr_1_lower (n : positive) : forall (mrs : shr_record) (k : Z),
  (0 <= k)%Z -> (2 ^ (k + Zpos n) <= shr_m mrs)%Z ->
  (2 ^ k <= shr_m (iter_pos shr_1 n mrs))%Z.
Proof.
  induction n as [n IH|n IH|]; intros mrs k Hk H; cbn [iter_pos].
  - apply IH; [exact Hk|]. apply IH; [lia|]. apply shr_1_lower; [lia|].
    replace (k + Z.pos n + Z.pos n + 1)%Z with (k + Z.pos n~1)%Z by lia.
    exact H.
  - apply IH; [exact Hk|]. apply IH; [lia|].
    replace (k + Z.pos n + Z.pos n)%Z with (k + Z.pos n~0)%Z by lia.
    exact H.
  - now apply shr_1_lower.
Qed.

Lemma fexp_emin (e : Z) : (SpecFloat.emin prec emax <= fexp prec emax e)%Z.
Proof. unfold fexp. lia. Qed.

Lemma shr_fexp_pos (m e : Z) (l : location) :
  (0 < m)%Z -> (SpecFloat.emin prec emax <= e)%Z ->
  (0 < shr_m (fst (shr_fexp prec emax m e l)))%Z
  /\ (SpecFloat.emin prec emax <= snd (shr_fexp prec emax m e l))%Z.
Proof.
  intros Hm He. unfold shr_fexp, shr.
  assert (H0 : shr_m (shr_record_of_loc m l) = m)
    by (destruct l as [|[]]; reflexivity).
  destruct (fexp prec emax (Zdigits2 m + e) - e)%Z as [|n|n] eqn:En;
    cbn [fst snd]; try (rewrite H0; split; assumption).
  destruct m as [|p|p]; try lia. cbn [Zdigits2] in En.
  pose proof (digits2_pos_bounds p) as Hd.
  unfold fexp in En.
  assert (Hn : Z.pos n = (Z.pos (digits2_pos p) - prec)%Z) by lia.
  split; [|lia].
  apply Z.lt_le_trans with (2 ^ (prec - 1))%Z; [reflexivity|].
  apply iter_shr_1_lower; [unfold prec; lia|].
  rewrite H0, Hn.
  replace (prec - 1 + (Z.pos (digits2_pos p) - prec))%Z
    with (Z.pos (digits2_pos p) - 1)%Z by lia.
  apply Hd.
Qed.

Lemma round_nearest_even_pos (m : Z) (l : location) :
  (0 < m)%Z -> (0 < round_nearest_even m l)%Z.
Proof.
  intros Hm. destruct l as [|[]]; simpl; try lia.
  destruct (Z.even m); lia.
Qed.

Lemma binary_round_aux_positive (sx : bool) (mx ex : Z) (lx : location) :
  (0 < mx)%Z -> (SpecFloat.emin prec emax <= ex)%Z ->
  SFpositive sx (binary_round_aux prec emax sx mx ex lx).
Proof.
  intros Hm He. unfold binary_round_aux.
  destruct (shr_fexp_pos mx ex lx Hm He) as [H1 H1e].
  destruct (shr_fexp prec emax mx ex lx) as [mrs' e']. cbn [fst snd] in H1, H1e.
  destruct (shr_fexp_pos
              (round_nearest_even (shr_m mrs') (loc_of_shr_record mrs'))
              e' loc_Exact (round_nearest_even_pos _ _ H1) H1e) as [H2 _].
  destruct (shr_fexp prec emax _ e' loc_Exact) as [mrs'' e'']. cbn [fst] in H2.
  destruct (shr_m mrs'') as [|p|p]; try lia.
  destruct (e'' <=? emax - prec)%Z; exact eq_refl.
Qed.

Lemma binary_round_positive (s : bool) (m : positive) (e : Z) :
  (SpecFloat.emin prec emax <= e)%Z -> SFpositive s (binary_round prec emax s m e).
Proof.
  intros He. unfold binary_round, shl_align.
  pose proof (fexp_emin (Z.pos (digits2_pos m) + e)) as Hf.
  destruct (fexp prec emax (Z.pos (digits2_pos m) + e) - e)%Z;
    apply binary_round_aux_positive; lia.
Qed.

Lemma valid_finite_emin (x : float) (s : bool) (m : positive) (e : Z) :
  Prim2SF x = S754_finite s m e -> (SpecFloat.emin prec emax <= e)%Z.
Proof.
  intros H. pose proof (Prim2SF_valid x) as Hv. rewrite H in Hv.
  unfold valid_binary, bounded, canonical_mantissa in Hv.
  apply andb_prop in Hv as [Hv _]. apply Z.eqb_eq in Hv.
  pose proof (fexp_emin (Z.pos (digits2_pos m) + e)). lia.
Qed.

Lemma binary_normalize_zero (d e : Z) (s0 : bool) :
  (SpecFloat.emin prec emax <= e)%Z ->
  binary_normalize prec emax d e false = S754_zero s0 -> s0 = false /\ d = 0%Z.
Proof.
  intros He. destruct d as [|p|p]; cbn [binary_normalize].
  - intros [= <-]. split; reflexivity.
  - intros H. pose proof (binary_round_positive false p e He) as Hp.
    rewrite H in Hp. contradiction.
  - intros H. pose proof (binary_round_positive true p e He) as Hp.
    rewrite H in Hp. contradiction.
Qed.

Lemma single_bet_earnings (payout cost : float) :
  0 + (payout - cost) = (0 + payout) - (0 + cost).
Proof.
  apply Prim2SF_inj.
  repeat (rewrite add_spec || rewrite sub_spec).
  change (Prim2SF 0) with (S754_zero false).
  destruct (Prim2SF payout) as [s|s| |s m e] eqn:Ep,
           (Prim2SF cost) as [s'|s'| |s' m' e'] eqn:Ec.
  all: try reflexivity.
  all: try (destruct s, s'; reflexivity).
  all: try (destruct s; reflexivity).
  all: try (destruct s'; reflexivity).
  change (SF64add (S754_zero false) (S754_finite s m e))
    with (S754_finite s m e).
  change (SF64add (S754_zero false) (S754_finite s' m' e'))
    with (S754_finite s' m' e').
  destruct (SF64sub (S754_finite s m e) (S754_finite s' m' e'))
    as [s0|s0| |s0 m0 e0] eqn:Er; try reflexivity.
  apply valid_finite_emin in Ep, Ec.
  unfold SF64sub in Er. cbn [SFsub] in Er.
  apply binary_normalize_zero in Er as [-> _]; [reflexivity|lia].
Qed.

(** C10 (as the code has it).  In every result the engine returns,
    [earningsOverTime] has one point per retained bet, every retained bet is a
    win or a loss (so wins + losses = totalBets), [netProfit] is
    [totalWinnings - totalCost], and the last earnings point carries the
    running total of [payout - cost] added bet by bet in floating point
    (there is a last point whenever totalBets > 0).  When the result has
    exactly one bet, that total equals [netProfit]. *)
Theorem C10_result_shape
  (now : Date) (strategy : Strategy.t) (markets : list Market.t)
  (trainingRatio : option number) :
  let r := BacktestEngine.backtest now strategy markets trainingRatio in
  List.length (BacktestResult.earningsOverTime r) = BacktestResult.totalBets r
  /\ BacktestResult.totalBets r = List.length (BacktestResult.bets r)
  /\ (forall b, In b (BacktestResult.bets r) ->
                BacktestBet.result b = win \/ BacktestBet.result b = loss)
  /\ (BacktestResult.wins r + BacktestResult.losses r
      = BacktestResult.totalBets r)%nat
  /\ BacktestResult.netProfit r
     = BacktestResult.totalWinnings r - BacktestResult.totalCost r
  /\ ((0 < BacktestResult.totalBets r)%nat ->
      exists p,
        Spec.lastElement (BacktestResult.earningsOverTime r) = Some p)
  /\ (forall p,
         Spec.lastElement (BacktestResult.earningsOverTime r) = Some p ->
         EarningsPoint.cumulativeEarnings p
         = Support.runningEarnings 0 (BacktestResult.bets r))
  /\ (BacktestResult.totalBets r = 1%nat ->
      forall p,
        Spec.lastElement (BacktestResult.earningsOverTime r) = Some p ->
        EarningsPoint.cumulativeEarnings p = BacktestResult.netProfit r).
Proof.
  intros r. subst r. unfold BacktestEngine.backtest, BacktestEngine.metrics.
  cbn [BacktestResult.earningsOverTime BacktestResult.totalBets
       BacktestResult.bets BacktestResult.wins BacktestResult.losses
       BacktestResult.netProfit BacktestResult.totalWinnings
       BacktestResult.totalCost].
  set (sim := BacktestEngine.simulate _ _ _).
  assert (Hlen : List.length (BacktestEngine.earningsOverTime sim)
                 = List.length (BacktestEngine.backtestBets sim)).
  { subst sim. unfold BacktestEngine.simulate.
    apply fold_simulateBet_length. reflexivity. }
  split; [exact Hlen|].
  split; [reflexivity|].
  split; [intros b; apply simulate_win_or_loss|].
  split; [apply wins_plus_losses; intros b; apply simulate_win_or_loss|].
  split; [reflexivity|].
  split; [|split].
  - intros Hpos. rewrite <- Hlen in Hpos. unfold Spec.lastElement.
    destruct (rev (BacktestEngine.earningsOverTime sim)) as [|p l] eqn:E;
      [|now exists p].
    apply (f_equal (@List.length _)) in E. rewrite length_rev in E.
    simpl in E. lia.
  - intros p. apply simulate_last.
  - intros Hone p Hp. rewrite (simulate_last _ _ _ _ Hp). fold sim.
    destruct (BacktestEngine.backtestBets sim) as [|b [|b' l]];
      try discriminate.
    apply single_bet_earnings.
Qed.

(** C10 does not hold as stated: the market-making strategy on one market
    (a single price 0.3, resolved "No") ends with cumulative earnings 40 while
    [netProfit] is 40.000000000000007. *)
Lemma C10_final_earnings_differ_from_netProfit :
  let r :=
    BacktestEngine.backtest 0%Z Strategies.marketMakingStrategy
      [Examples.onePriceMarket 0.3 "No"] None in
  (0 < BacktestResult.totalBets r)%nat
  /\ exists p,
      Spec.lastElement (BacktestResult.earningsOverTime r) = Some p
      /\ EarningsPoint.cumulativeEarnings p = 40
      /\ BacktestResult.netProfit r = 40.000000000000007
      /\ EarningsPoint.cumulativeEarnings p <> BacktestResult.netProfit r.
Proof.
  intros r.
  split; [vm_compute; lia|].
  eexists. split; [vm_compute; reflexivity|].
  split; [reflexivity|]. split; [vm_compute; reflexivity|].
  intros H. apply (f_equal (fun x => x =? 40)) in H.
  vm_compute in H. discriminate.
Qed.

(** ** C4: guarded ratios *)

Lemma eqb_zero_not_positive (x : number) :
  (x =? 0) = true -> (0 <? x) = false.
Proof.
  rewrite eqb_spec, ltb_spec.
  change (Prim2SF 0) with (S754_zero false).
  destruct (Prim2SF x) as [s|s| |s m e]; simpl; try discriminate; try reflexivity.
  - destruct s; discriminate.
  - destruct s; discriminate.
Qed.

(** C4 (as the code has it).  [winRate] is 0 for a run without bets and
    [wins / totalBets * 100] otherwise; [roi] is
    [netProfit / totalCost * 100] exactly when [totalCost] is positive and 0
    in every other case (zero, negative or NaN); the statistics of the empty
    market set have [avgVolume = avgLiquidity = 0], and a non-empty set gives
    sum / count.  Hence no division is performed with a zero denominator. *)
Theorem C4_guarded_ratios
  (now : Date) (strategy : Strategy.t) (markets : list Market.t)
  (trainingRatio : option number) :
  let r := BacktestEngine.backtest now strategy markets trainingRatio in
  let stats := BacktestEngine.calculateHistoricalStats markets in
  (BacktestResult.totalBets r = 0%nat -> BacktestResult.winRate r = 0)
  /\ ((0 < BacktestResult.totalBets r)%nat ->
      BacktestResult.winRate r
      = JS.number_of_nat (BacktestResult.wins r)
        / JS.number_of_nat (BacktestResult.totalBets r) * 100)
  /\ ((BacktestResult.totalCost r =? 0) = true -> BacktestResult.roi r = 0)
  /\ ((0 <? BacktestResult.totalCost r) = true ->
      BacktestResult.roi r
      = BacktestResult.netProfit r / BacktestResult.totalCost r * 100)
  /\ ((0 <? BacktestResult.totalCost r) = false -> BacktestResult.roi r = 0)
  /\ (markets = [] ->
      HistoricalStats.avgVolume stats = 0
      /\ HistoricalStats.avgLiquidity stats = 0
      /\ HistoricalStats.totalMarkets stats = 0%nat)
  /\ (markets <> [] ->
      HistoricalStats.avgVolume stats
      = fold_left (fun sum m => sum + Market.volume m) markets 0
        / JS.number_of_nat (List.length markets)
      /\ HistoricalStats.avgLiquidity stats
         = fold_left (fun sum m => sum + Market.liquidity m) markets 0
           / JS.number_of_nat (List.length markets)).
Proof.
  intros r stats. subst r stats.
  unfold BacktestEngine.backtest, BacktestEngine.metrics,
    BacktestEngine.calculateHistoricalStats.
  cbn [BacktestResult.totalBets BacktestResult.winRate BacktestResult.wins
       BacktestResult.totalCost BacktestResult.roi BacktestResult.netProfit
       BacktestResult.totalWinnings HistoricalStats.avgVolume
       HistoricalStats.avgLiquidity HistoricalStats.totalMarkets].
  set (sim := BacktestEngine.simulate _ _ _).
  set (cost := fold_left _ (BacktestEngine.backtestBets sim) 0).
  repeat split.
  - intros ->. reflexivity.
  - intros H. apply Nat.ltb_lt in H. now rewrite H.
  - intros H. now rewrite (eqb_zero_not_positive _ H).
  - intros ->. reflexivity.
  - intros ->. reflexivity.
  - subst markets. reflexivity.
  - subst markets. reflexivity.
  - subst markets. reflexivity.
  - destruct markets; [contradiction|reflexivity].
  - destruct markets; [contradiction|reflexivity].
Qed.

(** C4 does not hold as stated.  A generated strategy that proposes a bet
    with a negative amount gives a negative [totalCost]: [roi] is then 0, not
    [netProfit / totalCost * 100] (which is -100).  And two winning bets of
    1e308 each at price 0.5 give a positive finite [totalCost] and an
    infinite [roi]. *)
Lemma C4_roi_not_always_the_quotient :
  (let r :=
     BacktestEngine.backtest 0%Z
       (Examples.fixedStrategy [Examples.bet "m" "Yes" buy (-10) 0.5])
       [Examples.onePriceMarket 0.5 "No"] None in
   BacktestResult.totalCost r = -5
   /\ BacktestResult.netProfit r / BacktestResult.totalCost r * 100 = -100
   /\ BacktestResult.roi r = 0
   /\ BacktestResult.roi r
      <> BacktestResult.netProfit r / BacktestResult.totalCost r * 100)
  /\ (let r :=
        BacktestEngine.backtest 0%Z
          (Examples.fixedStrategy
             [Examples.bet "m" "Yes" buy 1e308 0.5;
              Examples.bet "m" "Yes" buy 1e308 0.5])
          [Examples.onePriceMarket 0.5 "Yes"] None in
      BacktestResult.totalCost r = 1e308
      /\ BacktestResult.roi r = infinity).
Proof.
  split.
  - intros r. repeat split; try (vm_compute; reflexivity).
    intros H. apply (f_equal (fun x => x =? 0)) in H.
    vm_compute in H. discriminate.
  - intros r. split; vm_compute; reflexivity.
Qed.

(** ** C8: the decision time *)

Lemma last_item_lastElement {A : Type} (l : list A) :
  JS.last_item l = Spec.lastElement l.
Proof.
  unfold JS.last_item, Spec.lastElement.
  destruct l as [|a l'] using rev_ind; [reflexivity|].
  rewrite rev_app_distr, length_app. simpl.
  rewrite Nat.add_sub, nth_error_app2 by lia.
  now rewrite Nat.sub_diag.
Qed.

Lemma lastElement_nil {A : Type} (l : list A) :
  Spec.lastElement l = None <-> l = [].
Proof.
  unfold Spec.lastElement. split.
  - destruct l as [|a l'] using rev_ind; [reflexivity|].
    rewrite rev_app_distr. discriminate.
  - intros ->. reflexivity.
Qed.

(** C8.  In backtest mode the decision time is the timestamp of the last
    element of [historicalPrices] when there is one, else [endDate] when it is
    not null, else [resolutionDate] when it is not null, else the wall clock;
    in live mode (also when the context names no mode) it is the wall
    clock. *)
Theorem C8_decision_time
  (now : Date) (market : Market.t) (context : StrategyContext.t) :
  let mode := Strategies.resolveMode context in
  let t := Strategies.determineDecisionTime now market mode in
  t = Spec.decisionTime now market mode
  /\ (mode = live -> t = now)
  /\ (mode = backtest_mode ->
      (forall p, Spec.lastElement (Market.historicalPrices market) = Some p ->
                 t = PricePoint.timestamp p)
      /\ (Market.historicalPrices market = [] ->
          (forall d, Market.endDate market = Some d -> t = d)
          /\ (Market.endDate market = None ->
              (forall d, Market.resolutionDate market = Some d -> t = d)
              /\ (Market.resolutionDate market = None -> t = now))))
  /\ (StrategyContext.mode context = None -> mode = live).
Proof.
  intros mode t.
  assert (Heq : t = Spec.decisionTime now market mode).
  { subst t. unfold Strategies.determineDecisionTime, Spec.decisionTime.
    destruct mode; [reflexivity|].
    rewrite <- last_item_lastElement.
    destruct (Market.historicalPrices market) as [|p l]; [reflexivity|].
    cbn [List.length Nat.ltb Nat.leb].
    destruct (JS.last_item (p :: l)) eqn:E; [reflexivity|].
    rewrite last_item_lastElement in E. apply lastElement_nil in E. discriminate. }
  split; [exact Heq|]. rewrite Heq. unfold Spec.decisionTime.
  split; [intros ->; reflexivity|]. split.
  - intros ->. split.
    + intros p ->. reflexivity.
    + intros ->. simpl. split.
      * intros d ->. reflexivity.
      * intros ->. split; [intros d ->; reflexivity|intros ->; reflexivity].
  - unfold mode, Strategies.resolveMode. intros ->. reflexivity.
Qed.

(** ** Stable sorting *)

Section StableSortFacts.
Context {A : Type} (before : A -> A -> bool).

Lemma insert_perm (x : A) (l : list A) :
  Permutation (x :: l) (JS.insert before x l).
Proof.
  induction l as [|y l IH]; simpl; [reflexivity|].
  destruct (before x y); [reflexivity|].
  rewrite perm_swap. now apply perm_skip.
Qed.

Lemma stable_sort_perm (l : list A) : Permutation l (JS.stable_sort before l).
Proof.
  induction l as [|x l IH]; simpl; [reflexivity|].
  rewrite <- insert_perm. now apply perm_skip.
Qed.

Lemma stable_sort_length (l : list A) :
  List.length (JS.stable_sort before l) = List.length l.
Proof. symmetry. apply Permutation_length, stable_sort_perm. Qed.

Lemma stable_sort_In (l : list A) (x : A) :
  In x (JS.stable_sort before l) <-> In x l.
Proof.
  split; apply Permutation_in;
    [symmetry|]; apply stable_sort_perm.
Qed.

Hypothesis before_total : forall a b, before a b = false -> before b a = true.
Hypothesis before_trans :
  forall a b c, before a b = true -> before b c = true -> before a c = true.

Lemma insert_sorted (x : A) (l : list A) :
  StronglySorted (fun a b => before a b = true) l ->
  StronglySorted (fun a b => before a b = true) (JS.insert before x l).
Proof.
  induction 1 as [|y l Hs IH Hy]; simpl.
  - repeat constructor.
  - destruct (before x y) eqn:E.
    + constructor; [constructor; assumption|].
      constructor; [exact E|].
      eapply Forall_impl; [|exact Hy]. intros z. now apply before_trans.
    + constructor; [exact IH|].
      rewrite Forall_forall. intros z Hz.
      apply (Permutation_in z (Permutation_sym (insert_perm x l))) in Hz.
      destruct Hz as [<-|Hz].
      * now apply before_total.
      * rewrite Forall_forall in Hy. now apply Hy.
Qed.

Lemma stable_sort_sorted (l : list A) :
  StronglySorted (fun a b => before a b = true) (JS.stable_sort before l).
Proof.
  induction l as [|x l IH]; simpl; [constructor|]. now apply insert_sorted.
Qed.

End StableSortFacts.

Lemma StronglySorted_impl {A : Type} (R S : A -> A -> Prop) (l : list A) :
  (forall a b, R a b -> S a b) -> StronglySorted R l -> StronglySorted S l.
Proof.
  intros H. induction 1 as [|x l Hs IH Hx]; constructor; [exact IH|].
  eapply Forall_impl; [|exact Hx]. intros y. apply H.
Qed.

Lemma orderBy_perm {A K : Type} cmp (key : A -> K) o l :
  Permutation l (Lodash.orderBy cmp key o l).
Proof. apply stable_sort_perm. Qed.

Lemma orderBy_Date_sorted {A : Type} (key : A -> Date) (l : list A) :
  StronglySorted (fun a b => Spec.dateLe (key a) (key b))
    (Lodash.orderBy Lodash.compareAscending_Date key Lodash.asc l).
Proof.
  unfold Lodash.orderBy, Lodash.compareAscending_Date, Spec.dateLe.
  eapply StronglySorted_impl; [|apply stable_sort_sorted].
  - intros a b. cbv beta. destruct (Z.compare_spec (key a) (key b)); (lia || discriminate).
  - intros a b. destruct (Z.compare_spec (key a) (key b)); try discriminate.
    intros _. destruct (Z.compare_spec (key b) (key a)); (lia || reflexivity).
  - intros a b c.
    destruct (Z.compare_spec (key a) (key b)), (Z.compare_spec (key b) (key c)),
      (Z.compare_spec (key a) (key c)); (lia || discriminate || reflexivity).
Qed.


(** ** [slice] *)

Lemma ToIntegerOrInfinity_zero : JS.ToIntegerOrInfinity 0 = JS.Int 0.
Proof. vm_compute. reflexivity. Qed.

Lemma relativeIndex_bounds (len : Z) (i : JS.integer_or_infinity) :
  (0 <= len)%Z -> (0 <= JS.relativeIndex len i <= len)%Z.
Proof.
  intros H. destruct i as [|z|]; simpl; try lia.
  destruct (z <? 0)%Z eqn:E; lia.
Qed.

Lemma slice_from {A : Type} (l : list A) (start : number) :
  JS.slice l start None
  = skipn (Z.to_nat (JS.relativeIndex (Z.of_nat (List.length l))
                       (JS.ToIntegerOrInfinity start))) l.
Proof.
  unfold JS.slice.
  set (len := Z.of_nat (List.length l)).
  set (k := JS.relativeIndex len (JS.ToIntegerOrInfinity start)).
  assert (Hk := relativeIndex_bounds len (JS.ToIntegerOrInfinity start)
                  (Nat2Z.is_nonneg _)).
  fold k in Hk. apply firstn_all2. rewrite length_skipn. subst len. lia.
Qed.

Lemma slice_to {A : Type} (l : list A) (final : number) :
  JS.slice l 0 (Some final)
  = firstn (Z.to_nat (JS.relativeIndex (Z.of_nat (List.length l))
                        (JS.ToIntegerOrInfinity final))) l.
Proof.
  unfold JS.slice. rewrite ToIntegerOrInfinity_zero.
  set (len := Z.of_nat (List.length l)).
  set (k := JS.relativeIndex len (JS.ToIntegerOrInfinity final)).
  assert (Hk := relativeIndex_bounds len (JS.ToIntegerOrInfinity final)
                  (Nat2Z.is_nonneg _)).
  fold k in Hk.
  assert (H0 : JS.relativeIndex len (JS.Int 0) = 0%Z).
  { simpl. subst len. lia. }
  rewrite H0. simpl. f_equal. lia.
Qed.


Lemma slice_incl {A : Type} (l : list A) (start : number) (x : A) :
  In x (JS.slice l start None) -> In x l.
Proof.
  rewrite slice_from. intros H.
  rewrite <- (firstn_skipn (Z.to_nat
    (JS.relativeIndex (Z.of_nat (List.length l)) (JS.ToIntegerOrInfinity start))) l).
  apply in_or_app. now right.
Qed.

(** ** C3: the snapshot handed to the strategy *)

Lemma sortedMarkets_resolved (markets : list Market.t) (m : Market.t) :
  In m (BacktestEngine.sortedMarkets markets) ->
  In m markets /\ Market.resolvedOutcome m <> None.
Proof.
  unfold BacktestEngine.sortedMarkets, Lodash.orderBy.
  rewrite stable_sort_In. unfold BacktestEngine.resolvedMarkets.
  rewrite filter_In. unfold BacktestEngine.isResolved.
  intros [Hin H]. split; [exact Hin|].
  destruct (Market.resolvedOutcome m); [discriminate|discriminate].
Qed.

Lemma testMarkets_resolved (markets : list Market.t) (ratio : number)
  (m : Market.t) :
  In m (BacktestEngine.testMarkets markets ratio) ->
  In m markets /\ Market.resolvedOutcome m <> None.
Proof.
  unfold BacktestEngine.testMarkets. intros H.
  apply slice_incl in H. now apply sortedMarkets_resolved.
Qed.

(** C3.  The snapshot of a market has [active = true] and
    [resolvedOutcome = null]; its [historicalPrices] and [trades] hold exactly
    the points and trades of the market (nothing is cut off), ordered by
    ascending timestamp; every other field is the market's.  The strategy is
    called on the snapshots of the test markets, and bets are scored against
    the test markets themselves, each of which still has its resolved
    outcome. *)
Theorem C3_snapshot (market : Market.t) :
  let s := BacktestEngine.prepareMarketSnapshot market in
  Market.active s = true
  /\ Market.resolvedOutcome s = None
  /\ Permutation (Market.historicalPrices market) (Market.historicalPrices s)
  /\ StronglySorted
       (fun p q => Spec.dateLe (PricePoint.timestamp p) (PricePoint.timestamp q))
       (Market.historicalPrices s)
  /\ Permutation (Market.trades market) (Market.trades s)
  /\ StronglySorted
       (fun p q => Spec.dateLe (Trade.timestamp p) (Trade.timestamp q))
       (Market.trades s)
  /\ (Market.marketId s = Market.marketId market
      /\ Market.question s = Market.question market
      /\ Market.outcomes s = Market.outcomes market
      /\ Market.resolutionDate s = Market.resolutionDate market
      /\ Market.endDate s = Market.endDate market
      /\ Market.volume s = Market.volume market
      /\ Market.liquidity s = Market.liquidity market
      /\ Market.image s = Market.image market
      /\ Market.category s = Market.category market)
  /\ (forall now strategy markets trainingRatio,
         let ratio := BacktestEngine.ratioOrDefault trainingRatio in
         let tm := BacktestEngine.testMarkets markets ratio in
         BacktestEngine.backtest now strategy markets trainingRatio
         = BacktestEngine.metrics strategy
             (BacktestEngine.simulate (Strategy.id strategy) tm
                (Strategy.generateBets strategy now
                   (map BacktestEngine.prepareMarketSnapshot tm)
                   (BacktestEngine.backtestContext markets ratio)))
         /\ forall m, In m tm -> Market.resolvedOutcome m <> None).
Proof.
  intros s. subst s. unfold BacktestEngine.prepareMarketSnapshot.
  cbn [Market.active Market.resolvedOutcome Market.historicalPrices
       Market.trades Market.marketId Market.question Market.outcomes
       Market.resolutionDate Market.endDate Market.volume Market.liquidity
       Market.image Market.category].
  split; [reflexivity|]. split; [reflexivity|].
  split; [apply orderBy_perm|]. split; [apply orderBy_Date_sorted|].
  split; [apply orderBy_perm|]. split; [apply orderBy_Date_sorted|].
  split; [repeat split|].
  intros now strategy markets trainingRatio.
  split; [reflexivity|].
  intros m Hm. now apply testMarkets_resolved in Hm.
Qed.

(** ** C2: the chronological split *)



(** ** C5: determinism and the wall clock *)

Lemma determineDecisionTime_own (now1 now2 : Date) (m : Market.t) :
  Spec.hasOwnDecisionTime m = true ->
  Strategies.determineDecisionTime now1 m backtest_mode
  = Strategies.determineDecisionTime now2 m backtest_mode.
Proof.
  unfold Spec.hasOwnDecisionTime, Strategies.determineDecisionTime.
  destruct (Market.historicalPrices m) as [|p l] eqn:E.
  - simpl. destruct (Market.endDate m); [reflexivity|].
    destruct (Market.resolutionDate m); [reflexivity|discriminate].
  - intros _. cbn [List.length Nat.ltb Nat.leb].
    destruct (JS.last_item (p :: l)) eqn:El; [reflexivity|].
    rewrite last_item_lastElement in El. apply lastElement_nil in El.
    discriminate.
Qed.

Lemma snapshot_hasOwnDecisionTime (m : Market.t) :
  Spec.hasOwnDecisionTime (BacktestEngine.prepareMarketSnapshot m)
  = Spec.hasOwnDecisionTime m.
Proof.
  unfold Spec.hasOwnDecisionTime, BacktestEngine.prepareMarketSnapshot.
  cbn [Market.historicalPrices Market.endDate Market.resolutionDate].
  pose proof (orderBy_perm Lodash.compareAscending_Date PricePoint.timestamp
                Lodash.asc (Market.historicalPrices m)) as Hp.
  destruct (Market.historicalPrices m) as [|p l].
  - apply Permutation_nil in Hp. now rewrite Hp.
  - destruct (Lodash.orderBy _ _ _ (p :: l)) eqn:E; [|reflexivity].
    symmetry in Hp. apply Permutation_nil in Hp. discriminate.
Qed.

Lemma flat_map_ext_in {A B : Type} (f g : A -> list B) (l : list A) :
  (forall x, In x l -> f x = g x) -> flat_map f l = flat_map g l.
Proof.
  induction l as [|x l IH]; intros H; simpl; [reflexivity|].
  rewrite (H x (or_introl eq_refl)), IH; [reflexivity|].
  intros y Hy. apply H. now right.
Qed.

Lemma reference_generateBets_clock_free
  (params : Strategies.CopyTradingParams.t) (strategy : Strategy.t)
  (now1 now2 : Date) (snapshots : list Market.t) (context : StrategyContext.t) :
  In strategy
    [Strategies.copyTradingStrategy_with params;
     Strategies.spikeDetectionStrategy; Strategies.marketMakingStrategy;
     Strategies.aiGeneratedStrategy] ->
  Strategies.resolveMode context = backtest_mode ->
  (forall s, In s snapshots -> Spec.hasOwnDecisionTime s = true) ->
  Strategy.generateBets strategy now1 snapshots context
  = Strategy.generateBets strategy now2 snapshots context.
Proof.
  intros Hs Hmode Hown.
  destruct Hs as [<-|[<-|[<-|[<-|[]]]]];
    cbn [Strategy.generateBets Strategies.copyTradingStrategy_with
         Strategies.spikeDetectionStrategy Strategies.marketMakingStrategy
         Strategies.aiGeneratedStrategy];
    try reflexivity;
    unfold Strategies.copyTrading_generateBets,
      Strategies.spikeDetection_generateBets,
      Strategies.marketMaking_generateBets;
    rewrite Hmode; apply flat_map_ext_in; intros s Hin;
    unfold Strategies.copyTrading_market, Strategies.spikeDetection_market,
      Strategies.marketMaking_market;
    rewrite (determineDecisionTime_own now1 now2 s (Hown s Hin));
    reflexivity.
Qed.

(** C5 (as the code has it).  The engine keeps no state and never reads the
    clock itself: two runs with the same strategy, markets and ratio return
    the same result whenever the strategy proposes the same bets in both.
    The reference strategies read the wall clock only to date the decision
    for a test market without price history, end date and resolution date;
    when every resolved market of the pool has one of these (and at least
    one outcome label, without which scoring a bet of the spike strategy or
    of the market maker fails), any two runs of a reference strategy return
    identical results. *)
Theorem C5_determinism :
  (forall strategy markets trainingRatio now1 now2,
      let ratio := BacktestEngine.ratioOrDefault trainingRatio in
      BacktestEngine.proposedBets now1 strategy markets ratio
      = BacktestEngine.proposedBets now2 strategy markets ratio ->
      BacktestEngine.backtest now1 strategy markets trainingRatio
      = BacktestEngine.backtest now2 strategy markets trainingRatio)
  /\ (forall params strategy markets trainingRatio now1 now2,
         In strategy
           [Strategies.copyTradingStrategy_with params;
            Strategies.spikeDetectionStrategy; Strategies.marketMakingStrategy;
            Strategies.aiGeneratedStrategy] ->
         (forall m, In m markets -> Market.resolvedOutcome m <> None ->
                    Spec.hasOwnDecisionTime m = true
                    /\ Market.outcomes m <> []) ->
         BacktestEngine.backtest now1 strategy markets trainingRatio
         = BacktestEngine.backtest now2 strategy markets trainingRatio).
Proof.
  assert (H1 : forall strategy markets trainingRatio now1 now2,
             let ratio := BacktestEngine.ratioOrDefault trainingRatio in
             BacktestEngine.proposedBets now1 strategy markets ratio
             = BacktestEngine.proposedBets now2 strategy markets ratio ->
             BacktestEngine.backtest now1 strategy markets trainingRatio
             = BacktestEngine.backtest now2 strategy markets trainingRatio).
  { intros strategy markets trainingRatio now1 now2 ratio H.
    unfold BacktestEngine.backtest. fold ratio. now rewrite H. }
  split; [exact H1|].
  intros params strategy markets trainingRatio now1 now2 Hs Hown.
  apply H1. unfold BacktestEngine.proposedBets.
  apply (reference_generateBets_clock_free params); [exact Hs|reflexivity|].
  intros s Hin. unfold BacktestEngine.preparedTestMarkets in Hin.
  apply in_map_iff in Hin as (m & <- & Hm).
  rewrite snapshot_hasOwnDecisionTime.
  apply testMarkets_resolved in Hm as [Hin Hres]. now apply Hown.
Qed.

(** C5 does not hold as stated: the whale-copy strategy dates its decision
    with the wall clock for a market without price history and dates, so the
    same run started 1000 s and 99000 s after the whale trade returns one bet
    and no bet respectively. *)
Lemma C5_wall_clock_changes_result :
  BacktestResult.totalBets
    (BacktestEngine.backtest 2000000%Z Strategies.copyTradingStrategy
       [Examples.undatedMarket] None) = 1%nat
  /\ BacktestResult.totalBets
       (BacktestEngine.backtest 100000000%Z Strategies.copyTradingStrategy
          [Examples.undatedMarket] None) = 0%nat
  /\ BacktestEngine.backtest 2000000%Z Strategies.copyTradingStrategy
       [Examples.undatedMarket] None
     <> BacktestEngine.backtest 100000000%Z Strategies.copyTradingStrategy
          [Examples.undatedMarket] None.
Proof.
  split; [vm_compute; reflexivity|]. split; [vm_compute; reflexivity|].
  intros H. apply (f_equal BacktestResult.totalBets) in H.
  vm_compute in H. discriminate.
Qed.

(** ** Floating-point facts *)

Lemma SFcompare_refl (x : spec_float) :
  SFis_nan x = false -> SFcompare x x = Some Eq.
Proof.
  destruct x as [s|s| |s m e]; simpl; try discriminate; intros _.
  - reflexivity.
  - destruct s; reflexivity.
  - destruct s; rewrite Z.compare_refl, Pos.compare_cont_refl; reflexivity.
Qed.

Lemma is_nan_spec (x : number) : is_nan x = SFis_nan (Prim2SF x).
Proof.
  unfold is_nan. rewrite eqb_spec. unfold SFeqb.
  destruct (SFis_nan (Prim2SF x)) eqn:E.
  - destruct (Prim2SF x); try discriminate. reflexivity.
  - now rewrite SFcompare_refl.
Qed.

Lemma SFcompare_antisym (x y : spec_float) :
  SFcompare y x = option_map CompOpp (SFcompare x y).
Proof.
  destruct x as [s|s| |s m e], y as [s'|s'| |s' m' e']; simpl;
    try reflexivity; try (destruct s; reflexivity);
    try (destruct s'; reflexivity);
    try (destruct s, s'; reflexivity).
  assert (Hm : Pos.compare_cont Eq m' m = CompOpp (Pos.compare_cont Eq m m'))
    by (symmetry; apply (Pos.compare_cont_antisym m m' Eq)).
  destruct s, s'; try reflexivity;
    rewrite (Z.compare_antisym e e'), Hm;
    destruct (e ?= e')%Z; simpl; try reflexivity;
    destruct (Pos.compare_cont Eq m m'); reflexivity.
Qed.

Lemma ltb_leb (x y : number) : (x <? y) = true -> (x <=? y) = true.
Proof.
  rewrite ltb_spec, leb_spec. unfold SFltb, SFleb.
  destruct (SFcompare (Prim2SF x) (Prim2SF y)) as [[]|]; congruence.
Qed.

Lemma not_ltb_leb (x y : number) :
  is_nan x = false -> is_nan y = false -> (x <? y) = false -> (y <=? x) = true.
Proof.
  rewrite !is_nan_spec, ltb_spec, leb_spec. unfold SFltb, SFleb.
  rewrite (SFcompare_antisym (Prim2SF x) (Prim2SF y)).
  destruct (Prim2SF x) as [s|s| |s m e], (Prim2SF y) as [s'|s'| |s' m' e'];
    try discriminate; intros _ _;
    destruct (SFcompare _ _) as [[]|] eqn:E; simpl; try congruence;
    simpl in E; try discriminate;
    repeat match type of E with context [if ?b then _ else _] => destruct b end;
    discriminate.
Qed.

Lemma clampPrice_range (x : number) :
  is_nan x = false -> Spec.inPriceRange (Strategies.clampPrice x).
Proof.
  intros Hx. unfold Strategies.clampPrice, JS.Math_min, Spec.inPriceRange.
  rewrite Hx. change (is_nan 0.99) with false.
  change (is_zero 0.99 && get_sign 0.99) with false. cbn [orb].
  assert (H99 : is_nan 0.99 = false) by reflexivity.
  assert (H01 : is_nan 0.01 = false) by reflexivity.
  destruct (0.99 <? x) eqn:E1; [split; vm_compute; reflexivity|].
  assert (Hle : (x <=? 0.99) = true) by (apply not_ltb_leb; assumption).
  assert (Hmin : (if x <? 0.99 then x else if false then 0.99 else x) = x)
    by (destruct (x <? 0.99); reflexivity).
  rewrite Hmin. unfold JS.Math_max. rewrite Hx.
  change (is_nan 0.01) with false.
  change (is_zero 0.01 && get_sign 0.01) with false. cbn [orb].
  destruct (0.01 <? x) eqn:E2.
  - split; [now apply ltb_leb|exact Hle].
  - destruct (x <? 0.01); split; vm_compute; reflexivity.
Qed.

Lemma clampPrice_nan (x : number) :
  is_nan x = true -> Strategies.clampPrice x = nan.
Proof.
  intros Hx. unfold Strategies.clampPrice, JS.Math_min.
  rewrite Hx, orb_true_r. reflexivity.
Qed.

Lemma SFsigned_not_nan s x : SFsigned s x -> SFis_nan x = false.
Proof. destruct x; simpl; tauto || reflexivity. Qed.

Lemma iter_pos_invariant {A : Type} (P : A -> Prop) (f : A -> A) :
  (forall x, P x -> P (f x)) -> forall n x, P x -> P (iter_pos f n x).
Proof.
  intros Hf. induction n as [n IH|n IH|]; intros x Hx; simpl; auto.
Qed.

Lemma shr_1_nonneg (mrs : shr_record) :
  (0 <= shr_m mrs)%Z -> (0 <= shr_m (shr_1 mrs))%Z.
Proof.
  destruct mrs as [m r s]. destruct m as [|p|p]; simpl; try lia;
    destruct p; simpl; lia.
Qed.

Lemma shr_fexp_nonneg (m e : Z) (l : location) :
  (0 <= m)%Z -> (0 <= shr_m (fst (shr_fexp prec emax m e l)))%Z.
Proof.
  intros Hm. unfold shr_fexp, shr.
  assert (H0 : (0 <= shr_m (shr_record_of_loc m l))%Z)
    by (destruct l as [|[]]; exact Hm).
  destruct (fexp prec emax (Zdigits2 m + e) - e)%Z; simpl; try exact H0.
  apply iter_pos_invariant; [exact shr_1_nonneg|exact H0].
Qed.

Lemma round_nearest_even_nonneg (m : Z) (l : location) :
  (0 <= m)%Z -> (0 <= round_nearest_even m l)%Z.
Proof.
  intros Hm. destruct l as [|[]]; simpl; try lia.
  destruct (Z.even m); lia.
Qed.

Lemma binary_round_aux_signed (sx : bool) (mx ex : Z) (lx : location) :
  (0 <= mx)%Z -> SFsigned sx (binary_round_aux prec emax sx mx ex lx).
Proof.
  intros Hm. unfold binary_round_aux.
  pose proof (shr_fexp_nonneg mx ex lx Hm) as H1.
  destruct (shr_fexp prec emax mx ex lx) as [mrs' e']. simpl in H1.
  pose proof (shr_fexp_nonneg
                (round_nearest_even (shr_m mrs') (loc_of_shr_record mrs'))
                e' loc_Exact (round_nearest_even_nonneg _ _ H1)) as H2.
  destruct (shr_fexp prec emax _ e' loc_Exact) as [mrs'' e'']. simpl in H2.
  destruct (shr_m mrs'') as [|p|p]; [exact eq_refl| |lia].
  destruct (e'' <=? emax - prec)%Z; exact eq_refl.
Qed.

Lemma binary_round_signed (s : bool) (m : positive) (e : Z) :
  SFsigned s (binary_round prec emax s m e).
Proof.
  unfold binary_round. destruct (shl_align _ _ _) as [mz ez].
  apply binary_round_aux_signed. lia.
Qed.

Lemma binary_normalize_not_nan (m e : Z) (sz : bool) :
  SFis_nan (binary_normalize prec emax m e sz) = false.
Proof.
  destruct m; simpl; [reflexivity| |];
    eapply SFsigned_not_nan, binary_round_signed.
Qed.

Lemma SFadd_not_nan (x y : spec_float) :
  SFis_nan x = false -> SFis_finite y = true ->
  SFis_nan (SFadd prec emax x y) = false.
Proof.
  destruct x as [s|s| |s m e], y as [s'|s'| |s' m' e']; simpl;
    try discriminate; try reflexivity; intros _ _.
  - destruct s, s'; reflexivity.
  - apply binary_normalize_not_nan.
Qed.

Lemma SFsub_not_nan (x y : spec_float) :
  SFis_nan x = false -> SFis_finite y = true ->
  SFis_nan (SFsub prec emax x y) = false.
Proof.
  destruct x as [s|s| |s m e], y as [s'|s'| |s' m' e']; simpl;
    try discriminate; try reflexivity; intros _ _.
  - destruct s, s'; reflexivity.
  - apply binary_normalize_not_nan.
Qed.

Lemma SFsub_not_nan_l (x y : spec_float) :
  SFis_finite x = true -> SFis_nan y = false ->
  SFis_nan (SFsub prec emax x y) = false.
Proof.
  destruct x as [s|s| |s m e], y as [s'|s'| |s' m' e']; simpl;
    try discriminate; try reflexivity; intros _ _.
  - destruct s, s'; reflexivity.
  - apply binary_normalize_not_nan.
Qed.

Lemma SFadd_not_nan_l (x y : spec_float) :
  SFis_finite x = true -> SFis_nan y = false ->
  SFis_nan (SFadd prec emax x y) = false.
Proof.
  destruct x as [s|s| |s m e], y as [s'|s'| |s' m' e']; simpl;
    try discriminate; try reflexivity; intros _ _.
  - destruct s, s'; reflexivity.
  - apply binary_normalize_not_nan.
Qed.

Lemma isFinite_spec (x : number) :
  Spec.isFinite x = SFis_finite (Prim2SF x).
Proof.
  unfold Spec.isFinite, is_infinity.
  rewrite is_nan_spec, eqb_spec, abs_spec.
  change (Prim2SF infinity) with (S754_infinity false).
  destruct (Prim2SF x) as [s|s| |s m e]; reflexivity.
Qed.

Lemma add_not_nan (x c : number) :
  is_nan x = false -> Spec.isFinite c = true -> is_nan (x + c) = false.
Proof.
  rewrite !is_nan_spec, isFinite_spec, add_spec. apply SFadd_not_nan.
Qed.

Lemma sub_not_nan (x c : number) :
  is_nan x = false -> Spec.isFinite c = true -> is_nan (x - c) = false.
Proof.
  rewrite !is_nan_spec, isFinite_spec, sub_spec. apply SFsub_not_nan.
Qed.

Lemma finite_sub_not_nan (x d : number) :
  Spec.isFinite x = true -> is_nan d = false -> is_nan (x - d) = false.
Proof.
  rewrite !is_nan_spec, isFinite_spec, sub_spec. apply SFsub_not_nan_l.
Qed.

Lemma finite_add_not_nan (x d : number) :
  Spec.isFinite x = true -> is_nan d = false -> is_nan (x + d) = false.
Proof.
  rewrite !is_nan_spec, isFinite_spec, add_spec. apply SFadd_not_nan_l.
Qed.

Lemma isFinite_not_nan (x : number) :
  Spec.isFinite x = true -> is_nan x = false.
Proof.
  unfold Spec.isFinite. destruct (is_nan x); [discriminate|reflexivity].
Qed.

Lemma nonneg_not_nan (x : number) : nonneg x -> is_nan x = false.
Proof. rewrite is_nan_spec. apply SFsigned_not_nan. Qed.

Lemma pow2_nonneg (y : number) : is_nan y = false -> nonneg (JS.Math_pow2 y).
Proof.
  rewrite is_nan_spec. unfold nonneg, JS.Math_pow2. rewrite mul_spec.
  destruct (Prim2SF y) as [s|s| |s m e]; simpl; try discriminate; intros _;
    try (destruct s; reflexivity).
  unfold SF64mul. simpl. rewrite xorb_nilpotent.
  apply binary_round_aux_signed. lia.
Qed.

Lemma add_nonneg (a b : number) : nonneg a -> nonneg b -> nonneg (a + b).
Proof.
  unfold nonneg. rewrite add_spec.
  destruct (Prim2SF a) as [s|s| |s m e], (Prim2SF b) as [s'|s'| |s' m' e'];
    simpl; try tauto; intros -> ->; try exact eq_refl.
  unfold SF64add. simpl.
  apply binary_round_signed.
Qed.

Lemma fold_add_nonneg (l : list number) (x : number) :
  nonneg x -> Forall nonneg l -> nonneg (fold_left (fun acc y => acc + y) l x).
Proof.
  revert x. induction l as [|y l IH]; intros x Hx Hl; simpl; [exact Hx|].
  inversion Hl; subst. apply IH; [now apply add_nonneg|assumption].
Qed.

Lemma div_nonneg (a n : number) (m : positive) (e : Z) :
  nonneg a -> Prim2SF n = S754_finite false m e -> nonneg (a / n).
Proof.
  unfold nonneg. rewrite div_spec. intros Ha ->.
  destruct (Prim2SF a) as [s|s| |s ma ea]; simpl in *; try tauto; subst;
    try exact eq_refl.
  unfold SF64div, SFdiv.
  destruct (SFdiv_core_binary prec emax (Z.pos ma) ea (Z.pos m) e)
    as [[mz ez] lz] eqn:E.
  apply binary_round_aux_signed.
  unfold SFdiv_core_binary in E.
  set (s := (ea - e - _)%Z) in E.
  set (m' := match s with Z.pos _ => Z.shiftl (Z.pos ma) s | 0%Z => Z.pos ma
                        | Z.neg _ => 0%Z end) in E.
  assert (Hm' : (0 <= m')%Z).
  { subst m'. destruct s; try lia. apply Z.shiftl_nonneg. lia. }
  pose proof (Z.div_pos m' (Z.pos m) Hm' eq_refl) as Hq.
  unfold Z.div in Hq. destruct (Z.div_eucl m' (Z.pos m)) as [q r].
  injection E as <- _ _. exact Hq.
Qed.

Lemma sqrt_nonneg (a : number) : nonneg a -> nonneg (JS.Math_sqrt a).
Proof.
  unfold nonneg, JS.Math_sqrt. rewrite sqrt_spec.
  destruct (Prim2SF a) as [s|s| |s m e]; simpl; try tauto; intros ->;
    try exact eq_refl.
  unfold SF64sqrt, SFsqrt.
  destruct (SFsqrt_core_binary prec emax (Z.pos m) e) as [[mz ez] lz] eqn:E.
  apply binary_round_aux_signed.
  unfold SFsqrt_core_binary in E.
  set (m' := match _ with Z.pos _ => _ | 0%Z => _ | Z.neg _ => _ end) in E.
  pose proof (Z.sqrtrem_sqrt m') as Hs. pose proof (Z.sqrt_nonneg m') as Hn.
  destruct (Z.sqrtrem m') as [q r]. simpl in Hs.
  injection E as <- _ _. lia.
Qed.

Lemma mul_nonneg (a c : number) (m : positive) (e : Z) :
  nonneg a -> Prim2SF c = S754_finite false m e -> nonneg (a * c).
Proof.
  unfold nonneg. rewrite mul_spec. intros Ha ->.
  destruct (Prim2SF a) as [s|s| |s ma ea]; simpl in *; try tauto; subst;
    try exact eq_refl.
  apply binary_round_aux_signed. lia.
Qed.

Lemma div_not_nan (x c : number) (s : bool) (m : positive) (e : Z) :
  is_nan x = false -> Prim2SF c = S754_finite s m e -> is_nan (x / c) = false.
Proof.
  rewrite !is_nan_spec, div_spec. intros Hx ->.
  destruct (Prim2SF x) as [sx|sx| |sx mx ex]; simpl in *; try discriminate;
    try reflexivity.
  unfold SF64div, SFdiv.
  destruct (SFdiv_core_binary prec emax (Z.pos mx) ex (Z.pos m) e)
    as [[mz ez] lz] eqn:E.
  eapply SFsigned_not_nan, binary_round_aux_signed.
  unfold SFdiv_core_binary in E.
  set (sh := (ex - e - _)%Z) in E.
  set (m' := match sh with Z.pos _ => Z.shiftl (Z.pos mx) sh | 0%Z => Z.pos mx
                         | Z.neg _ => 0%Z end) in E.
  assert (Hm' : (0 <= m')%Z).
  { subst m'. destruct sh; try lia. apply Z.shiftl_nonneg. lia. }
  pose proof (Z.div_pos m' (Z.pos m) Hm' eq_refl) as Hq.
  unfold Z.div in Hq. destruct (Z.div_eucl m' (Z.pos m)) as [q r].
  injection E as <- _ _. exact Hq.
Qed.

Lemma Math_min_not_nan (a b : number) :
  is_nan a = false -> is_nan b = false -> is_nan (JS.Math_min a b) = false.
Proof.
  intros Ha Hb. unfold JS.Math_min. rewrite Ha, Hb. simpl.
  destruct (a <? b); [exact Ha|]. destruct (b <? a); [exact Hb|].
  destruct (is_zero a && get_sign a); assumption.
Qed.

Lemma Math_max_not_nan (a b : number) :
  is_nan a = false -> is_nan b = false -> is_nan (JS.Math_max a b) = false.
Proof.
  intros Ha Hb. unfold JS.Math_max. rewrite Ha, Hb. simpl.
  destruct (a <? b); [exact Hb|]. destruct (b <? a); [exact Ha|].
  destruct (is_zero a && get_sign a); assumption.
Qed.

Lemma firstn_In {A : Type} (n : nat) (l : list A) (x : A) :
  In x (firstn n l) -> In x l.
Proof.
  intros H. rewrite <- (firstn_skipn n l). apply in_or_app. now left.
Qed.

Lemma skipn_In {A : Type} (n : nat) (l : list A) (x : A) :
  In x (skipn n l) -> In x l.
Proof.
  intros H. rewrite <- (firstn_skipn n l). apply in_or_app. now right.
Qed.

Lemma slice_In {A : Type} (l : list A) (start : number) (end_ : option number)
  (x : A) : In x (JS.slice l start end_) -> In x l.
Proof.
  unfold JS.slice. intros H. apply firstn_In, skipn_In in H. exact H.
Qed.

Lemma last_item_In {A : Type} (l : list A) (x : A) :
  JS.last_item l = Some x -> In x l.
Proof. unfold JS.last_item. apply nth_error_In. Qed.

Lemma slice_last20_length {A : Type} (l : list A) :
  (List.length (JS.slice l (-20)%float None) <= 20)%nat.
Proof.
  rewrite slice_from.
  replace (JS.ToIntegerOrInfinity (-20)) with (JS.Int (-20))
    by (vm_compute; reflexivity).
  rewrite length_skipn. simpl. lia.
Qed.

Lemma number_of_nat_small (n : nat) :
  (1 <= n <= 20)%nat ->
  exists m e, Prim2SF (JS.number_of_nat n) = S754_finite false m e.
Proof.
  intros H.
  assert (Hall :
    forallb
      (fun k => match Prim2SF (JS.number_of_nat k) with
                | S754_finite false _ _ => true
                | _ => false
                end) (seq 1 20) = true) by (vm_compute; reflexivity).
  rewrite forallb_forall in Hall.
  specialize (Hall n). rewrite in_seq in Hall.
  specialize (Hall ltac:(lia)).
  destruct (Prim2SF (JS.number_of_nat n)) as [| | |[] m e]; try discriminate.
  now exists m, e.
Qed.

Lemma mean_nonneg (l : list number) :
  Forall nonneg l -> (1 <= List.length l <= 20)%nat -> nonneg (Lodash.mean l).
Proof.
  intros Hl Hlen. unfold Lodash.mean, Lodash.sum.
  destruct l as [|x l']; [simpl in Hlen; lia|].
  destruct (number_of_nat_small _ Hlen) as (m & e & Hn).
  inversion Hl; subst.
  eapply div_nonneg; [|exact Hn]. now apply fold_add_nonneg.
Qed.

(** *** The price handed to [clampPrice] by each strategy *)

Lemma finitePrices_trade markets m t :
  Spec.finitePrices markets = true -> In m markets -> In t (Market.trades m) ->
  Spec.isFinite (Trade.price t) = true.
Proof.
  unfold Spec.finitePrices. rewrite forallb_forall. intros H Hm Ht.
  specialize (H m Hm). apply andb_prop in H as [H _].
  rewrite forallb_forall in H. now apply H.
Qed.

Lemma finitePrices_point markets m p :
  Spec.finitePrices markets = true -> In m markets ->
  In p (Market.historicalPrices m) ->
  Spec.isFinite (PricePoint.price p) = true.
Proof.
  unfold Spec.finitePrices. rewrite forallb_forall. intros H Hm Hp.
  specialize (H m Hm). apply andb_prop in H as [_ H].
  rewrite forallb_forall in H. now apply H.
Qed.

Lemma copyTrading_market_priceLimit params now mode market b :
  (forall t, In t (Market.trades market) -> is_nan (Trade.price t) = false) ->
  In b (Strategies.copyTrading_market params now mode market) ->
  Spec.inPriceRange (Bet.priceLimit b).
Proof.
  intros Hfin. unfold Strategies.copyTrading_market.
  destruct (negb _); [contradiction|].
  destruct (_ <? _); [contradiction|].
  rewrite in_map_iff. intros (t & <- & Ht).
  apply slice_In in Ht. unfold Lodash.orderBy in Ht.
  rewrite stable_sort_In in Ht.
  apply filter_In in Ht as [Ht _]. apply filter_In in Ht as [Ht _].
  cbn [Bet.priceLimit]. apply clampPrice_range.
  apply add_not_nan; [now apply Hfin|reflexivity].
Qed.

Lemma spikeDetection_market_priceLimit now mode market b :
  (forall p, In p (Market.historicalPrices market) ->
             is_nan (PricePoint.price p) = false) ->
  In b (Strategies.spikeDetection_market now mode market) ->
  Spec.inPriceRange (Bet.priceLimit b).
Proof.
  intros Hfin. unfold Strategies.spikeDetection_market.
  destruct (negb _); [contradiction|].
  destruct (_ <? 10)%nat; [contradiction|].
  destruct (_ <? 5)%nat; [contradiction|].
  destruct (JS.last_item _) as [latest|] eqn:El; [|contradiction].
  apply last_item_In in El. apply filter_In in El as [El _].
  unfold Lodash.orderBy in El. rewrite stable_sort_In in El.
  specialize (Hfin latest El).
  destruct (_ <? JS.Math_abs _); [|contradiction].
  intros [<-|[]]. cbn [Bet.priceLimit]. apply clampPrice_range.
  destruct (0 <? _).
  - apply sub_not_nan; [exact Hfin|reflexivity].
  - apply add_not_nan; [exact Hfin|reflexivity].
Qed.


Lemma two_spec : Prim2SF 2 = S754_finite false 4503599627370496 (-51).
Proof. vm_compute. reflexivity. Qed.

Lemma marketMaking_market_priceLimit now mode market b :
  (forall p, In p (Market.historicalPrices market) ->
             Spec.isFinite (PricePoint.price p) = true) ->
  In b (Strategies.marketMaking_market now mode market) ->
  Spec.inPriceRange (Bet.priceLimit b).
Proof.
  intros Hfin. unfold Strategies.marketMaking_market.
  destruct (negb _); [contradiction|].
  destruct (_ <? _); [contradiction|].
  destruct (JS.last_item _) as [latest|] eqn:El; [|contradiction].
  apply last_item_In in El.
  set (currentPrice := PricePoint.price latest).
  assert (Hcur : Spec.isFinite currentPrice = true) by now apply Hfin.
  set (recentPrices := JS.slice (Market.historicalPrices market) (-20) None).
  set (volatility := if (1 <? List.length recentPrices)%nat then _ else _).
  assert (Hvol : nonneg volatility).
  { subst volatility. destruct (1 <? List.length recentPrices)%nat eqn:E.
    - apply Nat.ltb_lt in E. apply sqrt_nonneg, mean_nonneg.
      + rewrite Forall_forall. intros x Hx.
        apply in_map_iff in Hx as (p & <- & Hp).
        apply pow2_nonneg, finite_sub_not_nan.
        * apply Hfin. now apply slice_In in Hp.
        * now apply isFinite_not_nan.
      + rewrite length_map.
        pose proof (slice_last20_length (Market.historicalPrices market)).
        fold recentPrices in H. lia.
    - red; vm_compute; reflexivity. }
  clearbody volatility.
  set (spread := JS.Math_max _ (JS.Math_min _ (volatility * 2))).
  assert (Hsp : is_nan spread = false).
  { apply Math_max_not_nan; [reflexivity|].
    apply Math_min_not_nan; [reflexivity|].
    apply nonneg_not_nan. eapply mul_nonneg; [exact Hvol|apply two_spec]. }
  clearbody spread.
  assert (Hspread : is_nan (spread / 2) = false).
  { eapply div_not_nan; [exact Hsp|apply two_spec]. }
  intros [<-|[<-|[]]]; cbn [Bet.priceLimit]; apply clampPrice_range.
  - now apply finite_sub_not_nan.
  - now apply finite_add_not_nan.
Qed.

(** ** C7: the price clamp *)

(** C7 (as the code has it).  Every bet of the whale-copy strategy has its
    price limit inside [0.01, 0.99] when no trade price of its input is NaN;
    every bet of the spike strategy when no price of a price point is NaN;
    every bet of the market maker when every price of a price point is
    finite.  This holds for every parameter set of the whale copy, every
    clock, every market list and every context. *)
Theorem C7_price_clamp
  (params : Strategies.CopyTradingParams.t) (now : Date)
  (markets : list Market.t) (context : StrategyContext.t) (b : Bet.t) :
  ((forall m t, In m markets -> In t (Market.trades m) ->
                is_nan (Trade.price t) = false) ->
   In b (Strategy.generateBets (Strategies.copyTradingStrategy_with params)
           now markets context) ->
   Spec.inPriceRange (Bet.priceLimit b))
  /\ ((forall m p, In m markets -> In p (Market.historicalPrices m) ->
                   is_nan (PricePoint.price p) = false) ->
      In b (Strategy.generateBets Strategies.spikeDetectionStrategy
              now markets context) ->
      Spec.inPriceRange (Bet.priceLimit b))
  /\ ((forall m p, In m markets -> In p (Market.historicalPrices m) ->
                   Spec.isFinite (PricePoint.price p) = true) ->
      In b (Strategy.generateBets Strategies.marketMakingStrategy
              now markets context) ->
      Spec.inPriceRange (Bet.priceLimit b)).
Proof.
  split; [|split]; intros Hfin Hb;
    cbn [Strategy.generateBets Strategies.copyTradingStrategy_with
         Strategies.spikeDetectionStrategy Strategies.marketMakingStrategy]
      in Hb;
    apply in_flat_map in Hb as (m & Hm & Hb).
  - eapply copyTrading_market_priceLimit; [|exact Hb].
    intros t Ht. now apply (Hfin m).
  - eapply spikeDetection_market_priceLimit; [|exact Hb].
    intros p Hp. now apply (Hfin m).
  - eapply marketMaking_market_priceLimit; [|exact Hb].
    intros p Hp. now apply (Hfin m).
Qed.

(** C7 does not hold as stated.  A whale trade whose price is NaN (the
    quotient of two zero amounts) is copied with a NaN price limit, and the
    market maker quotes a NaN price limit on a price history of two infinite
    prices; NaN is not inside [0.01, 0.99]. *)
Lemma C7_price_limit_outside_the_interval :
  (let bets :=
     Strategy.generateBets Strategies.copyTradingStrategy 0%Z
       [Examples.market "w" (Some "Yes"%string) (Some 4600000%Z) []
          [Examples.trade 1000000%Z buy 5000 nan] 100000]
       {| StrategyContext.mode := Some backtest_mode;
          StrategyContext.asOf := None;
          StrategyContext.trainingMarkets := None;
          StrategyContext.evaluationMarkets := None |} in
   map Bet.priceLimit bets = [nan]
   /\ exists b, In b bets /\ ~ Spec.inPriceRange (Bet.priceLimit b))
  /\ (let bets :=
        Strategy.generateBets Strategies.marketMakingStrategy 0%Z
          [Examples.market "i" (Some "Yes"%string) None
             [Examples.pricePoint 10%Z infinity;
              Examples.pricePoint 20%Z infinity] [] 100000]
          {| StrategyContext.mode := Some backtest_mode;
             StrategyContext.asOf := None;
             StrategyContext.trainingMarkets := None;
             StrategyContext.evaluationMarkets := None |} in
      map Bet.priceLimit bets = [nan; nan]
      /\ exists b, In b bets /\ ~ Spec.inPriceRange (Bet.priceLimit b)).
Proof.
  split; intros bets.
  - split; [vm_compute; reflexivity|].
    eexists. split; [left; reflexivity|].
    intros [H _]. vm_compute in H. discriminate.
  - split; [vm_compute; reflexivity|].
    eexists. split; [left; reflexivity|].
    intros [H _]. vm_compute in H. discriminate.
Qed.

(** ** Further properties: the price clamp *)

Lemma leb_not_ltb (x y : number) : (x <=? y) = true -> (y <? x) = false.
Proof.
  rewrite ltb_spec, leb_spec. unfold SFltb, SFleb.
  rewrite (SFcompare_antisym (Prim2SF x) (Prim2SF y)).
  destruct (SFcompare (Prim2SF x) (Prim2SF y)) as [[]|]; simpl; congruence.
Qed.

Lemma SFcompare_Eq_finite (x : spec_float) (s : bool) (m : positive) (e : Z) :
  SFcompare x (S754_finite s m e) = Some Eq -> x = S754_finite s m e.
Proof.
  destruct x as [s'|s'| |s' m' e']; simpl; try discriminate.
  - destruct s; discriminate.
  - destruct s'; discriminate.
  - destruct s', s; try discriminate;
      destruct (Z.compare_spec e' e); try discriminate; subst;
      intros H; injection H as H;
      [apply (f_equal CompOpp) in H; rewrite CompOpp_involutive in H; simpl in H|];
      apply Pos.compare_eq in H; now subst.
Qed.

Lemma not_lt_eq_finite (x c : number) (s : bool) (m : positive) (e : Z) :
  Prim2SF c = S754_finite s m e -> is_nan x = false ->
  (x <? c) = false -> (c <? x) = false -> x = c.
Proof.
  intros Hc. rewrite is_nan_spec, !ltb_spec. unfold SFltb.
  rewrite (SFcompare_antisym (Prim2SF x) (Prim2SF c)), Hc.
  intros Hn H1 H2. apply Prim2SF_inj. rewrite Hc.
  apply SFcompare_Eq_finite.
  destruct (SFcompare (Prim2SF x) (S754_finite s m e)) as [[]|] eqn:E;
    simpl in *; try discriminate; try reflexivity.
  destruct (Prim2SF x); simpl in *; try discriminate.
Qed.

Lemma clampPrice_fixed (x : number) :
  Spec.inPriceRange x -> Strategies.clampPrice x = x.
Proof.
  intros [Hlo Hhi].
  assert (Hx : is_nan x = false).
  { rewrite is_nan_spec. rewrite leb_spec in Hhi. unfold SFleb in Hhi.
    destruct (Prim2SF x); try reflexivity. discriminate. }
  pose proof (leb_not_ltb _ _ Hhi) as H1.
  pose proof (leb_not_ltb _ _ Hlo) as H2.
  unfold Strategies.clampPrice, JS.Math_min.
  rewrite Hx, H1. change (is_nan 0.99) with false.
  change (is_zero 0.99 && get_sign 0.99) with false. cbn [orb].
  assert (Hmin : (if x <? 0.99 then x else if false then 0.99 else x) = x)
    by (destruct (x <? 0.99); reflexivity).
  rewrite Hmin. unfold JS.Math_max. rewrite Hx, H2.
  change (is_nan 0.01) with false.
  change (is_zero 0.01 && get_sign 0.01) with false. cbn [orb].
  destruct (0.01 <? x) eqn:E; [reflexivity|].
  symmetry. eapply not_lt_eq_finite; try eassumption.
  vm_compute. reflexivity.
Qed.

(** X1.  [clampPrice] returns a price of [0.01, 0.99] for every number that
    is not NaN, returns a price already in that interval unchanged, and
    returns NaN for NaN; clamping twice is clamping once. *)
Theorem clampPrice_behaviour (x : number) :
  (is_nan x = false -> Spec.inPriceRange (Strategies.clampPrice x))
  /\ (Spec.inPriceRange x -> Strategies.clampPrice x = x)
  /\ (is_nan x = true -> Strategies.clampPrice x = nan)
  /\ Strategies.clampPrice (Strategies.clampPrice x) = Strategies.clampPrice x.
Proof.
  split; [apply clampPrice_range|]. split; [apply clampPrice_fixed|].
  split; [apply clampPrice_nan|].
  destruct (is_nan x) eqn:E.
  - rewrite (clampPrice_nan x E). vm_compute. reflexivity.
  - apply clampPrice_fixed, clampPrice_range, E.
Qed.

(** X2.  On market data whose prices are all finite numbers, every bet a
    reference strategy proposes has its price limit inside [0.01, 0.99]. *)
Theorem reference_bets_price_in_range
  (params : Strategies.CopyTradingParams.t) (strategy : Strategy.t)
  (now : Date) (markets : list Market.t) (context : StrategyContext.t)
  (b : Bet.t) :
  In strategy
    [Strategies.copyTradingStrategy_with params;
     Strategies.spikeDetectionStrategy; Strategies.marketMakingStrategy] ->
  Spec.finitePrices markets = true ->
  In b (Strategy.generateBets strategy now markets context) ->
  Spec.inPriceRange (Bet.priceLimit b).
Proof.
  intros Hs Hfin Hb.
  destruct Hs as [<-|[<-|[<-|[]]]]; cbn [Strategy.generateBets
    Strategies.copyTradingStrategy_with Strategies.spikeDetectionStrategy
    Strategies.marketMakingStrategy] in Hb;
    apply in_flat_map in Hb as (m & Hm & Hb).
  - eapply copyTrading_market_priceLimit; [|exact Hb].
    intros t Ht. apply isFinite_not_nan. eapply finitePrices_trade; eassumption.
  - eapply spikeDetection_market_priceLimit; [|exact Hb].
    intros p Hp. apply isFinite_not_nan. eapply finitePrices_point; eassumption.
  - eapply marketMaking_market_priceLimit; [|exact Hb].
    intros p Hp. eapply finitePrices_point; eassumption.
Qed.

(** The minimal whale-copy scenario: one bet, at price limit 0.62. *)
Lemma reference_bets_price_in_range_witness :
  let bets :=
    Strategy.generateBets Strategies.copyTradingStrategy 0%Z
      [Examples.whaleMarket] Samples.backtestContext in
  map Bet.priceLimit bets = [0.62]
  /\ Forall (fun b => Spec.inPriceRange (Bet.priceLimit b)) bets.
Proof.
  intros bets. split; [vm_compute; reflexivity|].
  apply Forall_forall. intros b Hb.
  apply (reference_bets_price_in_range Strategies.COPY_TRADING_DEFAULTS
           Strategies.copyTradingStrategy 0%Z [Examples.whaleMarket]
           Samples.backtestContext b).
  - left. reflexivity.
  - vm_compute. reflexivity.
  - exact Hb.
Defined.

(** ** Further properties: which markets the strategies bet on *)

Lemma copyTrading_market_eligible params now mode market b :
  In b (Strategies.copyTrading_market params now mode market) ->
  Strategies.isMarketEligible market mode = true
  /\ Bet.marketId b = Market.marketId market.
Proof.
  unfold Strategies.copyTrading_market.
  destruct (Strategies.isMarketEligible market mode); [|contradiction].
  cbn [negb]. destruct (_ <? _); [contradiction|].
  rewrite in_map_iff. intros (t & <- & _). split; reflexivity.
Qed.

Lemma spikeDetection_market_eligible now mode market b :
  In b (Strategies.spikeDetection_market now mode market) ->
  Strategies.isMarketEligible market mode = true
  /\ Bet.marketId b = Market.marketId market.
Proof.
  unfold Strategies.spikeDetection_market.
  destruct (Strategies.isMarketEligible market mode); [|contradiction].
  cbn [negb]. destruct (_ <? 10)%nat; [contradiction|].
  destruct (_ <? 5)%nat; [contradiction|].
  destruct (JS.last_item _); [|contradiction].
  destruct (_ <? JS.Math_abs _); [|contradiction].
  intros [<-|[]]. split; reflexivity.
Qed.

Lemma marketMaking_market_eligible now mode market b :
  In b (Strategies.marketMaking_market now mode market) ->
  Strategies.isMarketEligible market mode = true
  /\ Bet.marketId b = Market.marketId market.
Proof.
  unfold Strategies.marketMaking_market.
  destruct (Strategies.isMarketEligible market mode); [|contradiction].
  cbn [negb]. destruct (_ <? _); [contradiction|].
  destruct (JS.last_item _); [|contradiction].
  intros [<-|[<-|[]]]; split; reflexivity.
Qed.

(** X3.  In live mode (also when the context names no mode) a reference
    strategy proposes bets only on markets of its input that are active and
    not resolved. *)
Theorem live_bets_only_on_open_markets
  (params : Strategies.CopyTradingParams.t) (strategy : Strategy.t)
  (now : Date) (markets : list Market.t) (context : StrategyContext.t)
  (b : Bet.t) :
  In strategy
    [Strategies.copyTradingStrategy_with params;
     Strategies.spikeDetectionStrategy; Strategies.marketMakingStrategy;
     Strategies.aiGeneratedStrategy] ->
  Strategies.resolveMode context = live ->
  In b (Strategy.generateBets strategy now markets context) ->
  exists market,
    In market markets
    /\ Market.marketId market = Bet.marketId b
    /\ Market.active market = true
    /\ truthy (Market.resolvedOutcome market) = None.
Proof.
  intros Hs Hmode Hb.
  assert (Hopen : forall market,
             Strategies.isMarketEligible market live = true ->
             Market.active market = true
             /\ truthy (Market.resolvedOutcome market) = None).
  { intros market. unfold Strategies.isMarketEligible.
    destruct (truthy (Market.resolvedOutcome market)); [discriminate|].
    intros ->. split; reflexivity. }
  destruct Hs as [<-|[<-|[<-|[<-|[]]]]];
    cbn [Strategy.generateBets Strategies.copyTradingStrategy_with
         Strategies.spikeDetectionStrategy Strategies.marketMakingStrategy
         Strategies.aiGeneratedStrategy] in Hb;
    try contradiction;
    unfold Strategies.copyTrading_generateBets,
      Strategies.spikeDetection_generateBets,
      Strategies.marketMaking_generateBets in Hb;
    rewrite Hmode in Hb;
    apply in_flat_map in Hb as (market & Hm & Hb);
    exists market; (split; [exact Hm|]).
  - apply copyTrading_market_eligible in Hb as [He Hid].
    destruct (Hopen market He). auto.
  - apply spikeDetection_market_eligible in Hb as [He Hid].
    destruct (Hopen market He). auto.
  - apply marketMaking_market_eligible in Hb as [He Hid].
    destruct (Hopen market He). auto.
Qed.

(** A live run of the market maker on one open market and one resolved
    market: both bets are on the open one. *)
Lemma live_bets_only_on_open_markets_witness :
  let bets :=
    Strategy.generateBets Strategies.marketMakingStrategy 2000000%Z
      [Examples.onePriceMarket 0.5 "Yes"; Samples.openMarket]
      Samples.liveContext in
  map Bet.marketId bets = ["open"%string; "open"%string]
  /\ Forall
       (fun b =>
          exists market,
            In market [Examples.onePriceMarket 0.5 "Yes"; Samples.openMarket]
            /\ Market.marketId market = Bet.marketId b
            /\ Market.active market = true
            /\ truthy (Market.resolvedOutcome market) = None)
       bets.
Proof.
  intros bets. split; [vm_compute; reflexivity|].
  apply Forall_forall. intros b Hb.
  apply (live_bets_only_on_open_markets Strategies.COPY_TRADING_DEFAULTS
           Strategies.marketMakingStrategy 2000000%Z
           [Examples.onePriceMarket 0.5 "Yes"; Samples.openMarket]
           Samples.liveContext b).
  - right. right. left. reflexivity.
  - reflexivity.
  - exact Hb.
Defined.

(** ** Further properties: whale copy trading *)

Lemma slice_to_length {A : Type} (l : list A) (n : number) (z : Z) :
  JS.ToIntegerOrInfinity n = JS.Int z -> (0 <= z)%Z ->
  (List.length (JS.slice l 0%float (Some n)) <= Z.to_nat z)%nat.
Proof.
  intros Hn Hz. rewrite slice_to, Hn, length_firstn. simpl.
  destruct (z <? 0)%Z eqn:E; [lia|]. lia.
Qed.

(** X4.  Every bet of the whale-copy strategy copies the outcome and the side
    of a trade of an eligible market whose liquidity is not below the
    minimum: a trade whose amount is not below [minWhaleVolume], made no
    later than the decision time and at most [copyDelay] seconds before it.
    The bet has amount [betSize], the clamped trade price plus 0.02 as its
    limit, and the decision time as its timestamp. *)
Theorem whale_bets_copy_recent_whale_trades
  (params : Strategies.CopyTradingParams.t) (now : Date)
  (markets : list Market.t) (context : StrategyContext.t) (b : Bet.t) :
  In b (Strategies.copyTrading_generateBets params now markets context) ->
  exists market trade,
    let mode := Strategies.resolveMode context in
    let decisionTime := Strategies.determineDecisionTime now market mode in
    let timeDiff :=
      (JS.getTime decisionTime - JS.getTime (Trade.timestamp trade)) / 1000 in
    In market markets /\ In trade (Market.trades market)
    /\ Strategies.isMarketEligible market mode = true
    /\ (Market.liquidity market
        <? Strategies.CopyTradingParams.minMarketLiquidity params) = false
    /\ (Trade.amount trade
        <? Strategies.CopyTradingParams.minWhaleVolume params) = false
    /\ (JS.getTime (Trade.timestamp trade) <=? JS.getTime decisionTime) = true
    /\ (0 <=? timeDiff) = true
    /\ (timeDiff <=? Strategies.CopyTradingParams.copyDelay params) = true
    /\ Bet.marketId b = Market.marketId market
    /\ Bet.outcome b = Trade.outcome trade
    /\ Bet.side b = Trade.side trade
    /\ Bet.amount b = Strategies.CopyTradingParams.betSize params
    /\ Bet.priceLimit b = Strategies.clampPrice (Trade.price trade + 0.02)
    /\ Bet.timestamp b = decisionTime.
Proof.
  unfold Strategies.copyTrading_generateBets. intros Hb.
  apply in_flat_map in Hb as (market & Hm & Hb).
  unfold Strategies.copyTrading_market in Hb.
  destruct (Strategies.isMarketEligible market _) eqn:He; [|contradiction].
  cbn [negb] in Hb.
  destruct (Market.liquidity market <? _) eqn:Hl; [contradiction|].
  apply in_map_iff in Hb as (t & <- & Ht).
  apply slice_In in Ht. unfold Lodash.orderBy in Ht.
  rewrite stable_sort_In in Ht.
  apply filter_In in Ht as [Ht Hrecent]. apply filter_In in Ht as [Ht Hwhale].
  apply andb_prop in Hrecent as [H0 Hd].
  destruct (Trade.amount t <? _) eqn:Ha; [discriminate|].
  exists market, t. cbv zeta. repeat split; assumption.
Qed.

(** The minimal whale-copy scenario; the copied trade is a buy of "Yes". *)
Lemma whale_bets_copy_recent_whale_trades_witness :
  let bets :=
    Strategies.copyTrading_generateBets Strategies.COPY_TRADING_DEFAULTS 0%Z
      [Examples.whaleMarket] Samples.backtestContext in
  map (fun b => (Bet.outcome b, Bet.side b, Bet.amount b)) bets
  = [("Yes"%string, buy, 100)]
  /\ Forall
       (fun b =>
          exists market trade,
            In market [Examples.whaleMarket]
            /\ In trade (Market.trades market)
            /\ Bet.outcome b = Trade.outcome trade
            /\ Bet.side b = Trade.side trade)
       bets.
Proof.
  intros bets. split; [vm_compute; reflexivity|].
  apply Forall_forall. intros b Hb.
  destruct (whale_bets_copy_recent_whale_trades
              Strategies.COPY_TRADING_DEFAULTS 0%Z [Examples.whaleMarket]
              Samples.backtestContext b Hb)
    as (market & trade & H).
  cbv zeta in H.
  exists market, trade. intuition.
Defined.

Lemma filter_none {A : Type} (f : A -> bool) (l : list A) :
  (forall x, In x l -> f x = false) -> filter f l = [].
Proof.
  induction l as [|y l IH]; intros H; [reflexivity|].
  simpl. rewrite (H y (or_introl eq_refl)). apply IH.
  intros x Hx. apply H. now right.
Qed.

Lemma flat_map_length_le {A B : Type} (f : A -> list B) (l : list A) (k : nat) :
  (forall a, In a l -> List.length (f a) <= k)%nat ->
  (List.length (flat_map f l) <= k * List.length l)%nat.
Proof.
  induction l as [|a l IH]; intros H; simpl; [lia|].
  rewrite length_app.
  pose proof (H a (or_introl eq_refl)).
  pose proof (IH (fun x Hx => H x (or_intror Hx))). lia.
Qed.

Lemma flat_map_count_le {A : Type} (f : A -> list Bet.t) (idOf : A -> string)
  (l : list A) (k : nat) (id : string) :
  (forall a, In a l ->
             (List.length (f a) <= k)%nat
             /\ forall b, In b (f a) -> Bet.marketId b = idOf a) ->
  (List.length (filter (fun b => String.eqb (Bet.marketId b) id) (flat_map f l))
   <= k * List.length (filter (fun a => String.eqb (idOf a) id) l))%nat.
Proof.
  induction l as [|a l IH]; intros H; [simpl; lia|].
  cbn [flat_map filter]. rewrite filter_app, length_app.
  destruct (H a (or_introl eq_refl)) as [Hlen Hid].
  pose proof (IH (fun x Hx => H x (or_intror Hx))) as IH'.
  pose proof (filter_length_le
                (fun b => String.eqb (Bet.marketId b) id) (f a)) as Hf.
  destruct (String.eqb (idOf a) id) eqn:E; cbn [List.length]; [lia|].
  rewrite (filter_none _ (f a)); [simpl; lia|].
  intros b Hb. rewrite (Hid b Hb). exact E.
Qed.

Lemma NoDup_count_le_1 {A : Type} (idOf : A -> string) (l : list A)
  (id : string) :
  NoDup (map idOf l) ->
  (List.length (filter (fun a => String.eqb (idOf a) id) l) <= 1)%nat.
Proof.
  induction l as [|a l IH]; intros Hnd; [simpl; lia|].
  cbn [map] in Hnd. inversion Hnd as [|? ? Hnotin Hnd']; subst.
  cbn [filter]. destruct (String.eqb (idOf a) id) eqn:E; [|now apply IH].
  apply String.eqb_eq in E. cbn [List.length].
  rewrite filter_none; [simpl; lia|].
  intros x Hx. apply String.eqb_neq. intros Heq. apply Hnotin.
  rewrite E, <- Heq. now apply in_map.
Qed.

(** X5.  The whale-copy strategy proposes at most [maxBetsPerMarket] bets per
    input market (for a non-negative integer limit): the bets are the
    per-market lists in the order of the markets, each list has at most that
    many bets, all on its market; so the bets carrying a market id number at
    most the limit times the input markets with that id, and at most the
    limit when the ids of the input markets are distinct.  With the default
    parameters the limit is three. *)
Theorem whale_bets_per_market_bounded
  (now : Date) (markets : list Market.t) (context : StrategyContext.t) :
  let count id (bets : list Bet.t) :=
    List.length (filter (fun b => String.eqb (Bet.marketId b) id) bets) in
  let sameId id :=
    filter (fun m => String.eqb (Market.marketId m) id) markets in
  (forall params z,
      JS.ToIntegerOrInfinity
        (Strategies.CopyTradingParams.maxBetsPerMarket params) = JS.Int z ->
      (0 <= z)%Z ->
      let bets :=
        Strategies.copyTrading_generateBets params now markets context in
      let perMarket :=
        Strategies.copyTrading_market params now
          (Strategies.resolveMode context) in
      bets = List.concat (map perMarket markets)
      /\ (forall market,
            (List.length (perMarket market) <= Z.to_nat z)%nat
            /\ forall b, In b (perMarket market) ->
                         Bet.marketId b = Market.marketId market)
      /\ (forall id,
            (count id bets <= Z.to_nat z * List.length (sameId id))%nat)
      /\ (NoDup (map Market.marketId markets) ->
          forall id, (count id bets <= Z.to_nat z)%nat))
  /\ (forall id,
        (count id
           (Strategy.generateBets Strategies.copyTradingStrategy now markets
              context)
         <= 3 * List.length (sameId id))%nat).
Proof.
  intros count sameId.
  assert (Hper : forall params z mode market,
      JS.ToIntegerOrInfinity
        (Strategies.CopyTradingParams.maxBetsPerMarket params) = JS.Int z ->
      (0 <= z)%Z ->
      (List.length (Strategies.copyTrading_market params now mode market)
       <= Z.to_nat z)%nat
      /\ forall b, In b (Strategies.copyTrading_market params now mode market) ->
                   Bet.marketId b = Market.marketId market).
  { intros params z mode market Hz Hnn. split.
    - unfold Strategies.copyTrading_market.
      destruct (negb _); [simpl; lia|]. destruct (_ <? _); [simpl; lia|].
      rewrite length_map. now apply slice_to_length.
    - intros b Hb. now apply copyTrading_market_eligible in Hb. }
  assert (Hcount : forall params z id,
      JS.ToIntegerOrInfinity
        (Strategies.CopyTradingParams.maxBetsPerMarket params) = JS.Int z ->
      (0 <= z)%Z ->
      (count id (Strategies.copyTrading_generateBets params now markets context)
       <= Z.to_nat z * List.length (sameId id))%nat).
  { intros params z id Hz Hnn. unfold count, sameId.
    unfold Strategies.copyTrading_generateBets.
    apply flat_map_count_le. intros market _. now apply Hper. }
  split.
  - intros params z Hz Hnn bets perMarket.
    split; [apply flat_map_concat_map|].
    split; [intros market; now apply Hper|].
    split; [intros id; now apply Hcount|].
    intros Hnd id. pose proof (Hcount params z id Hz Hnn) as H.
    pose proof (NoDup_count_le_1 Market.marketId markets id Hnd) as H1.
    fold (sameId id) in H1. fold bets in H. nia.
  - intros id.
    apply (Hcount Strategies.COPY_TRADING_DEFAULTS 3%Z id);
      [vm_compute; reflexivity|lia].
Qed.

(** ** Further properties: market making *)

(** The markets the market maker quotes: eligible, liquid enough, with a
    price history. *)
Lemma marketMaking_market_shape now mode market :
  let bets := Strategies.marketMaking_market now mode market in
  let quoted :=
    Strategies.isMarketEligible market mode
    && negb (Market.liquidity market <? 30000)
    && negb (List.length (Market.historicalPrices market) =? 0)%nat in
  (quoted = false -> bets = [])
  /\ (quoted = true ->
      exists bid ask,
        bets = [bid; ask]
        /\ Bet.side bid = buy /\ Bet.side ask = sell
        /\ Bet.marketId bid = Market.marketId market
        /\ Bet.marketId ask = Market.marketId market
        /\ Bet.outcome bid = Strategies.primaryOutcome market
        /\ Bet.outcome ask = Strategies.primaryOutcome market
        /\ Bet.amount bid = 100 /\ Bet.amount ask = 100
        /\ Bet.timestamp bid = Bet.timestamp ask).
Proof.
  cbv zeta. unfold Strategies.marketMaking_market.
  change (Strategies.MarketMakingParams.minLiquidity
            Strategies.MARKET_MAKING_DEFAULTS) with 30000.
  destruct (Strategies.isMarketEligible market mode); cbn [negb andb];
    [|split; [reflexivity|discriminate]].
  destruct (Market.liquidity market <? 30000); cbn [negb andb];
    [split; [reflexivity|discriminate]|].
  rewrite last_item_lastElement.
  destruct (Market.historicalPrices market) as [|p l] eqn:E.
  - split; [reflexivity|discriminate].
  - destruct (Spec.lastElement (p :: l)) as [latest|] eqn:El.
    + split; [discriminate|]. intros _.
      eexists. eexists. split; [reflexivity|].
      cbn [Bet.side Bet.marketId Bet.outcome Bet.amount Bet.timestamp].
      repeat split.
    + apply lastElement_nil in El. discriminate.
Qed.

(** X6.  The market maker proposes nothing for a market that is not eligible,
    whose liquidity is below 30000 or that has no price history, and for every
    other market exactly two bets of 100 on the market's first outcome, a buy
    followed by a sell; so it proposes twice as many bets as there are such
    markets. *)
Theorem marketMaking_two_bets_per_quoted_market
  (now : Date) (markets : list Market.t) (context : StrategyContext.t) :
  let mode := Strategies.resolveMode context in
  let quoted m :=
    Strategies.isMarketEligible m mode
    && negb (Market.liquidity m <? 30000)
    && negb (List.length (Market.historicalPrices m) =? 0)%nat in
  let bets :=
    Strategy.generateBets Strategies.marketMakingStrategy now markets context in
  List.length bets = (2 * List.length (filter quoted markets))%nat
  /\ map Bet.marketId bets
     = flat_map (fun m => [Market.marketId m; Market.marketId m])
         (filter quoted markets)
  /\ map Bet.side bets
     = flat_map (fun _ => [buy; sell]) (filter quoted markets)
  /\ forall b, In b bets ->
               Bet.amount b = 100
               /\ exists m, In m markets /\ quoted m = true
                            /\ Bet.marketId b = Market.marketId m
                            /\ Bet.outcome b = Strategies.primaryOutcome m.
Proof.
  cbv zeta. cbn [Strategy.generateBets Strategies.marketMakingStrategy].
  unfold Strategies.marketMaking_generateBets.
  set (mode := Strategies.resolveMode context).
  set (quoted := fun m : Market.t => _ && _ && _).
  assert (Hshape := fun m => marketMaking_market_shape now mode m).
  cbv zeta in Hshape.
  split; [|split; [|split]].
  - induction markets as [|m ms IH]; [reflexivity|].
    cbn [flat_map filter]. rewrite length_app, IH.
    destruct (Hshape m) as [Hno Hyes]. fold (quoted m) in Hno, Hyes.
    destruct (quoted m).
    + destruct (Hyes eq_refl) as (bid & ask & -> & _). simpl. lia.
    + rewrite (Hno eq_refl). reflexivity.
  - induction markets as [|m ms IH]; [reflexivity|].
    cbn [flat_map filter]. rewrite map_app, IH.
    destruct (Hshape m) as [Hno Hyes]. fold (quoted m) in Hno, Hyes.
    destruct (quoted m).
    + destruct (Hyes eq_refl) as (bid & ask & -> & _ & _ & Hi1 & Hi2 & _).
      cbn [map app]. now rewrite Hi1, Hi2.
    + rewrite (Hno eq_refl). reflexivity.
  - induction markets as [|m ms IH]; [reflexivity|].
    cbn [flat_map filter]. rewrite map_app, IH.
    destruct (Hshape m) as [Hno Hyes]. fold (quoted m) in Hno, Hyes.
    destruct (quoted m).
    + destruct (Hyes eq_refl) as (bid & ask & -> & Hs1 & Hs2 & _).
      cbn [map app]. now rewrite Hs1, Hs2.
    + rewrite (Hno eq_refl). reflexivity.
  - intros b Hb. apply in_flat_map in Hb as (m & Hm & Hb).
    destruct (Hshape m) as [Hno Hyes]. fold (quoted m) in Hno, Hyes.
    destruct (quoted m) eqn:Hq.
    + destruct (Hyes eq_refl)
        as (bid & ask & Hbets & _ & _ & Hi1 & Hi2 & Ho1 & Ho2 & Ha1 & Ha2 & _).
      rewrite Hbets in Hb.
      destruct Hb as [<-|[<-|[]]]; (split; [assumption|]);
        exists m; repeat split; assumption.
    + rewrite (Hno eq_refl) in Hb. contradiction.
Qed.

Lemma flat_map_flat_map {A B C : Type} (f : B -> list C) (g : A -> list B)
  (l : list A) :
  flat_map f (flat_map g l) = flat_map (fun x => flat_map f (g x)) l.
Proof.
  induction l as [|a l IH]; simpl; [reflexivity|].
  now rewrite flat_map_app, IH.
Qed.

Lemma scored_pair_balanced (tm : list Market.t) (bid ask : Bet.t) :
  Bet.marketId bid = Bet.marketId ask ->
  Bet.outcome bid = Bet.outcome ask ->
  Bet.side bid = buy -> Bet.side ask = sell ->
  let scored :=
    flat_map (fun bet => match Support.scoreBet tm bet with
                         | Some b => [b] | None => [] end) [bid; ask] in
  List.length (filter BacktestEngine.isWin scored)
  = List.length (filter BacktestEngine.isLoss scored).
Proof.
  intros Hid Hout Hbid Hask. cbv zeta. cbn [flat_map].
  unfold Support.scoreBet. rewrite <- Hid.
  destruct (BacktestEngine.findMarket tm (Bet.marketId bid)); [|reflexivity].
  destruct (truthy (Market.resolvedOutcome t)) as [ro|]; [|reflexivity].
  unfold BacktestEngine.isBetWinner. rewrite Hbid, Hask, <- Hout.
  destruct (String.eqb _ _); reflexivity.
Qed.

(** X7.  In a backtest on markets that each have at least one outcome label
    (with none, the bets carry [undefined] as outcome and scoring them fails)
    the market maker wins exactly as many bets as it loses: the buy and the
    sell it places on a market are scored together or not at all, and exactly
    one of the two wins.  So [totalBets] is twice [wins]. *)
Theorem marketMaking_backtest_wins_equal_losses
  (now : Date) (markets : list Market.t) (trainingRatio : option number) :
  (forall m, In m markets -> Market.outcomes m <> []) ->
  let r :=
    BacktestEngine.backtest now Strategies.marketMakingStrategy markets
      trainingRatio in
  BacktestResult.wins r = BacktestResult.losses r
  /\ BacktestResult.totalBets r = (2 * BacktestResult.wins r)%nat.
Proof.
  intros _ r.
  assert (Heq : BacktestResult.wins r = BacktestResult.losses r).
  { subst r. unfold BacktestEngine.backtest, BacktestEngine.metrics.
    cbn [BacktestResult.wins BacktestResult.losses].
    rewrite simulate_bets.
    unfold BacktestEngine.proposedBets.
    cbn [Strategy.generateBets Strategies.marketMakingStrategy].
    unfold Strategies.marketMaking_generateBets.
    rewrite flat_map_flat_map.
    set (tm := BacktestEngine.testMarkets markets _).
    set (mode := Strategies.resolveMode _).
    induction (BacktestEngine.preparedTestMarkets markets _) as [|s l IH];
      [reflexivity|].
    cbn [flat_map]. rewrite !filter_app, !length_app, IH. f_equal.
    destruct (marketMaking_market_shape now mode s) as [Hno Hyes].
    destruct (_ && _ && _).
    - destruct (Hyes eq_refl)
        as (bid & ask & -> & Hs1 & Hs2 & Hi1 & Hi2 & Ho1 & Ho2 & _).
      apply scored_pair_balanced; congruence.
    - rewrite (Hno eq_refl). reflexivity. }
  split; [exact Heq|].
  assert (H : (BacktestResult.wins r + BacktestResult.losses r
               = BacktestResult.totalBets r)%nat).
  { subst r. unfold BacktestEngine.backtest, BacktestEngine.metrics.
    cbn [BacktestResult.wins BacktestResult.losses BacktestResult.totalBets].
    apply wins_plus_losses. intros b. apply simulate_win_or_loss. }
  lia.
Qed.

(** One resolved Yes/No market quoted at 0.3: the buy loses and the sell
    wins. *)
Lemma marketMaking_backtest_wins_equal_losses_witness :
  let r :=
    BacktestEngine.backtest 0%Z Strategies.marketMakingStrategy
      [Examples.onePriceMarket 0.3 "No"] None in
  BacktestResult.wins r = 1%nat
  /\ BacktestResult.losses r = 1%nat
  /\ BacktestResult.totalBets r = 2%nat.
Proof.
  intros r.
  destruct (marketMaking_backtest_wins_equal_losses 0%Z
              [Examples.onePriceMarket 0.3 "No"] None) as [H1 H2].
  - intros m [<-|[]]. discriminate.
  - fold r in H1, H2.
    assert (Hw : BacktestResult.wins r = 1%nat) by (vm_compute; reflexivity).
    rewrite <- H1, H2, Hw. repeat split.
Defined.

(** ** Further properties: spike detection *)

(** X8.  The spike strategy proposes at most one bet per input market, and
    none for a market with fewer than ten price points: the bets are the
    per-market lists in the order of the markets, each list has at most one
    bet, on its market; so the bets carrying a market id are at most as many
    as the input markets with that id, and at most one when the ids of the
    input markets are distinct.  A bet is on the market's first outcome with
    amount 100 and is dated with the decision time; it sells at the clamped
    current price minus 0.03 or buys at the clamped current price plus 0.03,
    where the current price is that of a price point of the market not later
    than the decision time. *)
Theorem spike_bets_shape
  (now : Date) (markets : list Market.t) (context : StrategyContext.t) :
  let mode := Strategies.resolveMode context in
  let bets :=
    Strategy.generateBets Strategies.spikeDetectionStrategy now markets context in
  let perMarket := Strategies.spikeDetection_market now mode in
  let count id :=
    List.length (filter (fun b => String.eqb (Bet.marketId b) id) bets) in
  let sameId id :=
    filter (fun m => String.eqb (Market.marketId m) id) markets in
  bets = List.concat (map perMarket markets)
  /\ (forall market,
        (List.length (perMarket market) <= 1)%nat
        /\ ((List.length (Market.historicalPrices market) < 10)%nat ->
            perMarket market = [])
        /\ forall b, In b (perMarket market) ->
                     Bet.marketId b = Market.marketId market)
  /\ (forall id, (count id <= List.length (sameId id))%nat)
  /\ (NoDup (map Market.marketId markets) -> forall id, (count id <= 1)%nat)
  /\ (List.length bets <= List.length markets)%nat
  /\ forall b, In b bets ->
       exists market point,
         let decisionTime := Strategies.determineDecisionTime now market mode in
         In market markets
         /\ Strategies.isMarketEligible market mode = true
         /\ (10 <= List.length (Market.historicalPrices market))%nat
         /\ In point (Market.historicalPrices market)
         /\ (JS.getTime (PricePoint.timestamp point) <=? JS.getTime decisionTime)
            = true
         /\ Bet.marketId b = Market.marketId market
         /\ Bet.outcome b = Strategies.primaryOutcome market
         /\ Bet.amount b = 100
         /\ Bet.timestamp b = decisionTime
         /\ ((Bet.side b = sell
              /\ Bet.priceLimit b
                 = Strategies.clampPrice (PricePoint.price point - 0.03))
             \/ (Bet.side b = buy
                 /\ Bet.priceLimit b
                    = Strategies.clampPrice (PricePoint.price point + 0.03))).
Proof.
  cbv zeta. cbn [Strategy.generateBets Strategies.spikeDetectionStrategy].
  unfold Strategies.spikeDetection_generateBets.
  set (mode := Strategies.resolveMode context).
  assert (Hper : forall m,
             (List.length (Strategies.spikeDetection_market now mode m) <= 1)%nat
             /\ ((List.length (Market.historicalPrices m) < 10)%nat ->
                 Strategies.spikeDetection_market now mode m = [])
             /\ forall b, In b (Strategies.spikeDetection_market now mode m) ->
                          Bet.marketId b = Market.marketId m).
  { intros m. split; [|split].
    - unfold Strategies.spikeDetection_market.
      destruct (negb _); [simpl; lia|].
      destruct (_ <? 10)%nat; [simpl; lia|].
      destruct (_ <? 5)%nat; [simpl; lia|].
      destruct (JS.last_item _); [|simpl; lia].
      destruct (_ <? JS.Math_abs _); simpl; lia.
    - intros Hlt. apply Nat.ltb_lt in Hlt.
      unfold Strategies.spikeDetection_market.
      destruct (negb _); [reflexivity|]. now rewrite Hlt.
    - intros b Hb. now apply spikeDetection_market_eligible in Hb. }
  assert (Hcount : forall id,
    (List.length
       (filter (fun b => String.eqb (Bet.marketId b) id)
          (flat_map (Strategies.spikeDetection_market now mode) markets))
     <= List.length
          (filter (fun m => String.eqb (Market.marketId m) id) markets))%nat).
  { intros id.
    rewrite <- (Nat.mul_1_l (List.length (filter _ markets))).
    apply flat_map_count_le. intros m _.
    destruct (Hper m) as (H1 & _ & H3). split; assumption. }
  split; [apply flat_map_concat_map|].
  split; [exact Hper|].
  split; [exact Hcount|].
  split.
  { intros Hnd id. pose proof (Hcount id) as H.
    pose proof (NoDup_count_le_1 Market.marketId markets id Hnd). lia. }
  split.
  - rewrite <- (Nat.mul_1_l (List.length markets)).
    apply flat_map_length_le. intros m _. apply Hper.
  - intros b Hb. apply in_flat_map in Hb as (m & Hm & Hb).
    unfold Strategies.spikeDetection_market in Hb.
    destruct (Strategies.isMarketEligible m mode) eqn:He; [|contradiction].
    cbn [negb] in Hb.
    destruct (_ <? 10)%nat eqn:H10; [contradiction|].
    apply Nat.ltb_ge in H10.
    destruct (_ <? 5)%nat; [contradiction|].
    destruct (JS.last_item _) as [latest|] eqn:El; [|contradiction].
    apply last_item_In in El. apply filter_In in El as [El Hwin].
    unfold Lodash.orderBy in El. rewrite stable_sort_In in El.
    apply andb_prop in Hwin as [_ Hle].
    destruct (_ <? JS.Math_abs _); [|contradiction].
    destruct Hb as [<-|[]].
    exists m, latest. cbn [Bet.marketId Bet.outcome Bet.amount Bet.timestamp
                            Bet.side Bet.priceLimit].
    repeat split; try assumption.
    destruct (0 <? _); [left|right]; split; reflexivity.
Qed.

(** ** Further properties: the snapshot *)

Lemma stable_sort_sorted_id {A : Type} (before : A -> A -> bool) (l : list A) :
  StronglySorted (fun a b => before a b = true) l ->
  JS.stable_sort before l = l.
Proof.
  induction 1 as [|x l Hs IH Hx]; simpl; [reflexivity|].
  rewrite IH. destruct l as [|y l']; [reflexivity|].
  simpl. inversion Hx; subst. now rewrite H1.
Qed.

Lemma orderBy_idempotent {A K : Type} (cmp : K -> K -> comparison)
  (key : A -> K) (l : list A) :
  (forall a b, cmp a b = Gt -> cmp b a <> Gt) ->
  (forall a b c, cmp a b <> Gt -> cmp b c <> Gt -> cmp a c <> Gt) ->
  Lodash.orderBy cmp key Lodash.asc (Lodash.orderBy cmp key Lodash.asc l)
  = Lodash.orderBy cmp key Lodash.asc l.
Proof.
  intros Htot Htrans. unfold Lodash.orderBy.
  apply stable_sort_sorted_id. apply stable_sort_sorted.
  - intros a b H. specialize (Htot (key a) (key b)).
    destruct (cmp (key a) (key b)); try discriminate.
    destruct (cmp (key b) (key a)); try reflexivity.
    exfalso. now apply Htot.
  - intros a b c Hab Hbc. specialize (Htrans (key a) (key b) (key c)).
    destruct (cmp (key a) (key c)); try reflexivity.
    exfalso. apply Htrans; try reflexivity.
    + destruct (cmp (key a) (key b)); discriminate.
    + destruct (cmp (key b) (key c)); discriminate.
Qed.

Lemma orderBy_Date_idempotent {A : Type} (key : A -> Date) (l : list A) :
  Lodash.orderBy Lodash.compareAscending_Date key Lodash.asc
    (Lodash.orderBy Lodash.compareAscending_Date key Lodash.asc l)
  = Lodash.orderBy Lodash.compareAscending_Date key Lodash.asc l.
Proof.
  apply orderBy_idempotent; unfold Lodash.compareAscending_Date.
  - intros a b H. rewrite Z.compare_gt_iff in H.
    intros H'. rewrite Z.compare_gt_iff in H'. lia.
  - intros a b c Hab Hbc H. rewrite Z.compare_gt_iff in H.
    destruct (Z.compare_spec a b), (Z.compare_spec b c); try lia; congruence.
Qed.

(** X9.  A snapshot is eligible for every strategy in every mode, live mode
    included, and taking the snapshot of a snapshot changes nothing. *)
Theorem snapshot_eligible_and_idempotent (market : Market.t) :
  (forall mode,
      Strategies.isMarketEligible
        (BacktestEngine.prepareMarketSnapshot market) mode = true)
  /\ BacktestEngine.prepareMarketSnapshot
       (BacktestEngine.prepareMarketSnapshot market)
     = BacktestEngine.prepareMarketSnapshot market.
Proof.
  split.
  - intros []; reflexivity.
  - unfold BacktestEngine.prepareMarketSnapshot.
    cbn [Market.marketId Market.question Market.outcomes Market.resolutionDate
         Market.historicalPrices Market.trades Market.volume Market.liquidity
         Market.endDate Market.image Market.category].
    now rewrite !orderBy_Date_idempotent.
Qed.

Lemma StronglySorted_last_max {A : Type} (R : A -> A -> Prop) (l : list A)
  (x y : A) :
  (forall a, R a a) ->
  StronglySorted R l -> Spec.lastElement l = Some y -> In x l -> R x y.
Proof.
  intros Hrefl Hs. revert x y.
  induction Hs as [|a l Hs IH Ha]; intros x y Hlast Hin; [contradiction|].
  destruct l as [|b l'].
  - destruct Hin as [<-|[]]. injection Hlast as <-. apply Hrefl.
  - assert (Hlast' : Spec.lastElement (b :: l') = Some y).
    { unfold Spec.lastElement in *. simpl in *.
      destruct (rev l' ++ [b]) eqn:E; [destruct (rev l'); discriminate|].
      simpl in Hlast. exact Hlast. }
    destruct Hin as [<-|Hin].
    + rewrite Forall_forall in Ha. apply Ha.
      unfold Spec.lastElement in Hlast'.
      rewrite (in_rev (b :: l')).
      destruct (rev (b :: l')); [discriminate|].
      injection Hlast' as <-. now left.
    + now apply IH.
Qed.

(** X10.  On a snapshot with a price history the backtest decision time is
    the latest timestamp of that history: no price point of the snapshot is
    later than the decision time, whatever the wall clock says. *)
Theorem snapshot_decision_time_is_latest_price
  (now : Date) (market : Market.t) (point : PricePoint.t) :
  let s := BacktestEngine.prepareMarketSnapshot market in
  In point (Market.historicalPrices market) ->
  (PricePoint.timestamp point
   <= Strategies.determineDecisionTime now s backtest_mode)%Z
  /\ exists latest,
       In latest (Market.historicalPrices market)
       /\ Strategies.determineDecisionTime now s backtest_mode
          = PricePoint.timestamp latest.
Proof.
  intros s Hin.
  assert (Hperm : Permutation (Market.historicalPrices market)
                    (Market.historicalPrices s)) by apply orderBy_perm.
  assert (Hsorted : StronglySorted
            (fun p q => Spec.dateLe (PricePoint.timestamp p)
                          (PricePoint.timestamp q))
            (Market.historicalPrices s)) by apply orderBy_Date_sorted.
  assert (Hin' : In point (Market.historicalPrices s))
    by (eapply Permutation_in; eassumption).
  assert (Hlast : forall latest,
             Spec.lastElement (Market.historicalPrices s) = Some latest ->
             Strategies.determineDecisionTime now s backtest_mode
             = PricePoint.timestamp latest).
  { intros latest El. unfold Strategies.determineDecisionTime.
    rewrite last_item_lastElement, El.
    destruct (Market.historicalPrices s); [contradiction|reflexivity]. }
  destruct (Spec.lastElement (Market.historicalPrices s)) as [latest|] eqn:El.
  - rewrite (Hlast latest eq_refl). split.
    + eapply (StronglySorted_last_max
                (fun p q => Spec.dateLe (PricePoint.timestamp p)
                              (PricePoint.timestamp q)));
        try eassumption. intros a. unfold Spec.dateLe. lia.
    + exists latest. split; [|reflexivity].
      apply Permutation_sym in Hperm. eapply Permutation_in; [exact Hperm|].
      unfold Spec.lastElement in El. rewrite (in_rev _).
      destruct (rev (Market.historicalPrices s)); [discriminate|].
      injection El as <-. now left.
  - apply lastElement_nil in El. rewrite El in Hin'. contradiction.
Qed.

(** A market with prices recorded out of order at times 30, 10 and 20. *)
Lemma snapshot_decision_time_is_latest_price_witness :
  let market :=
    Examples.market "m" (Some "Yes"%string) (Some 5%Z)
      [Examples.pricePoint 30%Z 0.5; Examples.pricePoint 10%Z 0.4;
       Examples.pricePoint 20%Z 0.6] [] 100000 in
  Strategies.determineDecisionTime 99%Z
    (BacktestEngine.prepareMarketSnapshot market) backtest_mode = 30%Z
  /\ (20 <= Strategies.determineDecisionTime 99%Z
              (BacktestEngine.prepareMarketSnapshot market) backtest_mode)%Z.
Proof.
  intros market. split; [vm_compute; reflexivity|].
  apply (snapshot_decision_time_is_latest_price 99%Z market
           (Examples.pricePoint 20%Z 0.6)).
  right. right. left. reflexivity.
Defined.

(** ** Further properties: the backtest engine *)

Lemma resolvedMarkets_none (markets : list Market.t) :
  (forall m, In m markets -> Market.resolvedOutcome m = None) ->
  BacktestEngine.resolvedMarkets markets = [].
Proof.
  intros H. unfold BacktestEngine.resolvedMarkets.
  induction markets as [|m ms IH]; [reflexivity|].
  simpl. unfold BacktestEngine.isResolved at 1.
  rewrite (H m (or_introl eq_refl)). apply IH.
  intros x Hx. apply H. now right.
Qed.

Lemma simulate_no_markets sid bets :
  BacktestEngine.simulate sid [] bets
  = {| BacktestEngine.backtestBets := [];
       BacktestEngine.cumulativeEarnings := 0;
       BacktestEngine.earningsOverTime := [] |}.
Proof.
  unfold BacktestEngine.simulate.
  induction bets as [|b bets IH]; [reflexivity|]. simpl. exact IH.
Qed.

(** X11.  When no market of the pool is resolved, whatever the strategy
    proposes and whatever the training ratio, the backtest returns the empty
    result: no bets, no earnings points, and every count, sum and ratio 0. *)
Theorem backtest_without_resolved_markets
  (now : Date) (strategy : Strategy.t) (markets : list Market.t)
  (trainingRatio : option number) :
  (forall m, In m markets -> Market.resolvedOutcome m = None) ->
  BacktestEngine.backtest now strategy markets trainingRatio
  = {| BacktestResult.strategyId := Strategy.id strategy;
       BacktestResult.strategyName := Strategy.name strategy;
       BacktestResult.totalBets := 0;
       BacktestResult.wins := 0;
       BacktestResult.losses := 0;
       BacktestResult.winRate := 0;
       BacktestResult.totalCost := 0;
       BacktestResult.totalWinnings := 0;
       BacktestResult.netProfit := 0;
       BacktestResult.roi := 0;
       BacktestResult.bets := [];
       BacktestResult.earningsOverTime := [] |}.
Proof.
  intros H. unfold BacktestEngine.backtest.
  assert (Htm : BacktestEngine.testMarkets markets
                  (BacktestEngine.ratioOrDefault trainingRatio) = []).
  { unfold BacktestEngine.testMarkets, BacktestEngine.sortedMarkets.
    rewrite (resolvedMarkets_none markets H). unfold JS.slice.
    simpl. rewrite skipn_nil, firstn_nil. reflexivity. }
  rewrite Htm, simulate_no_markets. reflexivity.
Qed.

(** An open market and a strategy that proposes a bet on it all the same. *)
Lemma backtest_without_resolved_markets_witness :
  BacktestResult.totalBets
    (BacktestEngine.backtest 0%Z
       (Examples.fixedStrategy [Examples.bet "open" "Yes" buy 10 0.5])
       [Samples.openMarket] None) = 0%nat.
Proof.
  rewrite (backtest_without_resolved_markets 0%Z
             (Examples.fixedStrategy [Examples.bet "open" "Yes" buy 10 0.5])
             [Samples.openMarket] None).
  - reflexivity.
  - intros m [<-|[]]. reflexivity.
Defined.

Lemma fold_simulateBet_timestamps sid tm bets : forall st,
  map EarningsPoint.timestamp (BacktestEngine.earningsOverTime st)
  = map BacktestBet.timestamp (BacktestEngine.backtestBets st) ->
  let st' := fold_left (BacktestEngine.simulateBet sid tm) bets st in
  map EarningsPoint.timestamp (BacktestEngine.earningsOverTime st')
  = map BacktestBet.timestamp (BacktestEngine.backtestBets st').
Proof.
  induction bets as [|bet bets IH]; intros st H; cbn [fold_left]; [exact H|].
  apply IH. rewrite simulateBet_scoreBet.
  destruct (Support.scoreBet tm bet); [|exact H].
  simpl. rewrite !map_app, H. reflexivity.
Qed.

Lemma fold_simulateBet_strategyId sid tm bets : forall st,
  (forall p, In p (BacktestEngine.earningsOverTime st) ->
             EarningsPoint.strategyId p = sid) ->
  let st' := fold_left (BacktestEngine.simulateBet sid tm) bets st in
  forall p, In p (BacktestEngine.earningsOverTime st') ->
            EarningsPoint.strategyId p = sid.
Proof.
  induction bets as [|bet bets IH]; intros st H; cbn [fold_left]; [exact H|].
  apply IH. rewrite simulateBet_scoreBet.
  destruct (Support.scoreBet tm bet); [|exact H].
  simpl. intros p Hp. apply in_app_or in Hp as [Hp|[<-|[]]];
    [now apply H|reflexivity].
Qed.

Lemma map_betOf_scored (tm : list Market.t) (bets : list Bet.t) :
  map Support.betOf
    (flat_map (fun bet => match Support.scoreBet tm bet with
                          | Some b => [b] | None => [] end) bets)
  = filter
      (fun bet =>
         match BacktestEngine.findMarket tm (Bet.marketId bet) with
         | Some market =>
             match truthy (Market.resolvedOutcome market) with
             | Some _ => true
             | None => false
             end
         | None => false
         end) bets.
Proof.
  induction bets as [|bet bets IH]; [reflexivity|].
  cbn [flat_map filter]. rewrite map_app, IH.
  unfold Support.scoreBet.
  destruct (BacktestEngine.findMarket tm (Bet.marketId bet)) as [m|];
    [|reflexivity].
  destruct (truthy (Market.resolvedOutcome m)); [|reflexivity].
  destruct bet; reflexivity.
Qed.

(** X12.  The bets of a result are the proposed bets that can be scored (the
    first test market with the bet's id exists and has a non-empty resolved
    outcome), in the order proposed and with their fields unchanged.  Each
    costs [amount * priceLimit] and pays its amount when it wins and 0 when
    it loses; one earnings point per bet carries the bet's timestamp and the
    strategy id. *)
Theorem backtest_retains_scorable_bets_in_order
  (now : Date) (strategy : Strategy.t) (markets : list Market.t)
  (trainingRatio : option number) :
  let ratio := BacktestEngine.ratioOrDefault trainingRatio in
  let tm := BacktestEngine.testMarkets markets ratio in
  let scorable bet :=
    match BacktestEngine.findMarket tm (Bet.marketId bet) with
    | Some market =>
        match truthy (Market.resolvedOutcome market) with
        | Some _ => true
        | None => false
        end
    | None => false
    end in
  let r := BacktestEngine.backtest now strategy markets trainingRatio in
  map Support.betOf (BacktestResult.bets r)
  = filter scorable (BacktestEngine.proposedBets now strategy markets ratio)
  /\ (forall b, In b (BacktestResult.bets r) ->
        BacktestBet.cost b = BacktestBet.amount b * BacktestBet.priceLimit b
        /\ BacktestBet.payout b
           = (if BacktestEngine.isWin b then BacktestBet.amount b else 0))
  /\ map EarningsPoint.timestamp (BacktestResult.earningsOverTime r)
     = map BacktestBet.timestamp (BacktestResult.bets r)
  /\ (forall p, In p (BacktestResult.earningsOverTime r) ->
                EarningsPoint.strategyId p = Strategy.id strategy)
  /\ (BacktestResult.totalBets r
      <= List.length (BacktestEngine.proposedBets now strategy markets ratio))%nat.
Proof.
  intros ratio tm scorable r.
  assert (Hbets : BacktestResult.bets r
                  = flat_map (fun bet => match Support.scoreBet tm bet with
                                          | Some b => [b] | None => [] end)
                      (BacktestEngine.proposedBets now strategy markets ratio)).
  { subst r. rewrite backtest_bets. apply simulate_bets. }
  assert (Hmap : map Support.betOf (BacktestResult.bets r)
                 = filter scorable
                     (BacktestEngine.proposedBets now strategy markets ratio)).
  { rewrite Hbets. apply map_betOf_scored. }
  split; [exact Hmap|]. split; [|split; [|split]].
  - intros b Hb. rewrite Hbets in Hb.
    apply in_flat_map in Hb as (bet & _ & Hb).
    destruct (Support.scoreBet tm bet) as [b'|] eqn:E; [|contradiction].
    destruct Hb as [<-|[]].
    apply scoreBet_inv in E as (m & ro & _ & _ & <- & Hres & Hpay & Hcost).
    unfold BacktestEngine.isWin. rewrite Hcost, Hpay, Hres.
    split; [reflexivity|].
    destruct (BacktestEngine.isBetWinner (Support.betOf b') ro); reflexivity.
  - subst r. unfold BacktestEngine.backtest, BacktestEngine.metrics.
    cbn [BacktestResult.earningsOverTime BacktestResult.bets].
    unfold BacktestEngine.simulate.
    apply fold_simulateBet_timestamps. reflexivity.
  - subst r. unfold BacktestEngine.backtest, BacktestEngine.metrics.
    cbn [BacktestResult.earningsOverTime].
    unfold BacktestEngine.simulate.
    apply fold_simulateBet_strategyId. intros p [].
  - change (BacktestResult.totalBets r)
      with (List.length (BacktestResult.bets r)).
    rewrite <- (length_map Support.betOf), Hmap. apply filter_length_le.
Qed.

(** ** Further properties: the outcome table of the statistics *)

Lemma tableGet_countOutcome key key' acc :
  tableGet key' (BacktestEngine.countOutcome key acc)
  = (tableGet key' acc + (if String.eqb key key' then 1 else 0))%nat.
Proof.
  unfold tableGet.
  induction acc as [|[k n] acc IH]; simpl.
  - destruct (String.eqb key key'); reflexivity.
  - destruct (String.eqb k key) eqn:Ek; simpl.
    + apply String.eqb_eq in Ek. subst k.
      destruct (String.eqb key key'); simpl; lia.
    + destruct (String.eqb k key') eqn:Ek'; simpl.
      * apply String.eqb_eq in Ek'. subst k.
        rewrite String.eqb_sym in Ek. rewrite Ek. simpl. lia.
      * exact IH.
Qed.

Lemma countOutcome_keys key acc :
  NoDup (map fst acc) ->
  NoDup (map fst (BacktestEngine.countOutcome key acc))
  /\ forall k, In k (map fst (BacktestEngine.countOutcome key acc)) <->
               k = key \/ In k (map fst acc).
Proof.
  induction acc as [|[k n] acc IH]; simpl; intros Hnd.
  - split; [repeat constructor; auto|]. intros k. intuition congruence.
  - inversion Hnd as [|? ? Hnotin Hnd']; subst.
    destruct (String.eqb k key) eqn:Ek; simpl.
    + apply String.eqb_eq in Ek. subst k.
      split; [exact Hnd|]. intros k. intuition congruence.
    + apply String.eqb_neq in Ek.
      destruct (IH Hnd') as [IH1 IH2]. split.
      * constructor; [|exact IH1]. rewrite IH2. intros [->|H]; tauto.
      * intros k'. rewrite IH2. intuition congruence.
Qed.

Lemma countOutcome_total key acc :
  list_sum (map snd (BacktestEngine.countOutcome key acc))
  = S (list_sum (map snd acc)).
Proof.
  induction acc as [|[k n] acc IH]; simpl; [reflexivity|].
  destruct (String.eqb k key); simpl; lia.
Qed.

Lemma countOutcome_positive key acc :
  Forall (fun kv => 0 < snd kv)%nat acc ->
  Forall (fun kv => 0 < snd kv)%nat (BacktestEngine.countOutcome key acc).
Proof.
  induction 1 as [|[k n] acc Hk Hacc IH]; simpl.
  - repeat constructor.
  - destruct (String.eqb k key); constructor; simpl in *; auto; lia.
Qed.

Lemma outcomeFreq_fold (ms : list Market.t) : forall acc,
  NoDup (map fst acc) -> Forall (fun kv => 0 < snd kv)%nat acc ->
  let out :=
    fold_left
      (fun acc m =>
         match Market.resolvedOutcome m with
         | Some o => BacktestEngine.countOutcome o acc
         | None => acc
         end)
      (filter BacktestEngine.isResolved ms) acc in
  (forall o,
     tableGet o out
     = (tableGet o acc
        + List.length
            (filter (fun m => match Market.resolvedOutcome m with
                              | Some o' => String.eqb o' o
                              | None => false
                              end) ms))%nat)
  /\ NoDup (map fst out)
  /\ Forall (fun kv => 0 < snd kv)%nat out
  /\ list_sum (map snd out)
     = (list_sum (map snd acc)
        + List.length (filter BacktestEngine.isResolved ms))%nat.
Proof.
  induction ms as [|m ms IH]; intros acc Hnd Hpos; cbv zeta.
  - simpl. repeat split; auto; intros; lia.
  - cbn [filter].
    destruct (Market.resolvedOutcome m) as [o'|] eqn:Eo.
    + replace (BacktestEngine.isResolved m) with true
        by (unfold BacktestEngine.isResolved; now rewrite Eo).
      cbn [fold_left]. rewrite Eo.
      destruct (countOutcome_keys o' acc Hnd) as [Hnd' _].
      destruct (IH (BacktestEngine.countOutcome o' acc) Hnd'
                  (countOutcome_positive o' acc Hpos))
        as (H1 & H2 & H3 & H4).
      cbv zeta in H1, H2, H3, H4.
      split; [|split; [exact H2|split; [exact H3|]]].
      * intros o. rewrite H1, tableGet_countOutcome.
        destruct (String.eqb o' o); simpl; lia.
      * rewrite H4, countOutcome_total. simpl. lia.
    + replace (BacktestEngine.isResolved m) with false
        by (unfold BacktestEngine.isResolved; now rewrite Eo).
      destruct (IH acc Hnd Hpos) as (H1 & H2 & H3 & H4).
      cbv zeta in H1, H2, H3, H4.
      split; [|split; [exact H2|split; [exact H3|exact H4]]].
      intros o. rewrite H1. reflexivity.
Qed.

(** X13.  In the statistics, [topOutcomes] has one entry per distinct
    resolved outcome: the count kept for an outcome is the number of markets
    resolved to it (0 for an outcome no market resolved to), every kept count
    is positive, and the counts add up to [resolvedMarkets], which is at most
    [totalMarkets].  The outcome labels are assumed not to be names every
    JavaScript object inherits, for which [acc[key] || 0] is not a count. *)
Theorem topOutcomes_counts_resolved_markets (markets : list Market.t) :
  Forall (fun m => match Market.resolvedOutcome m with
                   | Some o => ~ In o Samples.inheritedKeys
                   | None => True
                   end) markets ->
  let stats := BacktestEngine.calculateHistoricalStats markets in
  (forall o,
     tableGet o (HistoricalStats.topOutcomes stats)
     = List.length
         (filter (fun m => match Market.resolvedOutcome m with
                           | Some o' => String.eqb o' o
                           | None => false
                           end) markets))
  /\ NoDup (map fst (HistoricalStats.topOutcomes stats))
  /\ Forall (fun kv => 0 < snd kv)%nat (HistoricalStats.topOutcomes stats)
  /\ list_sum (map snd (HistoricalStats.topOutcomes stats))
     = HistoricalStats.resolvedMarkets stats
  /\ (HistoricalStats.resolvedMarkets stats
      <= HistoricalStats.totalMarkets stats)%nat
  /\ HistoricalStats.totalMarkets stats = List.length markets.
Proof.
  intros _. cbv zeta. unfold BacktestEngine.calculateHistoricalStats.
  cbn [HistoricalStats.topOutcomes HistoricalStats.resolvedMarkets
       HistoricalStats.totalMarkets].
  unfold BacktestEngine.outcomeFreq, BacktestEngine.resolvedMarkets.
  destruct (outcomeFreq_fold markets [] (NoDup_nil _) (Forall_nil _))
    as (H1 & H2 & H3 & H4).
  cbv zeta in H1, H2, H3, H4.
  split; [exact H1|]. split; [exact H2|]. split; [exact H3|].
  split; [exact H4|]. split; [apply filter_length_le|reflexivity].
Qed.

Lemma topOutcomes_counts_resolved_markets_witness :
  let markets := [Examples.whaleMarket; Samples.openMarket;
                  Examples.whaleMarket] in
  let stats := BacktestEngine.calculateHistoricalStats markets in
  tableGet "Yes" (HistoricalStats.topOutcomes stats) = 2%nat
  /\ HistoricalStats.resolvedMarkets stats = 2%nat.
Proof.
  cbv zeta.
  assert (H : Forall (fun m => match Market.resolvedOutcome m with
                   | Some o => ~ In o Samples.inheritedKeys
                   | None => True
                   end)
                [Examples.whaleMarket; Samples.openMarket;
                 Examples.whaleMarket]).
  { repeat constructor; simpl; intuition discriminate. }
  destruct (topOutcomes_counts_resolved_markets _ H) as (H1 & _ & _ & H4 & _).
  split; [rewrite H1; reflexivity|]. rewrite <- H4. reflexivity.
Defined.
(** ** Further properties: the data transformer *)

Lemma slice_last10 {A : Type} (l : list A) :
  JS.slice l (-10)%float None = skipn (List.length l - 10) l.
Proof.
  rewrite slice_from.
  replace (JS.ToIntegerOrInfinity (-10)) with (JS.Int (-10))
    by (vm_compute; reflexivity).
  f_equal. simpl. lia.
Qed.

(** X14.  The liquidity estimate is the volume of the last ten trades: the
    trades before them do not count, and with at most ten trades (none
    included) the estimate is the volume of all of them. *)
Theorem liquidity_estimate_is_volume_of_last_ten (trades : list Trade.t) :
  DataTransformer.estimateLiquidityFromTrades trades
  = DataTransformer.calculateVolumeFromTrades
      (skipn (List.length trades - 10) trades)
  /\ ((List.length trades <= 10)%nat ->
      DataTransformer.estimateLiquidityFromTrades trades
      = DataTransformer.calculateVolumeFromTrades trades)
  /\ (forall older recent,
        trades = older ++ recent -> List.length recent = 10%nat ->
        DataTransformer.estimateLiquidityFromTrades trades
        = DataTransformer.calculateVolumeFromTrades recent).
Proof.
  assert (H : DataTransformer.estimateLiquidityFromTrades trades
              = DataTransformer.calculateVolumeFromTrades
                  (skipn (List.length trades - 10) trades)).
  { unfold DataTransformer.estimateLiquidityFromTrades,
      DataTransformer.calculateVolumeFromTrades.
    destruct trades as [|t trades]; [reflexivity|].
    cbn [List.length Nat.eqb]. cbv zeta. rewrite slice_last10. reflexivity. }
  split; [exact H|]. split.
  - intros Hlen. rewrite H.
    replace (List.length trades - 10)%nat with 0%nat by lia. reflexivity.
  - intros older recent -> Hlen. rewrite H, length_app, Hlen.
    replace (List.length older + 10 - 10)%nat
      with (List.length older + 0)%nat by lia.
    rewrite skipn_app, Nat.add_0_r, skipn_all, Nat.sub_diag. reflexivity.
Qed.

Lemma last_item_snoc {A : Type} (l : list A) (x : A) :
  JS.last_item (l ++ [x]) = Some x.
Proof.
  unfold JS.last_item. rewrite length_app. simpl.
  replace (List.length l + 1 - 1)%nat with (List.length l) by lia.
  rewrite nth_error_app2 by lia. rewrite Nat.sub_diag. reflexivity.
Qed.

(** X15.  The current price of an outcome is the price of the last trade of
    that outcome, whatever was traded on other outcomes before or after it,
    and 0.5 when no trade has the outcome. *)
Theorem current_price_is_last_trade_of_outcome (outcome : string) :
  (forall trades,
     (forall t, In t trades -> Trade.outcome t <> outcome) ->
     DataTransformer.getCurrentPriceFromTrades trades outcome = 0.5)
  /\ (forall older t newer,
        Trade.outcome t = outcome ->
        (forall t', In t' newer -> Trade.outcome t' <> outcome) ->
        DataTransformer.getCurrentPriceFromTrades (older ++ t :: newer) outcome
        = Trade.price t).
Proof.
  split.
  - intros trades H. unfold DataTransformer.getCurrentPriceFromTrades.
    rewrite filter_none; [reflexivity|].
    intros t Ht. apply String.eqb_neq. now apply H.
  - intros older t newer Ht Hnewer.
    unfold DataTransformer.getCurrentPriceFromTrades.
    rewrite filter_app. cbn [filter].
    replace (String.eqb (Trade.outcome t) outcome) with true
      by (symmetry; now apply String.eqb_eq).
    rewrite (filter_none _ newer)
      by (intros t' Ht'; apply String.eqb_neq; now apply Hnewer).
    rewrite last_item_snoc, length_app. simpl.
    replace (List.length (filter (fun t0 => String.eqb (Trade.outcome t0) outcome)
                            older) + 1 =? 0)%nat with false
      by (symmetry; apply Nat.eqb_neq; lia).
    reflexivity.
Qed.

(** X16.  Flattening keeps every trade and every price point of every
    outcome, each as often as it occurs: the result is a rearrangement of the
    concatenated input. *)
Theorem flatten_keeps_every_item
  (tradesArray : list (list Trade.t))
  (pricePointsArray : list (list PricePoint.t)) :
  Permutation (List.concat tradesArray)
    (DataTransformer.flattenTrades tradesArray)
  /\ Permutation (List.concat pricePointsArray)
       (DataTransformer.flattenPricePoints pricePointsArray)
  /\ List.length (DataTransformer.flattenTrades tradesArray)
     = list_sum (map (@List.length _) tradesArray)
  /\ List.length (DataTransformer.flattenPricePoints pricePointsArray)
     = list_sum (map (@List.length _) pricePointsArray).
Proof.
  unfold DataTransformer.flattenTrades, DataTransformer.flattenPricePoints,
    JS.Array_sort.
  repeat split; try apply stable_sort_perm;
    rewrite stable_sort_length, length_concat; reflexivity.
Qed.

(** ** Further properties: the statistics' volatile markets *)

(** X17.  [volatileMarkets] holds five entries, or one per market with more
    than ten price points when these are fewer; every entry carries the id,
    the question and the variance of such a market, and when they are at most
    five every one of them is listed. *)
Theorem volatileMarkets_at_most_five (markets : list Market.t) :
  let candidates :=
    filter (fun m => (10 <? List.length (Market.historicalPrices m))%nat)
      markets in
  let entry m :=
    {| HistoricalStats.marketId := Market.marketId m;
       HistoricalStats.question := Market.question m;
       HistoricalStats.variance := BacktestEngine.varianceOf m |} in
  List.length (BacktestEngine.volatileMarkets markets)
  = Nat.min 5 (List.length candidates)
  /\ (forall v, In v (BacktestEngine.volatileMarkets markets) ->
        exists m, In m markets
                  /\ (10 < List.length (Market.historicalPrices m))%nat
                  /\ v = entry m)
  /\ ((List.length candidates <= 5)%nat ->
      Permutation (map entry candidates)
        (BacktestEngine.volatileMarkets markets)).
Proof.
  intros candidates entry.
  assert (Hv : BacktestEngine.volatileMarkets markets
               = firstn 5
                   (JS.stable_sort
                      (fun a b =>
                         negb (0 <? HistoricalStats.variance b
                                    - HistoricalStats.variance a))
                      (map entry candidates))).
  { unfold BacktestEngine.volatileMarkets, JS.Array_sort.
    rewrite slice_to.
    replace (JS.ToIntegerOrInfinity 5) with (JS.Int 5)
      by (vm_compute; reflexivity).
    rewrite stable_sort_length, length_map.
    fold candidates. fold entry.
    set (sorted := JS.stable_sort _ (map entry candidates)).
    assert (Hlen : List.length sorted = List.length candidates).
    { unfold sorted. now rewrite stable_sort_length, length_map. }
    cbn [JS.relativeIndex Z.ltb Z.compare].
    destruct (Z.min_spec 5 (Z.of_nat (List.length candidates)))
      as [[Hlt ->]|[Hge ->]]; [reflexivity|].
    rewrite Nat2Z.id.
    rewrite !firstn_all2 by lia. reflexivity. }
  rewrite Hv. split; [|split].
  - rewrite length_firstn, stable_sort_length, length_map. reflexivity.
  - intros v Hin. apply firstn_In in Hin.
    apply stable_sort_In in Hin. apply in_map_iff in Hin as (m & <- & Hm).
    apply filter_In in Hm as [Hm Hlen]. apply Nat.ltb_lt in Hlen.
    exists m. auto.
  - intros Hlen. rewrite firstn_all2
      by (rewrite stable_sort_length, length_map; exact Hlen).
    apply stable_sort_perm.
Qed.

(** ** Further properties: the application store *)

(** X18.  After [addBacktestResult] the store holds exactly one result of the
    added result's strategy, the added one, placed last; the results of the
    other strategies are kept in their order; strategy ids that were
    distinct stay distinct; a result added over an earlier one of the same
    strategy leaves no trace of the earlier one; nothing else in the store
    changes. *)
Theorem addBacktestResult_one_result_per_strategy
  (result : BacktestResult.t) (state : Store.AppState) :
  let state' := Store.addBacktestResult result state in
  let same r :=
    String.eqb (BacktestResult.strategyId r)
      (BacktestResult.strategyId result) in
  filter same (Store.backtestResults state') = [result]
  /\ JS.last_item (Store.backtestResults state') = Some result
  /\ filter (fun r => negb (same r)) (Store.backtestResults state')
     = filter (fun r => negb (same r)) (Store.backtestResults state)
  /\ (NoDup (map BacktestResult.strategyId (Store.backtestResults state)) ->
      NoDup (map BacktestResult.strategyId (Store.backtestResults state')))
  /\ (forall earlier,
        BacktestResult.strategyId earlier = BacktestResult.strategyId result ->
        Store.addBacktestResult result (Store.addBacktestResult earlier state)
        = state')
  /\ Store.setBacktestResults (Store.backtestResults state) state' = state.
Proof.
  intros state' same. subst state'. unfold Store.addBacktestResult.
  cbn [Store.setBacktestResults Store.backtestResults].
  set (others := filter _ (Store.backtestResults state)).
  assert (Hsame : same result = true) by (apply String.eqb_refl).
  assert (Hothers : forall r, In r others -> same r = false).
  { intros r Hr. apply filter_In in Hr as [_ Hr].
    now apply negb_true_iff in Hr. }
  assert (Hfix : filter (fun r => negb (same r)) others = others).
  { apply forallb_filter_id. apply forallb_forall. intros r Hr.
    now rewrite (Hothers r Hr). }
  split; [|split; [|split; [|split; [|split]]]].
  - rewrite filter_app. cbn [filter]. rewrite Hsame.
    rewrite (filter_none same others Hothers). reflexivity.
  - apply last_item_snoc.
  - rewrite filter_app. cbn [filter]. rewrite Hsame. cbn [negb].
    rewrite app_nil_r. exact Hfix.
  - intros Hnd. rewrite map_app. cbn [map].
    apply NoDup_app; [| repeat constructor; intros [] |].
    + unfold others. clear -Hnd.
      induction (Store.backtestResults state) as [|r rs IH];
        [constructor|].
      cbn [map] in Hnd. inversion Hnd as [|? ? Hnotin Hnd']; subst.
      cbn [filter]. destruct (negb _); [|now apply IH].
      cbn [map]. constructor; [|now apply IH].
      intros Hin. apply Hnotin. apply in_map_iff in Hin as (x & Hx & Hin).
      apply filter_In in Hin as [Hin _]. apply in_map_iff. eauto.
    + intros sid Hin [<-|[]].
      apply in_map_iff in Hin as (r & Hr & Hin).
      apply Hothers in Hin. unfold same in Hin. rewrite Hr in Hin.
      rewrite String.eqb_refl in Hin. discriminate.
  - intros earlier Hid. unfold Store.setBacktestResults.
    cbn [Store.markets Store.strategies Store.backtestResults Store.benchmarks
         Store.historicalStats Store.isLoading Store.error Store.simulation].
    f_equal.
    rewrite filter_app. cbn [filter]. rewrite !Hid.
    rewrite String.eqb_refl. cbn [negb]. rewrite app_nil_r.
    f_equal. exact Hfix.
  - destruct state; reflexivity.
Qed.

(** ** Further properties: the guide's first engine *)

Lemma flat_map_nil {A B : Type} (f : A -> list B) (l : list A) :
  (forall x, In x l -> f x = []) -> flat_map f l = [].
Proof.
  induction l as [|y l IH]; intros H; [reflexivity|].
  simpl. rewrite (H y (or_introl eq_refl)). apply IH.
  intros x Hx. apply H. now right.
Qed.

Lemma guide_skips_resolved (m : Market.t) :
  Market.resolvedOutcome m <> None ->
  Market.resolvedOutcome m <> Some ""%string ->
  Guide.skipped m = true.
Proof.
  unfold Guide.skipped, truthy. intros H1 H2.
  destruct (Market.resolvedOutcome m) as [[|c s]|]; congruence.
Qed.

(** X19.  The guide's first engine hands the resolved test markets themselves
    to the strategy, and each of the guide's three strategies skips a market
    with a resolved outcome: unless a market is resolved to the empty string,
    such a backtest places no bet, whatever the markets, the clock and the
    training ratio, and returns the empty result. *)
Theorem guide_backtest_places_no_bet
  (now : Date) (strategy : Strategy.t) (markets : list Market.t)
  (trainingRatio : option number) :
  In strategy [Guide.copyTradingStrategy; Guide.spikeDetectionStrategy;
               Guide.marketMakingStrategy] ->
  (forall m, In m markets -> Market.resolvedOutcome m <> Some ""%string) ->
  Guide.backtest now strategy markets trainingRatio
  = {| BacktestResult.strategyId := Strategy.id strategy;
       BacktestResult.strategyName := Strategy.name strategy;
       BacktestResult.totalBets := 0;
       BacktestResult.wins := 0;
       BacktestResult.losses := 0;
       BacktestResult.winRate := 0;
       BacktestResult.totalCost := 0;
       BacktestResult.totalWinnings := 0;
       BacktestResult.netProfit := 0;
       BacktestResult.roi := 0;
       BacktestResult.bets := [];
       BacktestResult.earningsOverTime := [] |}.
Proof.
  intros Hs Hm. unfold Guide.backtest. cbv zeta.
  set (tm := BacktestEngine.testMarkets markets _).
  assert (Hskip : forall m, In m tm -> Guide.skipped m = true).
  { intros m Hin. apply testMarkets_resolved in Hin as [Hin Hres].
    apply guide_skips_resolved; [exact Hres|now apply Hm]. }
  assert (Hbets : Strategy.generateBets strategy now tm Guide.emptyContext = []).
  { destruct Hs as [<-|[<-|[<-|[]]]];
      cbn [Strategy.generateBets Guide.copyTradingStrategy
           Guide.spikeDetectionStrategy Guide.marketMakingStrategy].
    - rewrite flat_map_nil; [reflexivity|].
      intros m Hin. unfold Guide.copyTrading_market.
      now rewrite (Hskip m Hin).
    - apply flat_map_nil.
      intros m Hin. unfold Guide.spikeDetection_market.
      now rewrite (Hskip m Hin).
    - apply flat_map_nil.
      intros m Hin. unfold Guide.marketMaking_market.
      now rewrite (Hskip m Hin). }
  rewrite Hbets. reflexivity.
Qed.

(** On a pool of one resolved whale market the guide's engine places no bet,
    where the engine with the snapshot places one. *)
Lemma guide_backtest_places_no_bet_witness :
  BacktestResult.totalBets
    (Guide.backtest 1000000%Z Guide.copyTradingStrategy
       [Examples.whaleMarket] None) = 0%nat
  /\ BacktestResult.totalBets
       (BacktestEngine.backtest 1000000%Z Strategies.copyTradingStrategy
          [Examples.whaleMarket] None) = 1%nat.
Proof.
  split; [|vm_compute; reflexivity].
  rewrite (guide_backtest_places_no_bet 1000000%Z Guide.copyTradingStrategy
             [Examples.whaleMarket] None).
  - reflexivity.
  - left. reflexivity.
  - intros m [<-|[]]. discriminate.
Defined.

(** X20.  The guide's whale-copy strategy returns the first ten of the bets
    it finds, in the order of the markets and of their trades, and never
    more than ten. *)
Theorem guide_whale_copy_first_ten
  (now : Date) (markets : list Market.t) (context : StrategyContext.t) :
  let bets := Strategy.generateBets Guide.copyTradingStrategy now markets
                context in
  bets = firstn 10 (flat_map (Guide.copyTrading_market now) markets)
  /\ (List.length bets <= 10)%nat
  /\ forall b, In b bets ->
       exists m t, In m markets /\ In t (Market.trades m)
                   /\ Guide.skipped m = false
                   /\ Bet.marketId b = Market.marketId m
                   /\ Bet.outcome b = Trade.outcome t
                   /\ Bet.side b = Trade.side t
                   /\ Bet.priceLimit b = Trade.price t + 0.02.
Proof.
  cbv zeta. cbn [Strategy.generateBets Guide.copyTradingStrategy].
  assert (H : forall l : list Bet.t, JS.slice l 0 (Some 10) = firstn 10 l).
  { intros l. rewrite slice_to.
    replace (JS.ToIntegerOrInfinity 10) with (JS.Int 10)
      by (vm_compute; reflexivity).
    cbn [JS.relativeIndex Z.ltb Z.compare].
    destruct (Z.min_spec 10 (Z.of_nat (List.length l)))
      as [[Hlt ->]|[Hge ->]]; [reflexivity|].
    rewrite Nat2Z.id. rewrite !firstn_all2 by lia. reflexivity. }
  rewrite H. split; [reflexivity|]. split.
  - rewrite length_firstn. lia.
  - intros b Hb. apply firstn_In in Hb.
    apply in_flat_map in Hb as (m & Hm & Hb).
    unfold Guide.copyTrading_market in Hb.
    destruct (Guide.skipped m) eqn:Es; [contradiction|].
    apply in_map_iff in Hb as (t & <- & Ht).
    apply filter_In in Ht as [Ht _]. apply filter_In in Ht as [Ht _].
    exists m, t. cbn. auto 10.
Qed.

(** ** Further properties: pagination *)

Section PaginateFacts.
Context {T : Type}.
Variable queryFn : nat -> nat -> list T.

(** A turn that goes on has added a full page, so [fuel] further turns after
    the first are enough once [fuel] pages would exceed what is missing. *)
Lemma paginateLoop_ends (maxResults : nat) : forall fuel results skip,
  (maxResults <= List.length results + fuel * SubgraphClient.pageSize)%nat ->
  exists final more,
    SubgraphClient.paginateLoop queryFn (S fuel) maxResults results skip
    = Some final
    /\ final = results ++ more.
Proof.
  induction fuel as [|fuel IH]; intros results skip Hfuel;
    cbn [SubgraphClient.paginateLoop].
  - rewrite Nat.mul_0_l, Nat.add_0_r in Hfuel.
    apply Nat.ltb_ge in Hfuel. rewrite Hfuel.
    exists results, []. now rewrite app_nil_r.
  - destruct (List.length results <? maxResults)%nat;
      [|exists results, []; now rewrite app_nil_r].
    cbv zeta. set (page := queryFn SubgraphClient.pageSize skip).
    destruct (List.length page =? 0)%nat;
      [exists results, []; now rewrite app_nil_r|].
    destruct (List.length page <? SubgraphClient.pageSize)%nat eqn:Efull;
      [exists (results ++ page), page; split; reflexivity|].
    apply Nat.ltb_ge in Efull.
    destruct (IH (results ++ page) (skip + SubgraphClient.pageSize)%nat)
      as (final & more & Hrun & ->).
    + rewrite length_app. rewrite Nat.mul_succ_l in Hfuel. lia.
    + exists ((results ++ page) ++ more), (page ++ more).
      split; [exact Hrun|]. now rewrite app_assoc.
Qed.

Lemma paginateLoop_more_fuel (maxResults : nat) :
  forall fuel1 fuel2 results skip final,
  SubgraphClient.paginateLoop queryFn fuel1 maxResults results skip
  = Some final ->
  (fuel1 <= fuel2)%nat ->
  SubgraphClient.paginateLoop queryFn fuel2 maxResults results skip
  = Some final.
Proof.
  induction fuel1 as [|fuel1 IH]; intros fuel2 results skip final Hrun Hle;
    [discriminate|].
  destruct fuel2 as [|fuel2]; [lia|].
  cbn [SubgraphClient.paginateLoop] in *.
  destruct (List.length results <? maxResults)%nat; [|exact Hrun].
  cbv zeta in *.
  destruct (List.length (queryFn SubgraphClient.pageSize skip) =? 0)%nat;
    [exact Hrun|].
  destruct (List.length (queryFn SubgraphClient.pageSize skip)
            <? SubgraphClient.pageSize)%nat; [exact Hrun|].
  apply IH; [exact Hrun|lia].
Qed.

(** X21.  The loop of [paginateQuery] ends, whatever the query function
    answers: a turn that goes on has added a full page of 1000 items, so the
    loop exits within [maxResults / 1000 + 2] turns (the last one only finds
    the results complete), and hence within the [maxResults + 1] turns that
    [paginateQuery] allows; more turns give the same result.  The result has
    at most [maxResults] items, and it is empty when the first page is. *)
Theorem paginateQuery_terminates (maxResults : nat) :
  exists results,
    SubgraphClient.paginateQuery queryFn maxResults = Some results
    /\ (List.length results <= maxResults)%nat
    /\ (forall fuel,
          (maxResults / SubgraphClient.pageSize + 2 <= fuel)%nat ->
          option_map (firstn maxResults)
            (SubgraphClient.paginateLoop queryFn fuel maxResults [] 0)
          = Some results)
    /\ (queryFn SubgraphClient.pageSize 0%nat = [] -> results = []).
Proof.
  assert (Hrun0 : exists final,
    SubgraphClient.paginateLoop queryFn (S maxResults) maxResults [] 0
    = Some final).
  { destruct (paginateLoop_ends maxResults maxResults [] 0%nat)
      as (final & _ & Hrun & _); [|now exists final].
    unfold SubgraphClient.pageSize. simpl. lia. }
  destruct Hrun0 as (final & Hrun0).
  exists (firstn maxResults final).
  split; [|split; [|split]].
  - unfold SubgraphClient.paginateQuery. now rewrite Hrun0.
  - rewrite length_firstn. lia.
  - intros fuel Hfuel.
    set (turns := (maxResults / SubgraphClient.pageSize + 1)%nat).
    destruct (paginateLoop_ends maxResults turns [] 0%nat)
      as (final' & _ & Hrun & _).
    { unfold turns, SubgraphClient.pageSize.
      pose proof (Nat.div_mod_eq maxResults 1000) as Hd.
      pose proof (Nat.mod_upper_bound maxResults 1000 ltac:(lia)).
      simpl List.length. lia. }
    assert (Hfinal : final' = final).
    { destruct (Nat.le_ge_cases (S turns) (S maxResults)) as [Hle|Hle].
      - pose proof (paginateLoop_more_fuel _ _ _ _ _ _ Hrun Hle) as H.
        rewrite Hrun0 in H. now injection H.
      - pose proof (paginateLoop_more_fuel _ _ _ _ _ _ Hrun0 Hle) as H.
        rewrite Hrun in H. now injection H. }
    subst final'.
    rewrite (paginateLoop_more_fuel _ (S turns) fuel _ _ _ Hrun);
      [reflexivity|unfold turns; lia].
  - intros Hempty.
    assert (Hfinal : final = []).
    { cbn [SubgraphClient.paginateLoop] in Hrun0.
      destruct (List.length (@nil T) <? maxResults)%nat;
        [|now injection Hrun0 as <-].
      cbv zeta in Hrun0. rewrite Hempty in Hrun0.
      cbn [List.length Nat.eqb] in Hrun0. now injection Hrun0 as <-. }
    rewrite Hfinal. apply firstn_nil.
Qed.

End PaginateFacts.

Lemma firstn_skipn_step {T : Type} (data : list T) (skip n : nat) :
  firstn skip data ++ firstn n (skipn skip data) = firstn (skip + n) data.
Proof.
  revert data. induction skip as [|skip IH]; intros data; [reflexivity|].
  destruct data as [|x data]; simpl.
  - now rewrite firstn_nil.
  - now rewrite IH.
Qed.

Lemma paginateLoop_served {T : Type} (data : list T) (maxResults : nat) :
  forall fuel skip,
  (skip <= List.length data)%nat ->
  (maxResults <= skip + fuel * SubgraphClient.pageSize)%nat ->
  option_map (firstn maxResults)
    (SubgraphClient.paginateLoop
       (fun limit skip' => firstn limit (skipn skip' data))
       (S fuel) maxResults (firstn skip data) skip)
  = Some (firstn maxResults data).
Proof.
  assert (Hpre : forall skip, (maxResults <= skip)%nat ->
            firstn maxResults (firstn skip data) = firstn maxResults data).
  { intros skip H. rewrite firstn_firstn. f_equal. lia. }
  induction fuel as [|fuel IH]; intros skip Hskip Hfuel;
    cbn [SubgraphClient.paginateLoop]; rewrite length_firstn;
    replace (Nat.min skip (List.length data)) with skip by lia.
  - rewrite Nat.mul_0_l, Nat.add_0_r in Hfuel.
    replace (skip <? maxResults)%nat with false
      by (symmetry; apply Nat.ltb_ge; exact Hfuel).
    cbn [option_map]. f_equal. now apply Hpre.
  - destruct (skip <? maxResults)%nat eqn:Elt;
      [|cbn [option_map]; f_equal; apply Hpre; apply Nat.ltb_ge in Elt;
        exact Elt].
    cbv zeta.
    destruct (List.length (firstn SubgraphClient.pageSize (skipn skip data))
              =? 0)%nat eqn:Eempty.
    + apply Nat.eqb_eq in Eempty.
      rewrite length_firstn, length_skipn in Eempty.
      unfold SubgraphClient.pageSize in Eempty.
      cbn [option_map]. f_equal.
      rewrite (firstn_all2 (n := skip)) by lia. reflexivity.
    + rewrite firstn_skipn_step.
      destruct (List.length (firstn SubgraphClient.pageSize (skipn skip data))
                <? SubgraphClient.pageSize)%nat eqn:Eshort.
      * apply Nat.ltb_lt in Eshort.
        rewrite length_firstn, length_skipn in Eshort.
        cbn [option_map]. f_equal.
        rewrite (firstn_all2 (n := (skip + SubgraphClient.pageSize)%nat))
          by lia.
        reflexivity.
      * apply Nat.ltb_ge in Eshort.
        rewrite length_firstn, length_skipn in Eshort.
        apply IH; [lia|]. rewrite Nat.mul_succ_l in Hfuel. lia.
Qed.

(** X22.  Against an indexer that serves one list page by page (the [limit]
    items after the first [skip]), [paginateQuery] returns the first
    [maxResults] items of that list, and the whole list when it is not
    longer. *)
Theorem paginateQuery_returns_the_served_prefix
  {T : Type} (data : list T) (maxResults : nat) :
  let queryFn limit skip := firstn limit (skipn skip data) in
  SubgraphClient.paginateQuery queryFn maxResults
  = Some (firstn maxResults data)
  /\ ((List.length data <= maxResults)%nat ->
      SubgraphClient.paginateQuery queryFn maxResults = Some data).
Proof.
  cbv zeta.
  assert (H : SubgraphClient.paginateQuery
                (fun limit skip => firstn limit (skipn skip data)) maxResults
              = Some (firstn maxResults data)).
  { unfold SubgraphClient.paginateQuery.
    apply (paginateLoop_served data maxResults maxResults 0%nat).
    - lia.
    - unfold SubgraphClient.pageSize. lia. }
  split; [exact H|].
  intros Hlen. rewrite H. f_equal. now apply firstn_all2.
Qed.

(** ** Further properties: sampling the trades of a price history *)

Lemma item_In {A : Type} (l : list A) (index : number) (x : A) :
  JSArray.item l index = Some x -> In x l.
Proof.
  unfold JSArray.item.
  destruct (Prim2SF index) as [s|s| |[|] m e]; try discriminate;
    try apply nth_error_In.
  destruct (0 <=? e)%Z; [apply nth_error_In|].
  destruct (Z.land (Z.pos m) (Z.ones (- e)) =? 0)%Z;
    [apply nth_error_In|discriminate].
Qed.

(** X23.  [sampleTrades] returns as many entries as there are trades or as
    the sample count, whichever is smaller: the trades themselves, in order,
    when they are not more than the count, and otherwise one entry per
    sample, each of which, when defined, is a trade of the input. *)
Theorem sampleTrades_size_and_origin
  {A : Type} (trades : list A) (numSamples : nat) :
  List.length (DataTransformer.sampleTrades trades numSamples)
  = Nat.min (List.length trades) numSamples
  /\ ((List.length trades <= numSamples)%nat ->
      DataTransformer.sampleTrades trades numSamples = map Some trades)
  /\ (forall t, In (Some t) (DataTransformer.sampleTrades trades numSamples) ->
                In t trades).
Proof.
  unfold DataTransformer.sampleTrades.
  destruct (List.length trades <=? numSamples)%nat eqn:E.
  - apply Nat.leb_le in E. split; [|split].
    + rewrite length_map. lia.
    + reflexivity.
    + intros t Ht. apply in_map_iff in Ht as (x & Hx & Hin).
      now injection Hx as <-.
  - apply Nat.leb_gt in E. cbv zeta. split; [|split].
    + rewrite length_map, length_seq. lia.
    + lia.
    + intros t Ht. apply in_map_iff in Ht as (i & Hi & _).
      now apply item_In in Hi.
Qed.
(** ** Further properties: the pool of a backtest *)

Lemma resolvedMarkets_idempotent (markets : list Market.t) :
  BacktestEngine.resolvedMarkets (BacktestEngine.resolvedMarkets markets)
  = BacktestEngine.resolvedMarkets markets.
Proof.
  unfold BacktestEngine.resolvedMarkets.
  induction markets as [|m ms IH]; [reflexivity|].
  cbn [filter]. destruct (BacktestEngine.isResolved m) eqn:E; [|exact IH].
  cbn [filter]. rewrite E. now rewrite IH.
Qed.

Lemma backtest_resolved_pool (now : Date) (strategy : Strategy.t)
  (markets others : list Market.t) (trainingRatio : option number) :
  BacktestEngine.resolvedMarkets others
  = BacktestEngine.resolvedMarkets markets ->
  BacktestEngine.backtest now strategy others trainingRatio
  = BacktestEngine.backtest now strategy markets trainingRatio.
Proof.
  intros H.
  assert (Hs : BacktestEngine.sortedMarkets others
               = BacktestEngine.sortedMarkets markets).
  { unfold BacktestEngine.sortedMarkets. now rewrite H. }
  unfold BacktestEngine.backtest, BacktestEngine.proposedBets,
    BacktestEngine.backtestContext, BacktestEngine.preparedTestMarkets,
    BacktestEngine.trainingMarkets, BacktestEngine.testMarkets,
    BacktestEngine.splitIndex.
  now rewrite Hs.
Qed.

(** X24.  A backtest looks only at the resolved markets of its pool: run on
    the pool or on its resolved markets alone it returns the same result, and
    an unresolved market added anywhere in the pool changes nothing. *)
Theorem backtest_ignores_unresolved_markets
  (now : Date) (strategy : Strategy.t) (markets : list Market.t)
  (trainingRatio : option number) :
  BacktestEngine.backtest now strategy
    (BacktestEngine.resolvedMarkets markets) trainingRatio
  = BacktestEngine.backtest now strategy markets trainingRatio
  /\ forall before after m,
       markets = before ++ after ->
       Market.resolvedOutcome m = None ->
       BacktestEngine.backtest now strategy (before ++ m :: after)
         trainingRatio
       = BacktestEngine.backtest now strategy markets trainingRatio.
Proof.
  split.
  - apply backtest_resolved_pool, resolvedMarkets_idempotent.
  - intros before after m -> Hm. apply backtest_resolved_pool.
    unfold BacktestEngine.resolvedMarkets. rewrite !filter_app.
    cbn [filter]. unfold BacktestEngine.isResolved at 2. now rewrite Hm.
Qed.
(** ** Further properties: the order of the copied whale trades *)

Lemma SFleb_trans (x y z : spec_float) :
  SFleb x y = true -> SFleb y z = true -> SFleb x z = true.
Proof.
  unfold SFleb.
  destruct x as [s1|s1| |s1 m1 e1], y as [s2|s2| |s2 m2 e2],
    z as [s3|s3| |s3 m3 e3]; simpl; try discriminate; try reflexivity;
    try (destruct s1; simpl; try discriminate; try reflexivity);
    try (destruct s2; simpl; try discriminate; try reflexivity);
    try (destruct s3; simpl; try discriminate; try reflexivity).
  all: change (Pos.compare_cont Eq) with Pos.compare.
  all: destruct (Z.compare_spec e1 e2), (Z.compare_spec e2 e3),
         (Z.compare_spec e1 e3); subst;
       try lia; try discriminate; try reflexivity.
  all: destruct (Pos.compare_spec m1 m2), (Pos.compare_spec m2 m3),
         (Pos.compare_spec m1 m3); subst; simpl;
       try lia; try discriminate; try reflexivity.
Qed.

Lemma leb_trans (x y z : number) :
  (x <=? y) = true -> (y <=? z) = true -> (x <=? z) = true.
Proof. rewrite !leb_spec. apply SFleb_trans. Qed.

Lemma leb_not_nan (x y : number) :
  (x <=? y) = true -> is_nan x = false /\ is_nan y = false.
Proof.
  rewrite !is_nan_spec, leb_spec. unfold SFleb.
  destruct (Prim2SF x), (Prim2SF y); simpl; try discriminate; auto.
Qed.

Lemma eqb_leb (x y : number) : (x =? y) = true -> (y <=? x) = true.
Proof.
  rewrite eqb_spec, leb_spec. unfold SFeqb, SFleb.
  rewrite (SFcompare_antisym (Prim2SF x) (Prim2SF y)).
  destruct (SFcompare (Prim2SF x) (Prim2SF y)) as [[]|]; simpl; congruence.
Qed.

Lemma desc_before_spec (x y : number) :
  match CompOpp (Lodash.compareAscending_number x y) with
  | Gt => false
  | _ => true
  end = is_nan x || (y <=? x).
Proof.
  unfold Lodash.compareAscending_number.
  destruct (x =? y) eqn:Eeq.
  - rewrite (eqb_leb _ _ Eeq). now rewrite orb_true_r.
  - destruct (is_nan x) eqn:Enx; [reflexivity|].
    destruct (is_nan y) eqn:Eny.
    + simpl. destruct (y <=? x) eqn:E; [|reflexivity].
      apply leb_not_nan in E as [E _]. congruence.
    + destruct (y <? x) eqn:Elt.
      * simpl. now rewrite (ltb_leb _ _ Elt).
      * destruct (x <? y) eqn:Egt; simpl.
        -- destruct (y <=? x) eqn:E; [|reflexivity].
           apply leb_not_ltb in E. congruence.
        -- now rewrite (not_ltb_leb x y Enx Eny Egt).
Qed.

Lemma desc_before_total (x y : number) :
  is_nan x || (y <=? x) = false -> is_nan y || (x <=? y) = true.
Proof.
  intros H. apply orb_false_iff in H as [Hx Hle].
  destruct (is_nan y) eqn:Hy; [reflexivity|]. simpl.
  apply not_ltb_leb; try assumption.
  destruct (y <? x) eqn:E; [|reflexivity].
  apply ltb_leb in E. congruence.
Qed.

Lemma desc_before_trans (x y z : number) :
  is_nan x || (y <=? x) = true -> is_nan y || (z <=? y) = true ->
  is_nan x || (z <=? x) = true.
Proof.
  destruct (is_nan x); [reflexivity|]. simpl. intros Hyx Hzy.
  destruct (leb_not_nan _ _ Hyx) as [Hy _]. rewrite Hy in Hzy. simpl in Hzy.
  eapply leb_trans; eassumption.
Qed.

Lemma orderBy_number_desc_sorted {A : Type} (key : A -> number) (l : list A) :
  StronglySorted
    (fun a b => is_nan (key a) || (key b <=? key a) = true)
    (Lodash.orderBy Lodash.compareAscending_number key Lodash.desc l).
Proof.
  unfold Lodash.orderBy.
  eapply StronglySorted_impl; [|apply stable_sort_sorted].
  - intros a b. cbv beta. now rewrite desc_before_spec.
  - intros a b. rewrite !desc_before_spec. apply desc_before_total.
  - intros a b c. rewrite !desc_before_spec. apply desc_before_trans.
Qed.

Lemma StronglySorted_split {A : Type} (R : A -> A -> Prop) (l1 l2 : list A) :
  StronglySorted R (l1 ++ l2) ->
  StronglySorted R l1 /\ forall a b, In a l1 -> In b l2 -> R a b.
Proof.
  induction l1 as [|x l1 IH]; simpl; intros H.
  - split; [constructor|]. intros a b [].
  - inversion H as [|? ? Hs Hx]; subst.
    destruct (IH Hs) as [IH1 IH2]. split.
    + constructor; [exact IH1|].
      apply Forall_forall. intros y Hy.
      rewrite Forall_forall in Hx. apply Hx, in_or_app. now left.
    + intros a b [<-|Ha] Hb.
      * rewrite Forall_forall in Hx. apply Hx, in_or_app. now right.
      * now apply IH2.
Qed.

Lemma filter_filter {A : Type} (f g : A -> bool) (l : list A) :
  filter f (filter g l) = filter (fun x => g x && f x) l.
Proof.
  induction l as [|x l IH]; [reflexivity|]. simpl.
  destruct (g x); simpl; [destruct (f x)|]; now rewrite IH.
Qed.

(** X25.  The whale-copy strategy copies the biggest recent whale trades of a
    market first: the copied trades are in order of non-increasing amount,
    and no recent whale trade that is left out is bigger than a copied one
    (a trade whose amount is NaN counts as the biggest). *)
Theorem whale_bets_biggest_first
  (params : Strategies.CopyTradingParams.t) (now : Date)
  (mode : StrategyMode) (market : Market.t) :
  let decisionTime := Strategies.determineDecisionTime now market mode in
  let recentWhale trade :=
    let timeDiff :=
      (JS.getTime decisionTime - JS.getTime (Trade.timestamp trade)) / 1000 in
    negb (Trade.amount trade
          <? Strategies.CopyTradingParams.minWhaleVolume params)
    && (JS.getTime (Trade.timestamp trade) <=? JS.getTime decisionTime)
    && ((0 <=? timeDiff)
        && (timeDiff <=? Strategies.CopyTradingParams.copyDelay params)) in
  let noSmaller a b :=
    is_nan (Trade.amount a) || (Trade.amount b <=? Trade.amount a) = true in
  exists copied skipped,
    Permutation (copied ++ skipped)
      (filter recentWhale (Market.trades market))
    /\ map (fun b => (Bet.outcome b, Bet.side b, Bet.priceLimit b))
         (Strategies.copyTrading_market params now mode market)
       = map (fun t => (Trade.outcome t, Trade.side t,
                        Strategies.clampPrice (Trade.price t + 0.02)))
           copied
    /\ StronglySorted noSmaller copied
    /\ (forall a b, In a copied -> In b skipped -> noSmaller a b).
Proof.
  intros decisionTime recentWhale noSmaller.
  unfold Strategies.copyTrading_market. fold decisionTime.
  destruct (negb (Strategies.isMarketEligible market mode)
            || (Market.liquidity market
                <? Strategies.CopyTradingParams.minMarketLiquidity params))
    eqn:Eskip.
  - exists [], (filter recentWhale (Market.trades market)).
    split; [reflexivity|]. split.
    + destruct (negb _); [reflexivity|]. simpl in Eskip. now rewrite Eskip.
    + split; [constructor|]. intros a b [].
  - apply orb_false_iff in Eskip as [-> ->]. cbv zeta.
    match goal with
    | |- context [filter ?f (filter ?g ?l)] =>
        rewrite (filter_filter f g l);
        rewrite (filter_ext (fun x => g x && f x) recentWhale)
          by (intros t; unfold recentWhale;
              destruct (Trade.amount t <? _); reflexivity)
    end.
    set (recent := filter recentWhale (Market.trades market)).
    set (sorted := Lodash.orderBy Lodash.compareAscending_number Trade.amount
                     Lodash.desc recent).
    rewrite slice_to.
    set (k := Z.to_nat _).
    exists (firstn k sorted), (skipn k sorted).
    rewrite firstn_skipn. split; [|split].
    + symmetry. apply orderBy_perm.
    + rewrite !map_map. reflexivity.
    + apply StronglySorted_split. rewrite firstn_skipn.
      apply orderBy_number_desc_sorted.
Qed.

(** ** C9: the most volatile markets *)

(** *** The sign of a difference

    For two numbers that are not NaN, [b - a] is positive exactly when
    [a < b]: the comparison function [(a, b) => b.variance - a.variance]
    orders by descending variance. *)












